(** * Capital allocation and yield distribution engine

    A shallow embedding of the Solidity contracts of the repository
    (pragma ^0.8.24, OpenZeppelin Contracts v5):

    - [YieldDonatingVault]  contracts/src/core/YieldDonatingVault.sol
    - [StrategyManager]     contracts/src/core/StrategyManager.sol
    - [HealthCheck]         contracts/src/utils/HealthCheck.sol
    - [Strategy]            contracts/src/strategies/*Strategy.sol
    - [VaultTest]           the vault's test contract, [YieldDonatingVaultTest]

    Unsigned 256-bit integers are integers of [Z]; checked arithmetic
    reverts with [Panic 0x11] outside [0, 2^256), unchecked arithmetic
    wraps.  A transaction either returns a value together with the new
    storage ([Ok]) or reverts ([Err]), in which case storage is the one
    before the call.  Events are left out: no contract reads them.

    The vault inherits [ERC4626], [ERC20] and [Ownable] from OpenZeppelin
    Contracts ([Ownable(owner_)] is the v5 constructor); the inherited
    functions are embedded from that library, next to the contract's
    own. *)

From Stdlib Require Import ZArith Lia Bool List String.
From stdpp Require Import base option gmap.
Import ListNotations.

Local Open Scope string_scope.
Local Open Scope Z_scope.

(** ** The execution environment *)

Module EVM.

(** Addresses are 160-bit words; the zero address is 0. *)
Abbreviation address := Z (only parsing).

Definition MAX_UINT256 : Z := 2 ^ 256 - 1.

Definition uint256 (x : Z) : Prop := 0 <= x <= MAX_UINT256.

(** [msg.sender] and [block.timestamp] of the running call. *)
Record Env : Type := {
  msg_sender : address;
  block_timestamp : Z
}.

Inductive error : Type :=
| Revert (reason : string)    (* require(cond, reason) *)
| Panic (code : Z)            (* 0x11 overflow or underflow, 0x12 division by zero *)
| CustomError (name : string) (* revert Name(...) of the inherited library contracts *)
| NoCode                      (* a high-level call to an address without code *).

Inductive result (A : Type) : Type :=
| Ok (a : A)
| Err (e : error).

Arguments Ok {A} a.
Arguments Err {A} e.

Definition bind {A B : Type} (m : result A) (k : A -> result B) : result B :=
  match m with
  | Ok a => k a
  | Err e => Err e
  end.

Definition require (cond : bool) (reason : string) : result unit :=
  if cond then Ok tt else Err (Revert reason).

Definition revert_if (cond : bool) (name : string) : result unit :=
  if cond then Err (CustomError name) else Ok tt.

(** Checked arithmetic of Solidity 0.8 on [uint256]. *)
Definition add (a b : Z) : result Z :=
  if a + b <=? MAX_UINT256 then Ok (a + b) else Err (Panic 17).

Definition sub (a b : Z) : result Z :=
  if b <=? a then Ok (a - b) else Err (Panic 17).

Definition mul (a b : Z) : result Z :=
  if a * b <=? MAX_UINT256 then Ok (a * b) else Err (Panic 17).

Definition div (a b : Z) : result Z :=
  if b =? 0 then Err (Panic 18) else Ok (a / b).

(** Arithmetic inside an [unchecked] block. *)
Definition wrap (x : Z) : Z := x mod 2 ^ 256.

End EVM.

Export EVM.

Declare Scope evm_scope.
Delimit Scope evm_scope with evm.
Notation "'let*' x ':=' c 'in' k" := (bind c (fun x => k))
  (at level 10, x name, c at level 100, k at level 200) : evm_scope.
Notation "'let*' ' p ':=' c 'in' k" := (bind c (fun x => match x with p => k end))
  (at level 10, p pattern, c at level 100, k at level 200) : evm_scope.
Local Open Scope evm_scope.

(** ** OpenZeppelin [ERC20] (v5)

    The storage and the internal functions of the token contract both the
    vault's share token (the vault inherits it through [ERC4626]) and the
    underlying asset ([ERC20Mock] in the deployment script and the tests)
    are instances of. *)

Module ERC20.

Record t : Type := {
  _balances : gmap Z Z;
  _allowances : gmap Z (gmap Z Z);
  _totalSupply : Z
}.

Definition balanceOf (tok : t) (account : address) : Z :=
  default 0 (_balances tok !! account).

Definition allowance (tok : t) (owner spender : address) : Z :=
  default 0 (default ∅ (_allowances tok !! owner) !! spender).

Definition set_balance (tok : t) (account : address) (value : Z) : t :=
  {| _balances := <[account := value]> (_balances tok);
     _allowances := _allowances tok;
     _totalSupply := _totalSupply tok |}.

Definition set_totalSupply (tok : t) (value : Z) : t :=
  {| _balances := _balances tok;
     _allowances := _allowances tok;
     _totalSupply := value |}.

Definition set_allowance (tok : t) (owner spender : address) (value : Z) : t :=
  {| _balances := _balances tok;
     _allowances :=
       <[owner := <[spender := value]> (default ∅ (_allowances tok !! owner))]>
         (_allowances tok);
     _totalSupply := _totalSupply tok |}.

(** [_update]: the one place balances move.  The debit is guarded, the
    credit and the burn are in [unchecked] blocks. *)
Definition _update (from to : address) (value : Z) (tok : t) : result t :=
  let* tok1 :=
    (if from =? 0 then
       let* s := add (_totalSupply tok) value in
       Ok (set_totalSupply tok s)
     else
       let fromBalance := balanceOf tok from in
       let* _ := revert_if (fromBalance <? value) "ERC20InsufficientBalance" in
       Ok (set_balance tok from (fromBalance - value))) in
  if to =? 0 then
    Ok (set_totalSupply tok1 (wrap (_totalSupply tok1 - value)))
  else
    Ok (set_balance tok1 to (wrap (balanceOf tok1 to + value))).

Definition _transfer (from to : address) (value : Z) (tok : t) : result t :=
  let* _ := revert_if (from =? 0) "ERC20InvalidSender" in
  let* _ := revert_if (to =? 0) "ERC20InvalidReceiver" in
  _update from to value tok.

Definition _mint (account : address) (value : Z) (tok : t) : result t :=
  let* _ := revert_if (account =? 0) "ERC20InvalidReceiver" in
  _update 0 account value tok.

Definition _burn (account : address) (value : Z) (tok : t) : result t :=
  let* _ := revert_if (account =? 0) "ERC20InvalidSender" in
  _update account 0 value tok.

Definition _approve (owner spender : address) (value : Z) (tok : t) : result t :=
  let* _ := revert_if (owner =? 0) "ERC20InvalidApprover" in
  let* _ := revert_if (spender =? 0) "ERC20InvalidSpender" in
  Ok (set_allowance tok owner spender value).

Definition _spendAllowance (owner spender : address) (value : Z) (tok : t)
  : result t :=
  let currentAllowance := allowance tok owner spender in
  if currentAllowance =? MAX_UINT256 then Ok tok
  else
    let* _ := revert_if (currentAllowance <? value) "ERC20InsufficientAllowance" in
    _approve owner spender (currentAllowance - value) tok.

(** The external functions; [sender] is [msg.sender]. *)
Definition transfer (sender to : address) (value : Z) (tok : t) : result (bool * t) :=
  let* tok' := _transfer sender to value tok in
  Ok (true, tok').

Definition approve (sender spender : address) (value : Z) (tok : t) : result (bool * t) :=
  let* tok' := _approve sender spender value tok in
  Ok (true, tok').

Definition transferFrom (sender from to : address) (value : Z) (tok : t)
  : result (bool * t) :=
  let* tok1 := _spendAllowance from sender value tok in
  let* tok2 := _transfer from to value tok1 in
  Ok (true, tok2).

(** The ledger invariant of the token: no balance is negative, the
    balances add up to the total supply, and the supply is a [uint256]. *)
Definition sum_balances (m : gmap Z Z) : Z :=
  map_fold (fun _ v acc => v + acc) 0 m.

Definition wf (tok : t) : Prop :=
  map_Forall (fun _ v => 0 <= v) (_balances tok) /\
  sum_balances (_balances tok) = _totalSupply tok /\
  _totalSupply tok <= MAX_UINT256.

#[global] Instance wf_dec (tok : t) : Decision (wf tok).
Proof. unfold wf. apply _. Defined.

(** What a transfer of [value] from [from] to [to] does to the ledger:
    the value moves between the two balances, and a transfer to oneself
    changes no balance. *)
Definition moved (from to : address) (value : Z) (tok tok' : t) : Prop :=
  (forall a : address,
     balanceOf tok' a =
     if decide (from = to) then balanceOf tok a
     else if decide (a = from) then balanceOf tok a - value
     else if decide (a = to) then balanceOf tok a + value
     else balanceOf tok a) /\
  _totalSupply tok' = _totalSupply tok /\
  _allowances tok' = _allowances tok.

End ERC20.

(** ** [YieldDonatingVault]

    [contract YieldDonatingVault is ERC4626, Ownable, IYieldDonatingVault].
    The inherited [ERC4626] reads [totalAssets()] from the asset token's
    ledger, so the model carries the asset token next to the vault's own
    storage. *)

Module Vault.

(** OpenZeppelin [Math.Rounding] and [Math.mulDiv(x, y, denominator, rounding)]:
    the quotient of the full-precision product. *)
Inductive Rounding : Type := Floor | Ceil.

Definition mulDiv (x y denominator : Z) (rounding : Rounding) : result Z :=
  if denominator =? 0 then Err (Panic 18)
  else
    let q := x * y / denominator in
    let q' := match rounding with
              | Floor => q
              | Ceil => if 0 <? (x * y) mod denominator then q + 1 else q
              end in
    if q' <=? MAX_UINT256 then Ok q' else Err (Panic 17).

(** Storage of the vault contract. *)
Record t : Type := {
  this : address;                (* address(this) *)
  token : ERC20.t;               (* ERC20: the share token *)
  _owner : address;              (* Ownable *)
  donationAddress : address;
  _totalUserDeposits : Z;
  lastDonationTimestamp : Z
}.

(** The vault and the ledger of the underlying asset. *)
Record state : Type := {
  asset : ERC20.t;
  vault : t
}.

Definition MIN_DONATION_INTERVAL : Z := 86400. (* 1 days *)

Definition set_token (v : t) (tok : ERC20.t) : t :=
  {| this := this v; token := tok; _owner := _owner v;
     donationAddress := donationAddress v;
     _totalUserDeposits := _totalUserDeposits v;
     lastDonationTimestamp := lastDonationTimestamp v |}.

Definition set_owner (v : t) (o : address) : t :=
  {| this := this v; token := token v; _owner := o;
     donationAddress := donationAddress v;
     _totalUserDeposits := _totalUserDeposits v;
     lastDonationTimestamp := lastDonationTimestamp v |}.

Definition set_donationAddress (v : t) (a : address) : t :=
  {| this := this v; token := token v; _owner := _owner v;
     donationAddress := a;
     _totalUserDeposits := _totalUserDeposits v;
     lastDonationTimestamp := lastDonationTimestamp v |}.

Definition set_totalUserDeposits (v : t) (p : Z) : t :=
  {| this := this v; token := token v; _owner := _owner v;
     donationAddress := donationAddress v;
     _totalUserDeposits := p;
     lastDonationTimestamp := lastDonationTimestamp v |}.

Definition set_lastDonationTimestamp (v : t) (ts : Z) : t :=
  {| this := this v; token := token v; _owner := _owner v;
     donationAddress := donationAddress v;
     _totalUserDeposits := _totalUserDeposits v;
     lastDonationTimestamp := ts |}.

Definition with_vault (s : state) (v : t) : state :=
  {| asset := asset s; vault := v |}.

Definition with_asset (s : state) (a : ERC20.t) : state :=
  {| asset := a; vault := vault s |}.

(** *** Inherited: [Ownable] *)

Definition onlyOwner (e : Env) (s : state) : result unit :=
  revert_if (negb (_owner (vault s) =? msg_sender e)) "OwnableUnauthorizedAccount".

Definition transferOwnership (e : Env) (newOwner : address) (s : state)
  : result state :=
  let* _ := onlyOwner e s in
  let* _ := revert_if (newOwner =? 0) "OwnableInvalidOwner" in
  Ok (with_vault s (set_owner (vault s) newOwner)).

Definition renounceOwnership (e : Env) (s : state) : result state :=
  let* _ := onlyOwner e s in
  Ok (with_vault s (set_owner (vault s) 0)).

(** *** Inherited: [ERC4626] *)

(** [totalAssets()] is [IERC20(asset()).balanceOf(address(this))]. *)
Definition totalAssets (s : state) : Z :=
  ERC20.balanceOf (asset s) (this (vault s)).

Definition totalSupply (s : state) : Z := ERC20._totalSupply (token (vault s)).

(** [_decimalsOffset()] is 0, so [10 ** _decimalsOffset()] is 1. *)
Definition _convertToShares (assets : Z) (rounding : Rounding) (s : state)
  : result Z :=
  let* supply := add (totalSupply s) 1 in
  let* total := add (totalAssets s) 1 in
  mulDiv assets supply total rounding.

Definition _convertToAssets (shares : Z) (rounding : Rounding) (s : state)
  : result Z :=
  let* total := add (totalAssets s) 1 in
  let* supply := add (totalSupply s) 1 in
  mulDiv shares total supply rounding.

Definition previewDeposit (assets : Z) := _convertToShares assets Floor.
Definition previewMint (shares : Z) := _convertToAssets shares Ceil.
Definition previewWithdraw (assets : Z) := _convertToShares assets Ceil.
Definition previewRedeem (shares : Z) := _convertToAssets shares Floor.

Definition maxWithdraw (owner : address) (s : state) : result Z :=
  _convertToAssets (ERC20.balanceOf (token (vault s)) owner) Floor s.

Definition maxRedeem (owner : address) (s : state) : Z :=
  ERC20.balanceOf (token (vault s)) owner.

(** [_deposit]: pull the assets from the caller, then mint the shares. *)
Definition _deposit (caller receiver : address) (assets shares : Z) (s : state)
  : result state :=
  let* '(_, a) :=
    ERC20.transferFrom (this (vault s)) caller (this (vault s)) assets (asset s) in
  let* tok := ERC20._mint receiver shares (token (vault s)) in
  Ok {| asset := a; vault := set_token (vault s) tok |}.

(** [_withdraw]: spend the caller's share allowance when it is not the
    owner, burn the shares, then send the assets to the receiver. *)
Definition _withdraw (caller receiver owner : address) (assets shares : Z)
  (s : state) : result state :=
  let* tok1 :=
    (if caller =? owner then Ok (token (vault s))
     else ERC20._spendAllowance owner caller shares (token (vault s))) in
  let* tok2 := ERC20._burn owner shares tok1 in
  let* '(_, a) := ERC20.transfer (this (vault s)) receiver assets (asset s) in
  Ok {| asset := a; vault := set_token (vault s) tok2 |}.

(** [super.deposit], [super.mint], [super.withdraw], [super.redeem];
    [maxDeposit] and [maxMint] are [type(uint256).max], so their guards
    never fire on a [uint256] argument. *)
Definition super_deposit (e : Env) (assets : Z) (receiver : address) (s : state)
  : result (Z * state) :=
  let* _ := revert_if (MAX_UINT256 <? assets) "ERC4626ExceededMaxDeposit" in
  let* shares := previewDeposit assets s in
  let* s' := _deposit (msg_sender e) receiver assets shares s in
  Ok (shares, s').

Definition super_mint (e : Env) (shares : Z) (receiver : address) (s : state)
  : result (Z * state) :=
  let* _ := revert_if (MAX_UINT256 <? shares) "ERC4626ExceededMaxMint" in
  let* assets := previewMint shares s in
  let* s' := _deposit (msg_sender e) receiver assets shares s in
  Ok (assets, s').

Definition super_withdraw (e : Env) (assets : Z) (receiver owner : address)
  (s : state) : result (Z * state) :=
  let* maxAssets := maxWithdraw owner s in
  let* _ := revert_if (maxAssets <? assets) "ERC4626ExceededMaxWithdraw" in
  let* shares := previewWithdraw assets s in
  let* s' := _withdraw (msg_sender e) receiver owner assets shares s in
  Ok (shares, s').

Definition super_redeem (e : Env) (shares : Z) (receiver owner : address)
  (s : state) : result (Z * state) :=
  let maxShares := maxRedeem owner s in
  let* _ := revert_if (maxShares <? shares) "ERC4626ExceededMaxRedeem" in
  let* assets := previewRedeem shares s in
  let* s' := _withdraw (msg_sender e) receiver owner assets shares s in
  Ok (assets, s').

(** *** The contract's own functions *)

Definition constructor (e : Env) (self : address) (asset_ : ERC20.t)
  (_donationAddress owner_ : address) : result state :=
  let* _ := revert_if (owner_ =? 0) "OwnableInvalidOwner" in
  let* _ := require (negb (_donationAddress =? 0)) "Invalid donation address" in
  Ok {| asset := asset_;
        vault := {| this := self;
                    token := {| ERC20._balances := ∅;
                                ERC20._allowances := ∅;
                                ERC20._totalSupply := 0 |};
                    _owner := owner_;
                    donationAddress := _donationAddress;
                    _totalUserDeposits := 0;
                    lastDonationTimestamp := block_timestamp e |} |}.

Definition setDonationAddress (e : Env) (_donationAddress : address) (s : state)
  : result state :=
  let* _ := onlyOwner e s in
  let* _ := require (negb (_donationAddress =? 0)) "Invalid donation address" in
  Ok (with_vault s (set_donationAddress (vault s) _donationAddress)).

Definition deposit (e : Env) (assets : Z) (receiver : address) (s : state)
  : result (Z * state) :=
  let* '(shares, s1) := super_deposit e assets receiver s in
  let* p := add (_totalUserDeposits (vault s1)) assets in
  Ok (shares, with_vault s1 (set_totalUserDeposits (vault s1) p)).

Definition mint (e : Env) (shares : Z) (receiver : address) (s : state)
  : result (Z * state) :=
  let* '(assets, s1) := super_mint e shares receiver s in
  let* p := add (_totalUserDeposits (vault s1)) assets in
  Ok (assets, with_vault s1 (set_totalUserDeposits (vault s1) p)).

(** The principal adjustment both [withdraw] and [redeem] run before
    handing over to the inherited function. *)
Definition reduceDeposits (assets : Z) (s : state) : result state :=
  let totalAssets_ := totalAssets s in
  if 0 <? totalAssets_ then
    let* product := mul (_totalUserDeposits (vault s)) assets in
    let* proportionalDeposits := div product totalAssets_ in
    if proportionalDeposits <=? _totalUserDeposits (vault s) then
      let* p := sub (_totalUserDeposits (vault s)) proportionalDeposits in
      Ok (with_vault s (set_totalUserDeposits (vault s) p))
    else Ok s
  else Ok s.

Definition withdraw (e : Env) (assets : Z) (receiver owner : address) (s : state)
  : result (Z * state) :=
  let* s1 := reduceDeposits assets s in
  super_withdraw e assets receiver owner s1.

Definition redeem (e : Env) (shares : Z) (receiver owner : address) (s : state)
  : result (Z * state) :=
  let* assets := previewRedeem shares s in
  let* s1 := reduceDeposits assets s in
  super_redeem e shares receiver owner s1.

Definition donateYield (e : Env) (s : state) : result (Z * state) :=
  let* earliest := add (lastDonationTimestamp (vault s)) MIN_DONATION_INTERVAL in
  let* _ := require (earliest <=? block_timestamp e) "Donation cooldown not met" in
  let totalAssets_ := totalAssets s in
  if totalAssets_ <=? _totalUserDeposits (vault s) then Ok (0, s)
  else
    let* donatedAmount := sub totalAssets_ (_totalUserDeposits (vault s)) in
    let* '(_, a) :=
      ERC20.transfer (this (vault s)) (donationAddress (vault s)) donatedAmount
        (asset s) in
    Ok (donatedAmount,
        {| asset := a;
           vault := set_lastDonationTimestamp (vault s) (block_timestamp e) |}).

Definition totalUserDeposits (s : state) : result Z :=
  Ok (_totalUserDeposits (vault s)).

Definition getAccumulatedYield (s : state) : result Z :=
  let totalAssets_ := totalAssets s in
  if totalAssets_ <=? _totalUserDeposits (vault s) then Ok 0
  else sub totalAssets_ (_totalUserDeposits (vault s)).

Definition transferToStrategyManager (e : Env) (amount : Z) (s : state)
  : result state :=
  let* _ := onlyOwner e s in
  let* '(_, a) := ERC20.transfer (this (vault s)) (msg_sender e) amount (asset s) in
  Ok (with_asset s a).

(** *** Inherited: the external functions of the share token *)

Definition transfer (e : Env) (to : address) (value : Z) (s : state)
  : result (bool * state) :=
  let* '(b, tok) := ERC20.transfer (msg_sender e) to value (token (vault s)) in
  Ok (b, with_vault s (set_token (vault s) tok)).

Definition approve (e : Env) (spender : address) (value : Z) (s : state)
  : result (bool * state) :=
  let* '(b, tok) := ERC20.approve (msg_sender e) spender value (token (vault s)) in
  Ok (b, with_vault s (set_token (vault s) tok)).

Definition transferFrom (e : Env) (from to : address) (value : Z) (s : state)
  : result (bool * state) :=
  let* '(b, tok) :=
    ERC20.transferFrom (msg_sender e) from to value (token (vault s)) in
  Ok (b, with_vault s (set_token (vault s) tok)).

(** *** The vault as a transition system

    One constructor per external function that can be sent to the vault:
    the ones the contract declares, and the state-changing ones it
    inherits.  [exec] returns the ABI-encoded result word (0 where the
    function returns nothing) and the storage after the call; a [view]
    function returns the storage it was given. *)
Inductive call : Type :=
| SetDonationAddress (_donationAddress : address)
| Deposit (assets : Z) (receiver : address)
| Mint (shares : Z) (receiver : address)
| Withdraw (assets : Z) (receiver owner : address)
| Redeem (shares : Z) (receiver owner : address)
| DonateYield
| TotalUserDeposits
| GetAccumulatedYield
| TransferToStrategyManager (amount : Z)
| Transfer (to : address) (value : Z)
| Approve (spender : address) (value : Z)
| TransferFrom (from to : address) (value : Z)
| TransferOwnership (newOwner : address)
| RenounceOwnership.

Definition returns_nothing (r : result state) : result (Z * state) :=
  let* s' := r in Ok (0, s').

Definition returns_bool (r : result (bool * state)) : result (Z * state) :=
  let* '(b, s') := r in Ok (Z.b2z b, s').

Definition view (s : state) (r : result Z) : result (Z * state) :=
  let* v := r in Ok (v, s).

Definition exec (e : Env) (c : call) (s : state) : result (Z * state) :=
  match c with
  | SetDonationAddress a => returns_nothing (setDonationAddress e a s)
  | Deposit assets receiver => deposit e assets receiver s
  | Mint shares receiver => mint e shares receiver s
  | Withdraw assets receiver owner => withdraw e assets receiver owner s
  | Redeem shares receiver owner => redeem e shares receiver owner s
  | DonateYield => donateYield e s
  | TotalUserDeposits => view s (totalUserDeposits s)
  | GetAccumulatedYield => view s (getAccumulatedYield s)
  | TransferToStrategyManager amount =>
      returns_nothing (transferToStrategyManager e amount s)
  | Transfer to value => returns_bool (transfer e to value s)
  | Approve spender value => returns_bool (approve e spender value s)
  | TransferFrom from to value => returns_bool (transferFrom e from to value s)
  | TransferOwnership newOwner => returns_nothing (transferOwnership e newOwner s)
  | RenounceOwnership => returns_nothing (renounceOwnership e s)
  end.

(** The storage a transaction leaves behind: a revert undoes every write. *)
Definition commit {A : Type} (s : state) (r : result (A * state)) : state :=
  match r with
  | Ok (_, s') => s'
  | Err _ => s
  end.

(** *** Well-formed states and calls

    What the constructor establishes and every call keeps: the vault and
    the donation recipient are not the zero address, the tracked principal
    is a [uint256], the last donation time is a block timestamp, and both
    token ledgers are well formed.  Block timestamps are 64-bit header
    fields. *)
Definition timestamp (ts : Z) : Prop := 0 <= ts < 2 ^ 64.

Definition env_ok (e : Env) : Prop := timestamp (block_timestamp e).

Definition wf (s : state) : Prop :=
  this (vault s) <> 0 /\
  donationAddress (vault s) <> 0 /\
  uint256 (_totalUserDeposits (vault s)) /\
  timestamp (lastDonationTimestamp (vault s)) /\
  ERC20.wf (asset s) /\
  ERC20.wf (token (vault s)).

#[global] Instance wf_dec (s : state) : Decision (wf s).
Proof. unfold wf, uint256, timestamp. apply _. Defined.

(** The [uint256] arguments of a call are in range. *)
Definition call_ok (c : call) : Prop :=
  match c with
  | Deposit n _ | Mint n _ | Withdraw n _ _ | Redeem n _ _
  | TransferToStrategyManager n | Transfer _ n | Approve _ n
  | TransferFrom _ _ n => uint256 n
  | _ => True
  end.

(** *** The vocabulary of the statements about the vault *)

(** The share of the principal that goes with [assets], and the principal
    [withdraw] and [redeem] leave behind. *)
Definition proportionalPrincipal (assets : Z) (s : state) : Z :=
  _totalUserDeposits (vault s) * assets / totalAssets s.

Definition principal_after (assets : Z) (s : state) : Z :=
  if proportionalPrincipal assets s <=? _totalUserDeposits (vault s)
  then _totalUserDeposits (vault s) - proportionalPrincipal assets s
  else _totalUserDeposits (vault s).

(** Two states of the vault that differ at most in the share token and
    the tracked principal. *)
Definition same_settings (v v' : t) : Prop :=
  this v' = this v /\ _owner v' = _owner v /\
  donationAddress v' = donationAddress v /\
  lastDonationTimestamp v' = lastDonationTimestamp v.

(** The effect of a withdrawal of [assets] paid to [receiver]. *)
Definition withdrawn (assets : Z) (receiver : address) (s s' : state) : Prop :=
  _totalUserDeposits (vault s') = principal_after assets s /\
  totalAssets s' =
    if decide (receiver = this (vault s)) then totalAssets s
    else totalAssets s - assets.

(** The calls that move no asset at all. *)
Definition leaves_assets (c : call) : Prop :=
  match c with
  | SetDonationAddress _ | TotalUserDeposits | GetAccumulatedYield
  | Transfer _ _ | Approve _ _ | TransferFrom _ _ _
  | TransferOwnership _ | RenounceOwnership => True
  | _ => False
  end.

(** The parts of [wf] that do not concern the tracked principal. *)
Definition wf_frame (s : state) : Prop :=
  this (vault s) <> 0 /\ donationAddress (vault s) <> 0 /\
  timestamp (lastDonationTimestamp (vault s)) /\
  ERC20.wf (asset s) /\ ERC20.wf (token (vault s)).

(** The revert reasons and the error kinds they stand for. *)
Definition CooldownNotElapsed : error := Revert "Donation cooldown not met".
Definition InvalidRecipient : error := Revert "Invalid donation address".

(** The tracked principal is covered by the assets the vault holds. *)
Definition solvent (s : state) : Prop :=
  _totalUserDeposits (vault s) <= totalAssets s.

(** The error of [onlyOwner]. *)
Definition Unauthorized : error := CustomError "OwnableUnauthorizedAccount".

(** The value of a share does not go down from [s] to [s']: the ratio
    [(totalAssets + 1) / (totalSupply + 1)] that [_convertToAssets]
    applies is at least what it was. *)
Definition price_kept (s s' : state) : Prop :=
  (totalAssets s + 1) * (totalSupply s' + 1)
  <= (totalAssets s' + 1) * (totalSupply s + 1).

End Vault.

(** ** [HealthCheck] *)

Module HealthCheck.

Definition MAX_SLIPPAGE_BPS : Z := 100.
Definition MIN_REBALANCE_INTERVAL : Z := 3600. (* 1 hours *)

(** [isHealthy(manager)]: the body is [return true]. *)
Definition isHealthy (manager : address) : bool := true.

Definition validateAllocation (aave morpho spark uniswap : Z) : result bool :=
  let* t1 := add aave morpho in
  let* t2 := add t1 spark in
  let* total := add t2 uniswap in
  if negb (total =? 10000) then Ok false
  else if (8000 <? aave) || (8000 <? morpho) || (8000 <? spark) || (8000 <? uniswap)
  then Ok false
  else if (aave <? 500) || (morpho <? 500) || (spark <? 500) || (uniswap <? 500)
  then Ok false
  else Ok true.

(** The bounds the validator puts on one weight. *)
Definition in_bounds (w : Z) : Prop := 500 <= w <= 8000.

End HealthCheck.

(** ** The strategy adapters

    [AaveStrategy], [SparkStrategy] and [UniswapHookStrategy] share their
    storage layout ([UniswapHookStrategy] adds [volatility]) and the bodies
    of their functions; they differ in [withdraw]'s guards
    ([AaveStrategy] has two [require]s where the others have one) and in
    [setVolatility], which [UniswapHookStrategy] alone declares.
    [deposit], [withdraw] and [balanceOf] are the functions the manager
    calls. *)

Module Strategy.

Inductive kind : Type := AaveStrategy | SparkStrategy | UniswapHookStrategy.

Record t : Type := {
  this : address;
  contract : kind;
  _totalAssets : Z;
  _totalShares : Z;
  yieldRate : Z;
  volatility : Z;                (* UniswapHookStrategy only *)
  _balances : gmap Z Z
}.

Definition constructor (self : address) (k : kind) (_initialYieldRate : Z) : t :=
  {| this := self; contract := k; _totalAssets := 0; _totalShares := 1;
     yieldRate := _initialYieldRate; volatility := 0; _balances := ∅ |}.

(** [balanceOf()] is [_balances[msg.sender]]. *)
Definition balanceOf (sender : address) (st : t) : Z :=
  default 0 (_balances st !! sender).

(** [deposit(amount)]; the asset token is passed along and returned. *)
Definition deposit (sender : address) (amount : Z) (asset : ERC20.t) (st : t)
  : result (Z * (ERC20.t * t)) :=
  let* _ := require (0 <? amount) "Amount must be greater than 0" in
  let* '(_, asset') := ERC20.transferFrom (this st) sender (this st) amount asset in
  let* total := add (_totalAssets st) amount in
  let shares := amount in
  let* supply := add (_totalShares st) shares in
  let* balance := add (balanceOf sender st) shares in
  Ok (shares,
      (asset',
       {| this := this st; contract := contract st; _totalAssets := total;
          _totalShares := supply; yieldRate := yieldRate st;
          volatility := volatility st;
          _balances := <[sender := balance]> (_balances st) |})).

Definition withdraw (sender : address) (shares : Z) (asset : ERC20.t) (st : t)
  : result (Z * (ERC20.t * t)) :=
  let* _ :=
    match contract st with
    | AaveStrategy =>
        let* _ := require (0 <? shares) "Shares must be greater than 0" in
        require (shares <=? balanceOf sender st) "Insufficient shares"
    | SparkStrategy | UniswapHookStrategy =>
        require ((0 <? shares) && (shares <=? balanceOf sender st))
          "Insufficient shares"
    end in
  let* amount :=
    (if 0 <? _totalShares st then
       let* product := mul shares (_totalAssets st) in
       div product (_totalShares st)
     else Ok shares) in
  let* _ := require (amount <=? _totalAssets st) "Insufficient assets" in
  let* balance := sub (balanceOf sender st) shares in
  let* supply := sub (_totalShares st) shares in
  let* total := sub (_totalAssets st) amount in
  let* '(_, asset') := ERC20.transfer (this st) sender amount asset in
  Ok (amount,
      (asset',
       {| this := this st; contract := contract st; _totalAssets := total;
          _totalShares := supply; yieldRate := yieldRate st;
          volatility := volatility st;
          _balances := <[sender := balance]> (_balances st) |})).

(** The remaining functions.  [getYieldRate()] and [totalAssets()] are
    views of the storage; [setYieldRate] and [setVolatility] have no access
    control. *)
Definition getYieldRate (st : t) : Z := yieldRate st.

Definition totalAssets (st : t) : Z := _totalAssets st.

Definition setYieldRate (_yieldRate : Z) (st : t) : t :=
  {| this := this st; contract := contract st; _totalAssets := _totalAssets st;
     _totalShares := _totalShares st; yieldRate := _yieldRate;
     volatility := volatility st; _balances := _balances st |}.

Definition setVolatility (_volatility : Z) (st : t) : t :=
  {| this := this st; contract := contract st; _totalAssets := _totalAssets st;
     _totalShares := _totalShares st; yieldRate := yieldRate st;
     volatility := _volatility; _balances := _balances st |}.

(** [accrueYield()]: the books go up by
    [(_totalAssets * yieldRate) / 365 / 1e18]; no token moves. *)
Definition accrueYield (st : t) : result t :=
  let* product := mul (_totalAssets st) (yieldRate st) in
  let* perDay := div product 365 in
  let* dailyYield := div perDay (10 ^ 18) in
  let* total := add (_totalAssets st) dailyYield in
  Ok {| this := this st; contract := contract st; _totalAssets := total;
        _totalShares := _totalShares st; yieldRate := yieldRate st;
        volatility := volatility st; _balances := _balances st |}.

(** *** An adapter as a transition system

    One constructor per state-changing external function; [exec] takes
    [msg.sender] and threads the asset token's ledger.  [setVolatility]
    exists on [UniswapHookStrategy] only: sent to another adapter, which
    has no fallback function, the call reverts without a reason. *)
Inductive call : Type :=
| Deposit (amount : Z)
| Withdraw (shares : Z)
| SetYieldRate (_yieldRate : Z)
| AccrueYield
| SetVolatility (_volatility : Z).

Definition exec (sender : address) (c : call) (asset : ERC20.t) (st : t)
  : result (Z * (ERC20.t * t)) :=
  match c with
  | Deposit amount => deposit sender amount asset st
  | Withdraw shares => withdraw sender shares asset st
  | SetYieldRate r => Ok (0, (asset, setYieldRate r st))
  | AccrueYield => let* st' := accrueYield st in Ok (0, (asset, st'))
  | SetVolatility v =>
      match contract st with
      | UniswapHookStrategy => Ok (0, (asset, setVolatility v st))
      | AaveStrategy | SparkStrategy => Err (Revert EmptyString)
      end
  end.

Definition call_ok (c : call) : Prop :=
  match c with
  | Deposit n | Withdraw n | SetYieldRate n | SetVolatility n => uint256 n
  | AccrueYield => True
  end.

(** The books of an adapter: no holder has a negative balance, the shares
    issued are the holders' shares and the one share the constructor
    starts from, and the counters are [uint256]s. *)
Definition wf (st : t) : Prop :=
  map_Forall (fun _ v => 0 <= v) (_balances st) /\
  _totalShares st = 1 + ERC20.sum_balances (_balances st) /\
  _totalShares st <= MAX_UINT256 /\
  0 <= _totalAssets st <= MAX_UINT256 /\
  0 <= yieldRate st.

#[global] Instance wf_dec (st : t) : Decision (wf st).
Proof. unfold wf. apply _. Defined.

(** The assets on the books are covered by tokens the adapter holds. *)
Definition backed (asset : ERC20.t) (st : t) : Prop :=
  _totalAssets st <= ERC20.balanceOf asset (this st).

(** What one [accrueYield] adds to the books. *)
Definition dailyYield (st : t) : Z :=
  _totalAssets st * yieldRate st / 365 / 10 ^ 18.

(** The books before any yield: one asset per share held. *)
Definition at_par (st : t) : Prop :=
  0 <= _totalAssets st /\ _totalAssets st = _totalShares st - 1.

(** The revert reason of [withdraw]'s solvency guard. *)
Definition InsufficientAssets : error := Revert "Insufficient assets".

End Strategy.

(** ** [StrategyManager] *)

Module StrategyManager.

Record AllocationWeights : Type := {
  aave : Z;
  morpho : Z;
  spark : Z;
  uniswap : Z
}.

(** Storage (and immutables) of the manager. *)
Record t : Type := {
  this : address;
  _owner : address;
  vault : address;
  asset : address;
  aaveAdapter : address;
  morphoAdapter : address;
  sparkAdapter : address;
  uniswapAdapter : address;
  currentAllocation : AllocationWeights;
  healthCheck : address;
  initialized : bool
}.

Definition MAX_REBALANCE_DELTA : Z := 2000.
Definition BASIS_POINTS : Z := 10000.

Definition constructor (self _vault _asset _aaveAdapter _morphoAdapter
  _sparkAdapter _uniswapAdapter _healthCheck owner_ : address) : result t :=
  let* _ := revert_if (owner_ =? 0) "OwnableInvalidOwner" in
  Ok {| this := self; _owner := owner_; vault := _vault; asset := _asset;
        aaveAdapter := _aaveAdapter; morphoAdapter := _morphoAdapter;
        sparkAdapter := _sparkAdapter; uniswapAdapter := _uniswapAdapter;
        currentAllocation := {| aave := 0; morpho := 0; spark := 0; uniswap := 0 |};
        healthCheck := _healthCheck; initialized := false |}.

Definition onlyOwner (e : Env) (m : t) : result unit :=
  revert_if (negb (_owner m =? msg_sender e)) "OwnableUnauthorizedAccount".

Definition set_initialized (m : t) (b : bool) : t :=
  {| this := this m; _owner := _owner m; vault := vault m; asset := asset m;
     aaveAdapter := aaveAdapter m; morphoAdapter := morphoAdapter m;
     sparkAdapter := sparkAdapter m; uniswapAdapter := uniswapAdapter m;
     currentAllocation := currentAllocation m;
     healthCheck := healthCheck m; initialized := b |}.

Definition set_currentAllocation (m : t) (weights : AllocationWeights) : t :=
  {| this := this m; _owner := _owner m; vault := vault m; asset := asset m;
     aaveAdapter := aaveAdapter m; morphoAdapter := morphoAdapter m;
     sparkAdapter := sparkAdapter m; uniswapAdapter := uniswapAdapter m;
     currentAllocation := weights;
     healthCheck := healthCheck m; initialized := initialized m |}.

Definition setAllocationWeights (e : Env) (weights : AllocationWeights) (m : t)
  : result t :=
  let* _ := onlyOwner e m in
  let* s1 := add (aave weights) (morpho weights) in
  let* s2 := add s1 (spark weights) in
  let* total := add s2 (uniswap weights) in
  let* _ := require (total =? BASIS_POINTS) "Weights must sum to 100%" in
  let* m1 :=
    (if initialized m then
       let* aaveDelta :=
         (if aave (currentAllocation m) <? aave weights
          then sub (aave weights) (aave (currentAllocation m))
          else sub (aave (currentAllocation m)) (aave weights)) in
       let* _ :=
         require (aaveDelta <=? MAX_REBALANCE_DELTA) "Allocation change too large" in
       Ok m
     else Ok (set_initialized m true)) in
  Ok (set_currentAllocation m1 weights).

(** *** The contracts the manager calls

    [rebalance] talks to the vault, the asset token, the four adapters
    and the health check through their interfaces ([IYieldDonatingVault],
    [IERC20], [IAaveAdapter], ..., [HealthCheck]).  The calls it makes are recorded in the order
    they are made; what the callees do is left to an instance of
    [External]. *)
Inductive call : Type :=
| IERC20_transferFrom (token from to : address) (value : Z)
| IERC20_approve (token spender : address) (value : Z)
| Adapter_deposit (adapter : address) (amount : Z)
| Adapter_withdraw (adapter : address) (shares : Z).

Class External (X : Type) : Type := {
  (** [vault.totalAssets()], a view *)
  vault_totalAssets : address -> X -> result Z;
  (** [adapter.balanceOf()], a view: the adapter, then [msg.sender] *)
  adapter_balanceOf : address -> address -> X -> result Z;
  (** [healthCheck.isHealthy(manager)], a view: the address called, then
      the manager it is asked about *)
  healthCheck_isHealthy : address -> address -> X -> result bool;
  (** a state-changing call made by [msg.sender]; the returned word is the
      ABI encoding of the result ([bool] as 0 or 1) *)
  external : address -> call -> X -> result (Z * X)
}.

Section Rebalance.

Context {X : Type} `{External X}.

(** A running rebalance: the callees' storage and the calls made so far. *)
Definition running : Type := (X * list call)%type.

Definition do_call (m : t) (c : call) (r : running) : result (Z * running) :=
  let* '(word, x) := external (this m) c (fst r) in
  Ok (word, (x, (snd r ++ [c])%list)).

(** The [if (strategy == address(aaveAdapter)) ... else if ...] chain. *)
Definition adapter_for (m : t) (strategy : address) : option address :=
  if strategy =? aaveAdapter m then Some (aaveAdapter m)
  else if strategy =? morphoAdapter m then Some (morphoAdapter m)
  else if strategy =? sparkAdapter m then Some (sparkAdapter m)
  else if strategy =? uniswapAdapter m then Some (uniswapAdapter m)
  else None.

Definition _rebalanceStrategy (m : t) (strategy : address) (current target : Z)
  (r : running) : result running :=
  if current <? target then
    let* depositAmount := sub target current in
    let* '(ok, r1) :=
      do_call m (IERC20_transferFrom (asset m) (vault m) (this m) depositAmount) r in
    let* _ := require (negb (ok =? 0)) "Transfer failed" in
    let* '(_, r2) := do_call m (IERC20_approve (asset m) strategy depositAmount) r1 in
    match adapter_for m strategy with
    | Some adapter =>
        let* '(_, r3) := do_call m (Adapter_deposit adapter depositAmount) r2 in
        Ok r3
    | None => Ok r2
    end
  else if target <? current then
    let* withdrawAmount := sub current target in
    let sharesToWithdraw := withdrawAmount in
    match adapter_for m strategy with
    | Some adapter =>
        let* '(_, r1) := do_call m (Adapter_withdraw adapter sharesToWithdraw) r in
        Ok r1
    | None => Ok r
    end
  else Ok r.

Definition target_amount (totalAssets weight : Z) : result Z :=
  let* product := mul totalAssets weight in
  div product BASIS_POINTS.

Definition rebalance (e : Env) (m : t) (x : X) : result running :=
  let* _ := onlyOwner e m in
  let* totalAssets := vault_totalAssets (vault m) x in
  let* targetAave := target_amount totalAssets (aave (currentAllocation m)) in
  let* targetMorpho := target_amount totalAssets (morpho (currentAllocation m)) in
  let* targetSpark := target_amount totalAssets (spark (currentAllocation m)) in
  let* targetUniswap := target_amount totalAssets (uniswap (currentAllocation m)) in
  let* currentAave := adapter_balanceOf (aaveAdapter m) (this m) x in
  let* currentMorpho := adapter_balanceOf (morphoAdapter m) (this m) x in
  let* currentSpark := adapter_balanceOf (sparkAdapter m) (this m) x in
  let* currentUniswap := adapter_balanceOf (uniswapAdapter m) (this m) x in
  let* r1 := _rebalanceStrategy m (aaveAdapter m) currentAave targetAave (x, []) in
  let* r2 := _rebalanceStrategy m (morphoAdapter m) currentMorpho targetMorpho r1 in
  let* r3 := _rebalanceStrategy m (sparkAdapter m) currentSpark targetSpark r2 in
  let* r4 := _rebalanceStrategy m (uniswapAdapter m) currentUniswap targetUniswap r3 in
  let* healthy := healthCheck_isHealthy (healthCheck m) (this m) (fst r4) in
  let* _ := require healthy "Health check failed" in
  Ok r4.

End Rebalance.

(** The revert reasons and the error kinds they stand for. *)
Definition InvalidWeightSum : error := Revert "Weights must sum to 100%".
Definition ExcessiveAllocationChange : error := Revert "Allocation change too large".

(** Largest per-venue change between two weight vectors. *)
Definition delta (old new : Z) : Z := Z.abs (new - old).

Definition within_delta (old new : AllocationWeights) : Prop :=
  delta (aave old) (aave new) <= MAX_REBALANCE_DELTA /\
  delta (morpho old) (morpho new) <= MAX_REBALANCE_DELTA /\
  delta (spark old) (spark new) <= MAX_REBALANCE_DELTA /\
  delta (uniswap old) (uniswap new) <= MAX_REBALANCE_DELTA.

(** The deposits and the withdrawals among the calls made. *)
Definition deposits (calls : list call) : list (address * Z) :=
  flat_map (fun c => match c with
                     | Adapter_deposit a amount => [(a, amount)]
                     | _ => []
                     end) calls.

Definition withdrawals (calls : list call) : list (address * Z) :=
  flat_map (fun c => match c with
                     | Adapter_withdraw a shares => [(a, shares)]
                     | _ => []
                     end) calls.

(** The calls one venue is owed: a venue below its target is funded from
    the vault and deposited into, a venue above it is withdrawn from, a
    venue on target is left alone. *)
Definition venue_calls (m : t) (strategy : address) (current target : Z)
  : list call :=
  if current <? target then
    [IERC20_transferFrom (asset m) (vault m) (this m) (target - current);
     IERC20_approve (asset m) strategy (target - current);
     Adapter_deposit strategy (target - current)]
  else if target <? current then
    [Adapter_withdraw strategy (current - target)]
  else [].

Definition venue_deposit (strategy : address) (current target : Z)
  : list (address * Z) :=
  if current <? target then [(strategy, target - current)] else [].

Definition venue_withdrawal (strategy : address) (current target : Z)
  : list (address * Z) :=
  if current <? target then []
  else if target <? current then [(strategy, current - target)] else [].

(** The four adapters the manager was constructed with. *)
Definition is_adapter (m : t) (strategy : address) : Prop :=
  strategy = aaveAdapter m \/ strategy = morphoAdapter m \/
  strategy = sparkAdapter m \/ strategy = uniswapAdapter m.

(** *** Inherited: [Ownable] *)

Definition set_owner (m : t) (o : address) : t :=
  {| this := this m; _owner := o; vault := vault m; asset := asset m;
     aaveAdapter := aaveAdapter m; morphoAdapter := morphoAdapter m;
     sparkAdapter := sparkAdapter m; uniswapAdapter := uniswapAdapter m;
     currentAllocation := currentAllocation m;
     healthCheck := healthCheck m; initialized := initialized m |}.

Definition transferOwnership (e : Env) (newOwner : address) (m : t) : result t :=
  let* _ := onlyOwner e m in
  let* _ := revert_if (newOwner =? 0) "OwnableInvalidOwner" in
  Ok (set_owner m newOwner).

Definition renounceOwnership (e : Env) (m : t) : result t :=
  let* _ := onlyOwner e m in
  Ok (set_owner m 0).

(** *** [getAllocationStatus]

    A view: the vault's total assets, the manager's balance in each
    adapter ([msg.sender] of the four [balanceOf()] calls is the manager)
    and the stored weights. *)
Section Status.

Context {X : Type} `{External X}.

Definition getAllocationStatus (m : t) (x : X)
  : result (Z * Z * Z * Z * Z * AllocationWeights) :=
  let* totalAssets := vault_totalAssets (vault m) x in
  let* aaveBalance := adapter_balanceOf (aaveAdapter m) (this m) x in
  let* morphoBalance := adapter_balanceOf (morphoAdapter m) (this m) x in
  let* sparkBalance := adapter_balanceOf (sparkAdapter m) (this m) x in
  let* uniswapBalance := adapter_balanceOf (uniswapAdapter m) (this m) x in
  Ok (totalAssets, aaveBalance, morphoBalance, sparkBalance, uniswapBalance,
      currentAllocation m).

End Status.

(** *** The manager's storage as a transition system

    The functions that write the manager's storage; [rebalance] and
    [getAllocationStatus] write none of it. *)
Inductive update : Type :=
| SetAllocationWeights (weights : AllocationWeights)
| TransferOwnership (newOwner : address)
| RenounceOwnership.

Definition exec (e : Env) (u : update) (m : t) : result t :=
  match u with
  | SetAllocationWeights weights => setAllocationWeights e weights m
  | TransferOwnership newOwner => transferOwnership e newOwner m
  | RenounceOwnership => renounceOwnership e m
  end.




Definition sum_weights (w : AllocationWeights) : Z :=
  aave w + morpho w + spark w + uniswap w.

(** The stored allocation: nothing before the first vector; afterwards
    four weights that sum to [BASIS_POINTS]. *)
Definition allocated (m : t) : Prop :=
  if initialized m then
    sum_weights (currentAllocation m) = BASIS_POINTS /\
    0 <= aave (currentAllocation m) /\ 0 <= morpho (currentAllocation m) /\
    0 <= spark (currentAllocation m) /\ 0 <= uniswap (currentAllocation m)
  else
    currentAllocation m = {| aave := 0; morpho := 0; spark := 0; uniswap := 0 |}.

(** The error of [onlyOwner]. *)
Definition Unauthorized : error := CustomError "OwnableUnauthorizedAccount".

(** A sequence of [setAllocationWeights] calls sent by the same account. *)
Fixpoint setAllocationWeights_each (e : Env) (path : list AllocationWeights) (m : t)
  : result t :=
  match path with
  | [] => Ok m
  | weights :: rest =>
      let* m1 := setAllocationWeights e weights m in
      setAllocationWeights_each e rest m1
  end.

(** The vector with [a] on the first venue and the rest on the second. *)
Definition shifted (a : Z) : AllocationWeights :=
  {| aave := a; morpho := BASIS_POINTS - a; spark := 0; uniswap := 0 |}.

End StrategyManager.

(** ** A deployment

    The contracts as [script/Deploy.s.sol] puts them together: one asset
    token, the vault, the adapters, the health check and the manager.  It gives the
    manager's [External] interface an instance built from the contracts
    above. *)

Module Deployment.

Record world : Type := {
  asset_address : address;
  ledger : Vault.state;
  adapters : gmap Z Strategy.t;
  healthCheck_address : address
}.

Definition with_asset (x : world) (a : ERC20.t) : world :=
  {| asset_address := asset_address x;
     ledger := Vault.with_asset (ledger x) a;
     adapters := adapters x;
     healthCheck_address := healthCheck_address x |}.

Definition with_adapter (x : world) (a : ERC20.t) (adapter : address)
  (st : Strategy.t) : world :=
  {| asset_address := asset_address x;
     ledger := Vault.with_asset (ledger x) a;
     adapters := <[adapter := st]> (adapters x);
     healthCheck_address := healthCheck_address x |}.

Definition totalAssets_of (v : address) (x : world) : result Z :=
  if v =? Vault.this (Vault.vault (ledger x))
  then Ok (Vault.totalAssets (ledger x))
  else Err NoCode.

Definition balanceOf_of (adapter sender : address) (x : world) : result Z :=
  match adapters x !! adapter with
  | Some st => Ok (Strategy.balanceOf sender st)
  | None => Err NoCode
  end.

(** [isHealthy] answers at the address the [HealthCheck] was deployed
    to; a call to any other address finds no such function. *)
Definition isHealthy_of (check manager : address) (x : world) : result bool :=
  if check =? healthCheck_address x then Ok (HealthCheck.isHealthy manager)
  else Err NoCode.

Definition dispatch (sender : address) (c : StrategyManager.call) (x : world)
  : result (Z * world) :=
  match c with
  | StrategyManager.IERC20_transferFrom token from to value =>
      if token =? asset_address x then
        let* '(b, a) :=
          ERC20.transferFrom sender from to value (Vault.asset (ledger x)) in
        Ok (Z.b2z b, with_asset x a)
      else Err NoCode
  | StrategyManager.IERC20_approve token spender value =>
      if token =? asset_address x then
        let* '(b, a) := ERC20.approve sender spender value (Vault.asset (ledger x)) in
        Ok (Z.b2z b, with_asset x a)
      else Err NoCode
  | StrategyManager.Adapter_deposit adapter amount =>
      match adapters x !! adapter with
      | Some st =>
          let* '(shares, (a, st')) :=
            Strategy.deposit sender amount (Vault.asset (ledger x)) st in
          Ok (shares, with_adapter x a adapter st')
      | None => Err NoCode
      end
  | StrategyManager.Adapter_withdraw adapter shares =>
      match adapters x !! adapter with
      | Some st =>
          let* '(amount, (a, st')) :=
            Strategy.withdraw sender shares (Vault.asset (ledger x)) st in
          Ok (amount, with_adapter x a adapter st')
      | None => Err NoCode
      end
  end.

#[global] Instance deployed : StrategyManager.External world := {|
  StrategyManager.vault_totalAssets := totalAssets_of;
  StrategyManager.adapter_balanceOf := balanceOf_of;
  StrategyManager.healthCheck_isHealthy := isHealthy_of;
  StrategyManager.external := dispatch
|}.

(** The vault's address, and what the asset token lets the manager take
    from the vault. *)
Definition vault_address (x : world) : address := Vault.this (Vault.vault (ledger x)).

Definition manager_allowance (m : StrategyManager.t) (x : world) : Z :=
  ERC20.allowance (Vault.asset (ledger x)) (StrategyManager.vault m)
    (StrategyManager.this m).

(** The manager holds no share in any adapter. *)
Definition unplaced (m : StrategyManager.t) (x : world) : Prop :=
  map_Forall (fun _ st => Strategy.balanceOf (StrategyManager.this m) st = 0)
    (adapters x).

#[global] Instance unplaced_dec (m : StrategyManager.t) (x : world)
  : Decision (unplaced m x).
Proof. unfold unplaced. apply _. Defined.

End Deployment.

(** ** Scenarios

    The states and calls the examples below run on.  Addresses: the
    deployer and owner 1, a depositor 7, the donation recipient 9, the
    vault 100, the manager 200, the adapters 301 to 304, the health check
    400, the asset token 1000. *)

Module Scenario.

Definition deployer : address := 1.
Definition user : address := 7.
Definition recipient : address := 9.
Definition vault_address : address := 100.
Definition manager_address : address := 200.
Definition asset_address : address := 1000.

Definition t0 : Z := 1700000000.

(** The deployer creates the vault at time [t0]. *)
Definition at_deploy : Env := {| msg_sender := deployer; block_timestamp := t0 |}.

(** The depositor, just after. *)
Definition as_user : Env := {| msg_sender := user; block_timestamp := t0 + 60 |}.

(** Anyone, one day and one second after deployment. *)
Definition next_day : Env :=
  {| msg_sender := user; block_timestamp := t0 + 86400 + 1 |}.

(** The owner, one day and one second after deployment. *)
Definition owner_next_day : Env :=
  {| msg_sender := deployer; block_timestamp := t0 + 86400 + 1 |}.

(** The asset token with 1000 units minted to the depositor, who has
    approved the vault for 100. *)
Definition funded : ERC20.t :=
  {| ERC20._balances := {[ user := 1000 ]};
     ERC20._allowances := {[ user := {[ vault_address := 100 ]} ]};
     ERC20._totalSupply := 1000 |}.

(** The vault after the depositor has put in 100. *)
Definition deposited : Vault.state :=
  {| Vault.asset :=
       {| ERC20._balances := {[ user := 900; vault_address := 100 ]};
          ERC20._allowances := {[ user := {[ vault_address := 0 ]} ]};
          ERC20._totalSupply := 1000 |};
     Vault.vault :=
       {| Vault.this := vault_address;
          Vault.token := {| ERC20._balances := {[ user := 100 ]};
                            ERC20._allowances := ∅;
                            ERC20._totalSupply := 100 |};
          Vault._owner := deployer;
          Vault.donationAddress := recipient;
          Vault._totalUserDeposits := 100;
          Vault.lastDonationTimestamp := t0 |} |}.

(** Then 10 units of yield reach the vault: total value 110. *)
Definition with_yield : Vault.state :=
  {| Vault.asset :=
       {| ERC20._balances := {[ user := 900; vault_address := 110 ]};
          ERC20._allowances := {[ user := {[ vault_address := 0 ]} ]};
          ERC20._totalSupply := 1010 |};
     Vault.vault := Vault.vault deposited |}.

(** The same, after the owner has named the vault itself as recipient. *)
Definition self_donating : Vault.state :=
  Vault.with_vault with_yield
    (Vault.set_donationAddress (Vault.vault with_yield) vault_address).

(** The manager as constructed, and after its first weight vector. *)
Definition manager0 : StrategyManager.t :=
  {| StrategyManager.this := manager_address;
     StrategyManager._owner := deployer;
     StrategyManager.vault := vault_address;
     StrategyManager.asset := asset_address;
     StrategyManager.aaveAdapter := 301;
     StrategyManager.morphoAdapter := 302;
     StrategyManager.sparkAdapter := 303;
     StrategyManager.uniswapAdapter := 304;
     StrategyManager.currentAllocation :=
       {| StrategyManager.aave := 0; StrategyManager.morpho := 0;
          StrategyManager.spark := 0; StrategyManager.uniswap := 0 |};
     StrategyManager.healthCheck := 400;
     StrategyManager.initialized := false |}.

Definition weights (a m s u : Z) : StrategyManager.AllocationWeights :=
  {| StrategyManager.aave := a; StrategyManager.morpho := m;
     StrategyManager.spark := s; StrategyManager.uniswap := u |}.

Definition manager1 : StrategyManager.t :=
  StrategyManager.set_currentAllocation
    (StrategyManager.set_initialized manager0 true)
    (weights 4000 3000 2000 1000).

(** The asset token with 1000 units minted to the depositor. *)
Definition minted : ERC20.t :=
  {| ERC20._balances := {[ user := 1000 ]};
     ERC20._allowances := ∅;
     ERC20._totalSupply := 1000 |}.

(** The deployment after the depositor has approved the vault for the
    1000 units and deposited them: the vault holds them, the adapters are
    as constructed, and the asset token records the depositor's used-up
    approval and no other.  The Morpho slot (302) holds an adapter with
    [SparkStrategy]'s code. *)
Definition pool : Deployment.world :=
  {| Deployment.asset_address := asset_address;
     Deployment.ledger :=
       {| Vault.asset :=
            {| ERC20._balances := {[ user := 0; vault_address := 1000 ]};
               ERC20._allowances := {[ user := {[ vault_address := 0 ]} ]};
               ERC20._totalSupply := 1000 |};
          Vault.vault :=
            {| Vault.this := vault_address;
               Vault.token := {| ERC20._balances := {[ user := 1000 ]};
                                 ERC20._allowances := ∅;
                                 ERC20._totalSupply := 1000 |};
               Vault._owner := deployer;
               Vault.donationAddress := recipient;
               Vault._totalUserDeposits := 1000;
               Vault.lastDonationTimestamp := t0 |} |};
     Deployment.adapters :=
       {[ 301 := Strategy.constructor 301 Strategy.AaveStrategy (72 * 10 ^ 15);
          302 := Strategy.constructor 302 Strategy.SparkStrategy (68 * 10 ^ 15);
          303 := Strategy.constructor 303 Strategy.SparkStrategy (70 * 10 ^ 15);
          304 := Strategy.constructor 304 Strategy.UniswapHookStrategy
                   (65 * 10 ^ 15) ]};
     Deployment.healthCheck_address := 400 |}.

(** The same deployment as the constructors leave it: the vault is
    empty. *)
Definition pool_empty : Deployment.world :=
  {| Deployment.asset_address := asset_address;
     Deployment.ledger :=
       {| Vault.asset := minted;
          Vault.vault :=
            {| Vault.this := vault_address;
               Vault.token := {| ERC20._balances := ∅;
                                 ERC20._allowances := ∅;
                                 ERC20._totalSupply := 0 |};
               Vault._owner := deployer;
               Vault.donationAddress := recipient;
               Vault._totalUserDeposits := 0;
               Vault.lastDonationTimestamp := t0 |} |};
     Deployment.adapters := Deployment.adapters pool;
     Deployment.healthCheck_address := 400 |}.

(** The asset token when the manager holds 400 units and has approved the
    Aave adapter (301) for them; that adapter as constructed; and the two
    after the manager has deposited the 400. *)
Definition manager_funded : ERC20.t :=
  {| ERC20._balances := {[ manager_address := 400 ]};
     ERC20._allowances := {[ manager_address := {[ 301 := 400 ]} ]};
     ERC20._totalSupply := 400 |}.

Definition aave0 : Strategy.t :=
  Strategy.constructor 301 Strategy.AaveStrategy (72 * 10 ^ 15).

Definition adapter_funded : ERC20.t :=
  {| ERC20._balances := {[ manager_address := 0; 301 := 400 ]};
     ERC20._allowances := {[ manager_address := {[ 301 := 0 ]} ]};
     ERC20._totalSupply := 400 |}.

Definition aave1 : Strategy.t :=
  {| Strategy.this := 301; Strategy.contract := Strategy.AaveStrategy;
     Strategy._totalAssets := 400; Strategy._totalShares := 401;
     Strategy.yieldRate := 72 * 10 ^ 15; Strategy.volatility := 0;
     Strategy._balances := {[ manager_address := 400 ]} |}.

(** The vault holding yield, the depositor having approved it for 110
    more. *)
Definition with_yield_approved : Vault.state :=
  {| Vault.asset :=
       {| ERC20._balances := {[ user := 900; vault_address := 110 ]};
          ERC20._allowances := {[ user := {[ vault_address := 110 ]} ]};
          ERC20._totalSupply := 1010 |};
     Vault.vault := Vault.vault deposited |}.

(** The same after the owner has taken 50 units out with
    [transferToStrategyManager]: 60 held against a principal of 100. *)
Definition uncovered : Vault.state :=
  {| Vault.asset :=
       {| ERC20._balances := {[ deployer := 50; user := 900; vault_address := 60 ]};
          ERC20._allowances := {[ user := {[ vault_address := 110 ]} ]};
          ERC20._totalSupply := 1010 |};
     Vault.vault := Vault.vault deposited |}.

End Scenario.

(** ** The vault's test suite

    [YieldDonatingVaultTest]: [setUp] and the steps the six tests
    share.  The test contract deploys the asset (an [ERC20Mock], whose
    [mint] is the token's [_mint]) and the vault, and is the vault's
    owner; the tests run at Foundry's initial block time 1. *)

Module VaultTest.

Definition donationAddress : address := 0x123.
Definition user : address := 0x456.
Definition test_contract : address := 0x7FA9385bE102ac3EAc297483Dd6233D62b3e1496.
Definition asset_address : address := 0x5615dEB798BB3E4dFa0139dFa1b3D433Cc23b72f.
Definition vault_address : address := 0x2e234DAe75C793f67A35089C9d99245E1C58470b.

Definition e18 : Z := 10 ^ 18.

Definition as_test (ts : Z) : Env :=
  {| msg_sender := test_contract; block_timestamp := ts |}.
Definition as_user (ts : Z) : Env :=
  {| msg_sender := user; block_timestamp := ts |}.

Definition setUp : result Vault.state :=
  let asset := {| ERC20._balances := ∅; ERC20._allowances := ∅;
                  ERC20._totalSupply := 0 |} in
  let* s := Vault.constructor (as_test 1) vault_address asset donationAddress
              test_contract in
  let* a := ERC20._mint user (1000 * e18) (Vault.asset s) in
  Ok (Vault.with_asset s a).

(** [asset.approve(address(vault), 100 * 1e18); vault.deposit(100 * 1e18, user)]
    under [vm.startPrank(user)]. *)
Definition approve_and_deposit (s : Vault.state) : result Vault.state :=
  let* '(_, a) := ERC20.approve user vault_address (100 * e18) (Vault.asset s) in
  let* '(_, s1) := Vault.deposit (as_user 1) (100 * e18) user (Vault.with_asset s a) in
  Ok s1.

(** [asset.mint(address(vault), 10 * 1e18)]: the yield of the tests. *)
Definition simulate_yield (s : Vault.state) : result Vault.state :=
  let* a := ERC20._mint vault_address (10 * e18) (Vault.asset s) in
  Ok (Vault.with_asset s a).

End VaultTest.

(** * Properties *)

(** ** The result monad and checked arithmetic *)

Lemma bind_Ok {A B : Type} (m : result A) (k : A -> result B) (b : B) :
  bind m k = Ok b -> exists a, m = Ok a /\ k a = Ok b.
Proof. destruct m as [a|err]; simpl; intros Hk; [eauto | discriminate]. Qed.

Lemma require_Ok (cond : bool) (reason : string) (u : unit) :
  require cond reason = Ok u -> cond = true.
Proof. destruct cond; [reflexivity | discriminate]. Qed.

Lemma revert_if_Ok (cond : bool) (name : string) (u : unit) :
  revert_if cond name = Ok u -> cond = false.
Proof. destruct cond; [discriminate | reflexivity]. Qed.

Lemma add_Ok (a b : Z) : a + b <= MAX_UINT256 -> add a b = Ok (a + b).
Proof. intros Hle. unfold add. apply Z.leb_le in Hle. now rewrite Hle. Qed.

Lemma add_Ok_inv (a b c : Z) : add a b = Ok c -> c = a + b /\ a + b <= MAX_UINT256.
Proof.
  unfold add. destruct (a + b <=? MAX_UINT256) eqn:Hle; [|discriminate].
  apply Z.leb_le in Hle. intros [= <-]. auto.
Qed.

Lemma add_overflow (a b : Z) : MAX_UINT256 < a + b -> add a b = Err (Panic 17).
Proof. intros Hlt. unfold add. apply Z.leb_gt in Hlt. now rewrite Hlt. Qed.

Lemma sub_Ok (a b : Z) : b <= a -> sub a b = Ok (a - b).
Proof. intros Hle. unfold sub. apply Z.leb_le in Hle. now rewrite Hle. Qed.

Lemma sub_Ok_inv (a b c : Z) : sub a b = Ok c -> c = a - b /\ b <= a.
Proof.
  unfold sub. destruct (b <=? a) eqn:Hle; [|discriminate].
  apply Z.leb_le in Hle. intros [= <-]. auto.
Qed.

Lemma mul_Ok_inv (a b c : Z) : mul a b = Ok c -> c = a * b /\ a * b <= MAX_UINT256.
Proof.
  unfold mul. destruct (a * b <=? MAX_UINT256) eqn:Hle; [|discriminate].
  apply Z.leb_le in Hle. intros [= <-]. auto.
Qed.

Lemma div_Ok_inv (a b c : Z) : div a b = Ok c -> c = a / b /\ b <> 0.
Proof.
  unfold div. destruct (b =? 0) eqn:Hb; [discriminate|].
  apply Z.eqb_neq in Hb. intros [= <-]. auto.
Qed.

(** Peel the successful steps off a hypothesis [... = Ok _]. *)
Ltac ok_step H :=
  match type of H with
  | bind _ _ = Ok _ =>
      let a := fresh "a" in
      let Ha := fresh "Ha" in
      apply bind_Ok in H; destruct H as (a & Ha & H)
  | (match ?p with (_, _) => _ end) = Ok _ => destruct p
  | Ok _ = Ok _ => injection H as H
  end.

Ltac ok_steps H := repeat ok_step H.

(** ** The token ledger *)

Module Token.

Import ERC20.

Lemma balanceOf_set_balance (tok : t) (a b : address) (v : Z) :
  balanceOf (set_balance tok a v) b = if decide (a = b) then v else balanceOf tok b.
Proof.
  unfold balanceOf, set_balance. simpl. rewrite lookup_insert.
  now destruct (decide (a = b)).
Qed.

Lemma balanceOf_set_totalSupply (tok : t) (a : address) (v : Z) :
  balanceOf (set_totalSupply tok v) a = balanceOf tok a.
Proof. reflexivity. Qed.

Lemma sum_balances_comm (j1 j2 : Z) (z1 z2 y : Z) :
  z1 + (z2 + y) = z2 + (z1 + y).
Proof. lia. Qed.

Lemma sum_balances_delete (m : gmap Z Z) (a : Z) :
  sum_balances m = default 0 (m !! a) + sum_balances (delete a m).
Proof.
  unfold sum_balances. destruct (m !! a) as [old|] eqn:Hlook; simpl.
  - rewrite (map_fold_delete_L _ 0 a old m); [reflexivity| |exact Hlook].
    intros. apply sum_balances_comm; assumption.
  - now rewrite delete_id.
Qed.

Lemma sum_balances_insert (m : gmap Z Z) (a v : Z) :
  sum_balances (<[a := v]> m) = sum_balances m - default 0 (m !! a) + v.
Proof.
  rewrite (sum_balances_delete m a).
  rewrite <- (insert_delete_eq m a v). unfold sum_balances at 1.
  rewrite map_fold_insert_L.
  - fold (sum_balances (delete a m)). lia.
  - intros. apply sum_balances_comm; assumption.
  - apply lookup_delete_eq.
Qed.

Lemma sum_balances_nonneg (m : gmap Z Z) :
  map_Forall (fun _ v => 0 <= v) m -> 0 <= sum_balances m.
Proof.
  induction m as [|a v m Hfresh IH] using map_ind; intros Hall.
  - unfold sum_balances. now rewrite map_fold_empty.
  - apply map_Forall_insert in Hall as [Hv Hrest]; [|exact Hfresh].
    rewrite sum_balances_insert, Hfresh. simpl. specialize (IH Hrest). lia.
Qed.

Section WellFormed.

Variable tok : t.
Hypothesis Hwf : wf tok.

Lemma balanceOf_nonneg (a : address) : 0 <= balanceOf tok a.
Proof.
  destruct Hwf as (Hall & _). unfold balanceOf.
  destruct (_balances tok !! a) as [v|] eqn:Hlook; simpl; [|lia].
  exact (Hall a v Hlook).
Qed.

(** Two distinct holders own at most the total supply between them. *)
Lemma balanceOf_pair (a b : address) :
  a <> b -> balanceOf tok a + balanceOf tok b <= _totalSupply tok.
Proof.
  intros Hne. destruct Hwf as (Hall & Hsum & _). rewrite <- Hsum.
  rewrite (sum_balances_delete (_balances tok) a).
  rewrite (sum_balances_delete (delete a (_balances tok)) b).
  rewrite lookup_delete_ne by exact Hne.
  assert (0 <= sum_balances (delete b (delete a (_balances tok)))).
  { apply sum_balances_nonneg. now do 2 apply map_Forall_delete. }
  unfold balanceOf. lia.
Qed.

Lemma balanceOf_le_supply (a : address) : balanceOf tok a <= _totalSupply tok.
Proof.
  destruct Hwf as (Hall & Hsum & _). rewrite <- Hsum.
  rewrite (sum_balances_delete (_balances tok) a).
  assert (0 <= sum_balances (delete a (_balances tok))).
  { apply sum_balances_nonneg. now apply map_Forall_delete. }
  unfold balanceOf. lia.
Qed.

Lemma balanceOf_uint256 (a : address) : uint256 (balanceOf tok a).
Proof.
  split; [apply balanceOf_nonneg|].
  pose proof (balanceOf_le_supply a). destruct Hwf as (_ & _ & Hmax). lia.
Qed.

End WellFormed.

Lemma wrap_uint256 (x : Z) : uint256 x -> wrap x = x.
Proof.
  intros [Hlo Hhi]. unfold wrap, MAX_UINT256 in *. apply Z.mod_small. lia.
Qed.

(** [_transfer] on a well-formed ledger: it goes through only when neither
    party is the zero address and the sender has the funds, and then the
    value has moved. *)
Lemma _transfer_Ok (from to : address) (value : Z) (tok tok' : t) :
  wf tok -> 0 <= value ->
  _transfer from to value tok = Ok tok' ->
  from <> 0 /\ to <> 0 /\ value <= balanceOf tok from /\ moved from to value tok tok'.
Proof.
  intros Hwf Hval Hrun.
  unfold _transfer, _update, revert_if in Hrun.
  destruct (from =? 0) eqn:Hfrom; cbn [bind] in Hrun; [discriminate|].
  destruct (to =? 0) eqn:Hto; cbn [bind] in Hrun; [discriminate|].
  destruct (balanceOf tok from <? value) eqn:Hfunds; cbn [bind] in Hrun;
    [discriminate|].
  injection Hrun as <-.
  apply Z.eqb_neq in Hfrom, Hto. apply Z.ltb_ge in Hfunds.
  repeat split; try assumption; try reflexivity.
  intros a. rewrite !balanceOf_set_balance.
  pose proof (balanceOf_uint256 tok Hwf from) as Hs.
  pose proof (balanceOf_uint256 tok Hwf to) as Ht.
  destruct (decide (from = to)) as [<-|Hne].
  - replace (balanceOf tok from - value + value) with (balanceOf tok from) by lia.
    rewrite wrap_uint256 by exact Hs.
    now destruct (decide (from = a)) as [<-|].
  - pose proof (balanceOf_pair tok Hwf from to Hne) as Hpair.
    destruct Hwf as (_ & _ & Hmax).
    rewrite wrap_uint256 by (unfold uint256 in *; lia).
    repeat case_decide; subst; congruence || lia.
Qed.

Lemma _transfer_succeeds (from to : address) (value : Z) (tok : t) :
  from <> 0 -> to <> 0 -> value <= balanceOf tok from ->
  exists tok' : t, _transfer from to value tok = Ok tok'.
Proof.
  intros Hfrom Hto Hfunds. unfold _transfer, _update, revert_if.
  apply Z.eqb_neq in Hfrom, Hto. apply Z.ltb_ge in Hfunds.
  rewrite Hfrom, Hto. cbn [bind]. rewrite Hfunds. cbn [bind]. eauto.
Qed.

Lemma transfer_Ok (sender to : address) (value : Z) (tok tok' : t) (b : bool) :
  wf tok -> 0 <= value ->
  transfer sender to value tok = Ok (b, tok') ->
  sender <> 0 /\ to <> 0 /\ value <= balanceOf tok sender /\
  moved sender to value tok tok'.
Proof.
  intros Hwf Hval Hrun. unfold transfer in Hrun.
  destruct (_transfer sender to value tok) as [tok1|] eqn:Hmove;
    cbn [bind] in Hrun; [|discriminate].
  injection Hrun as _ <-. now apply _transfer_Ok.
Qed.

Lemma transfer_succeeds (sender to : address) (value : Z) (tok : t) :
  sender <> 0 -> to <> 0 -> value <= balanceOf tok sender ->
  exists tok' : t, transfer sender to value tok = Ok (true, tok').
Proof.
  intros Hsender Hto Hfunds.
  destruct (_transfer_succeeds sender to value tok Hsender Hto Hfunds)
    as [tok' Hmove].
  exists tok'. unfold transfer. now rewrite Hmove.
Qed.

(** Spending an allowance leaves the balances and the supply alone. *)
Lemma _spendAllowance_Ok (owner spender : address) (value : Z) (tok tok' : t) :
  _spendAllowance owner spender value tok = Ok tok' ->
  _balances tok' = _balances tok /\ _totalSupply tok' = _totalSupply tok.
Proof.
  unfold _spendAllowance, _approve, revert_if.
  destruct (allowance tok owner spender =? MAX_UINT256); [now intros [= <-]|].
  destruct (allowance tok owner spender <? value); cbn [bind]; [discriminate|].
  destruct (owner =? 0); cbn [bind]; [discriminate|].
  destruct (spender =? 0); cbn [bind]; [discriminate|].
  now intros [= <-].
Qed.

Lemma transferFrom_Ok (sender from to : address) (value : Z) (tok tok' : t) (b : bool) :
  wf tok -> 0 <= value ->
  transferFrom sender from to value tok = Ok (b, tok') ->
  from <> 0 /\ to <> 0 /\ value <= balanceOf tok from /\
  (forall a : address,
     balanceOf tok' a =
     if decide (from = to) then balanceOf tok a
     else if decide (a = from) then balanceOf tok a - value
     else if decide (a = to) then balanceOf tok a + value
     else balanceOf tok a) /\
  _totalSupply tok' = _totalSupply tok.
Proof.
  intros Hwf Hval Hrun. unfold transferFrom in Hrun.
  destruct (_spendAllowance from sender value tok) as [tok1|] eqn:Hspend;
    cbn [bind] in Hrun; [|discriminate].
  destruct (_transfer from to value tok1) as [tok2|] eqn:Hmove;
    cbn [bind] in Hrun; [|discriminate].
  injection Hrun as _ <-.
  apply _spendAllowance_Ok in Hspend as [Hbal Hsupply].
  assert (Hwf1 : wf tok1) by (unfold wf in *; now rewrite Hbal, Hsupply).
  assert (Hsame : forall a, balanceOf tok1 a = balanceOf tok a)
    by (intros a; unfold balanceOf; now rewrite Hbal).
  apply _transfer_Ok in Hmove as (Hfrom & Hto & Hfunds & Hmoved & Hsup & _);
    [|exact Hwf1|exact Hval].
  rewrite Hsame in Hfunds. repeat split; try assumption.
  - intros a. rewrite Hmoved, !Hsame. reflexivity.
  - congruence.
Qed.

(** *** The ledger invariant is kept by every token operation *)

Lemma wf_set_balance (tok : t) (a : address) (v supply : Z) :
  wf tok -> 0 <= v ->
  supply = _totalSupply tok - balanceOf tok a + v ->
  supply <= MAX_UINT256 ->
  wf (set_totalSupply (set_balance tok a v) supply).
Proof.
  intros (Hall & Hsum & _) Hv -> Hmax. unfold wf. simpl. split; [|split].
  - now apply map_Forall_insert_2.
  - rewrite sum_balances_insert, Hsum. reflexivity.
  - exact Hmax.
Qed.

Lemma set_totalSupply_same (tok : t) : set_totalSupply tok (_totalSupply tok) = tok.
Proof. now destruct tok. Qed.

Lemma set_totalSupply_set_balance (tok : t) (a : address) (v supply : Z) :
  set_balance (set_totalSupply tok supply) a v
  = set_totalSupply (set_balance tok a v) supply.
Proof. reflexivity. Qed.

Lemma set_balance_twice (tok : t) (a : address) (v1 v2 : Z) :
  set_balance (set_balance tok a v1) a v2 = set_balance tok a v2.
Proof. unfold set_balance. simpl. now rewrite insert_insert_eq. Qed.

Lemma wf_set_two (tok : t) (a b : address) (va vb : Z) :
  wf tok -> a <> b -> 0 <= va -> 0 <= vb ->
  va + vb = balanceOf tok a + balanceOf tok b ->
  wf (set_balance (set_balance tok a va) b vb).
Proof.
  intros (Hall & Hsum & Hmax) Hne Ha Hb Hsame. unfold wf. simpl.
  split; [|split].
  - apply map_Forall_insert_2; [exact Hb|].
    apply map_Forall_insert_2; [exact Ha|exact Hall].
  - rewrite !sum_balances_insert, lookup_insert_ne, Hsum by exact Hne.
    unfold balanceOf in Hsame. lia.
  - exact Hmax.
Qed.

Lemma totalSupply_uint256 (tok : t) : wf tok -> uint256 (_totalSupply tok).
Proof.
  intros (Hall & Hsum & Hmax). split; [|exact Hmax].
  rewrite <- Hsum. now apply sum_balances_nonneg.
Qed.

Lemma _update_wf (from to : address) (value : Z) (tok tok' : t) :
  wf tok -> 0 <= value -> _update from to value tok = Ok tok' -> wf tok'.
Proof.
  intros Hwf Hval. unfold _update, revert_if.
  pose proof (totalSupply_uint256 tok Hwf) as [Hs0 Hs1].
  pose proof (balanceOf_uint256 tok Hwf from) as [Hf0 Hf1].
  pose proof (balanceOf_uint256 tok Hwf to) as [Ht0 Ht1].
  pose proof (balanceOf_le_supply tok Hwf from) as Hfs.
  pose proof (balanceOf_le_supply tok Hwf to) as Hts.
  destruct (from =? 0) eqn:Hfrom.
  - destruct (add (_totalSupply tok) value) as [supply|] eqn:Hadd; cbn [bind];
      [|discriminate].
    apply add_Ok_inv in Hadd as [-> Hfit].
    destruct (to =? 0) eqn:Hto; intros [= <-].
    + simpl. replace (_totalSupply tok + value - value) with (_totalSupply tok) by lia.
      rewrite wrap_uint256 by (split; lia).
      exact Hwf.
    + rewrite balanceOf_set_totalSupply, set_totalSupply_set_balance.
      rewrite wrap_uint256 by (split; lia).
      apply wf_set_balance; [exact Hwf|lia|lia|lia].
  - destruct (balanceOf tok from <? value) eqn:Hfunds; cbn [bind]; [discriminate|].
    apply Z.ltb_ge in Hfunds.
    destruct (to =? 0) eqn:Hto; intros [= <-].
    + simpl. rewrite wrap_uint256 by (split; lia).
      apply wf_set_balance; [exact Hwf|lia|lia|lia].
    + apply Z.eqb_neq in Hto.
      rewrite balanceOf_set_balance.
      destruct (decide (from = to)) as [<-|Hne].
      * replace (balanceOf tok from - value + value) with (balanceOf tok from) by lia.
        rewrite wrap_uint256 by (split; lia).
        rewrite set_balance_twice.
        rewrite <- (set_totalSupply_same (set_balance tok from (balanceOf tok from))).
        apply wf_set_balance; [exact Hwf|lia|simpl; lia|simpl; lia].
      * pose proof (balanceOf_pair tok Hwf from to Hne) as Hpair.
        rewrite wrap_uint256 by (split; lia).
        apply wf_set_two; [exact Hwf|exact Hne|lia|lia|lia].
Qed.

Lemma _transfer_wf (from to : address) (value : Z) (tok tok' : t) :
  wf tok -> 0 <= value -> _transfer from to value tok = Ok tok' -> wf tok'.
Proof.
  intros Hwf Hval. unfold _transfer.
  destruct (revert_if (from =? 0) _); cbn [bind]; [|discriminate].
  destruct (revert_if (to =? 0) _); cbn [bind]; [|discriminate].
  now apply _update_wf.
Qed.

Lemma _mint_wf (account : address) (value : Z) (tok tok' : t) :
  wf tok -> 0 <= value -> _mint account value tok = Ok tok' -> wf tok'.
Proof.
  intros Hwf Hval. unfold _mint.
  destruct (revert_if _ _); cbn [bind]; [|discriminate].
  now apply _update_wf.
Qed.

Lemma _burn_wf (account : address) (value : Z) (tok tok' : t) :
  wf tok -> 0 <= value -> _burn account value tok = Ok tok' -> wf tok'.
Proof.
  intros Hwf Hval. unfold _burn.
  destruct (revert_if _ _); cbn [bind]; [|discriminate].
  now apply _update_wf.
Qed.

Lemma _approve_wf (owner spender : address) (value : Z) (tok tok' : t) :
  wf tok -> _approve owner spender value tok = Ok tok' -> wf tok'.
Proof.
  intros Hwf. unfold _approve.
  destruct (revert_if (owner =? 0) _); cbn [bind]; [|discriminate].
  destruct (revert_if (spender =? 0) _); cbn [bind]; [|discriminate].
  now intros [= <-].
Qed.

Lemma _spendAllowance_wf (owner spender : address) (value : Z) (tok tok' : t) :
  wf tok -> _spendAllowance owner spender value tok = Ok tok' -> wf tok'.
Proof.
  intros Hwf Hrun. apply _spendAllowance_Ok in Hrun as [Hbal Hsupply].
  unfold wf in *. now rewrite Hbal, Hsupply.
Qed.

(** The external functions keep the ledger well formed, whoever calls. *)
Lemma transfer_wf (sender to : address) (value : Z) (tok tok' : t) (b : bool) :
  wf tok -> 0 <= value -> transfer sender to value tok = Ok (b, tok') -> wf tok'.
Proof.
  intros Hwf Hval. unfold transfer.
  destruct (_transfer sender to value tok) as [tok1|] eqn:Hmove; cbn [bind];
    [|discriminate].
  intros [= _ <-]. exact (_transfer_wf _ _ _ _ _ Hwf Hval Hmove).
Qed.

Lemma approve_wf (sender spender : address) (value : Z) (tok tok' : t) (b : bool) :
  wf tok -> approve sender spender value tok = Ok (b, tok') -> wf tok'.
Proof.
  intros Hwf. unfold approve.
  destruct (_approve sender spender value tok) as [tok1|] eqn:Hset; cbn [bind];
    [|discriminate].
  intros [= _ <-]. exact (_approve_wf _ _ _ _ _ Hwf Hset).
Qed.

Lemma transferFrom_wf (sender from to : address) (value : Z) (tok tok' : t)
  (b : bool) :
  wf tok -> 0 <= value ->
  transferFrom sender from to value tok = Ok (b, tok') -> wf tok'.
Proof.
  intros Hwf Hval. unfold transferFrom.
  destruct (_spendAllowance from sender value tok) as [tok1|] eqn:Hspend;
    cbn [bind]; [|discriminate].
  destruct (_transfer from to value tok1) as [tok2|] eqn:Hmove; cbn [bind];
    [|discriminate].
  intros [= _ <-].
  apply (_transfer_wf _ _ _ _ _ (_spendAllowance_wf _ _ _ _ _ Hwf Hspend) Hval Hmove).
Qed.

End Token.

(** ** The accounting ledger *)

Module Ledger.

Import Vault.

Section Yield.

Variable e : Env.
Variable s : state.

Let totalValue : Z := totalAssets s.
Let totalPrincipal : Z := _totalUserDeposits (vault s).

(** C3. [getAccumulatedYield] returns [max(0, totalAssets - totalUserDeposits)]
    on every state: the difference when it is positive and 0 when
    [totalAssets <= totalUserDeposits].  It is a view: the call hands back
    the storage it was given, so a read repeated after it (at any later
    block, by any caller) returns the same value from the same storage. *)
Theorem getAccumulatedYield_max (e' : Env) :
  getAccumulatedYield s = Ok (Z.max 0 (totalValue - totalPrincipal)) /\
  exec e GetAccumulatedYield s = Ok (Z.max 0 (totalValue - totalPrincipal), s) /\
  (let* '(_, s1) := exec e GetAccumulatedYield s in exec e' GetAccumulatedYield s1)
    = Ok (Z.max 0 (totalValue - totalPrincipal), s).
Proof.
  assert (Hread :
    getAccumulatedYield s = Ok (Z.max 0 (totalValue - totalPrincipal))).
  { unfold getAccumulatedYield. fold totalValue totalPrincipal.
    destruct (totalValue <=? totalPrincipal) eqn:Hcmp.
    - apply Z.leb_le in Hcmp. f_equal. lia.
    - apply Z.leb_gt in Hcmp. rewrite sub_Ok by lia. f_equal. lia. }
  split; [exact Hread|].
  assert (Hexec : forall env,
    exec env GetAccumulatedYield s = Ok (Z.max 0 (totalValue - totalPrincipal), s)).
  { intros env. simpl. unfold view. now rewrite Hread. }
  split; [apply Hexec|].
  rewrite Hexec. cbv beta iota delta [bind]. apply Hexec.
Qed.

End Yield.

(** How the scenario states come about: the deployer constructs the
    vault, the depositor puts in 100, and 10 units of yield are credited
    to the vault on the asset's ledger. *)
Example scenario_deposited :
  (let* s0 := constructor Scenario.at_deploy Scenario.vault_address
                Scenario.funded Scenario.recipient Scenario.deployer in
   deposit Scenario.as_user 100 Scenario.user s0)
  = Ok (100, Scenario.deposited).
Proof. vm_compute. reflexivity. Qed.

Example scenario_with_yield :
  (let* a := ERC20._mint Scenario.vault_address 10 (asset Scenario.deposited) in
   Ok (with_asset Scenario.deposited a))
  = Ok Scenario.with_yield.
Proof. vm_compute. reflexivity. Qed.

Example scenario_self_donating :
  setDonationAddress Scenario.owner_next_day Scenario.vault_address
    Scenario.with_yield = Ok Scenario.self_donating.
Proof. vm_compute. reflexivity. Qed.

Lemma wf_by_evaluation (s : state) : bool_decide (wf s) = true -> wf s.
Proof. intros Hyes. apply (bool_decide_unpack _). now rewrite Hyes. Qed.

Lemma sub_Err (a b : Z) (err : error) : sub a b = Err err -> err = Panic 17.
Proof. unfold sub. destruct (b <=? a); [discriminate | now intros [= <-]]. Qed.

(** A failing token transfer fails with one of the token's own errors. *)
Lemma transfer_Err (sender to : address) (value : Z) (tok : ERC20.t) (err : error) :
  ERC20.transfer sender to value tok = Err err -> exists name, err = CustomError name.
Proof.
  unfold ERC20.transfer, ERC20._transfer, ERC20._update, revert_if.
  repeat (match goal with
          | |- context [if ?c then _ else _] => destruct c
          end; simpl; try discriminate);
  intros [= <-]; eauto.
Qed.

(** The owner cannot name the zero address as recipient. *)
Lemma setDonationAddress_zero (e : Env) (s : state) :
  msg_sender e = _owner (vault s) ->
  setDonationAddress e 0 s = Err InvalidRecipient.
Proof.
  intros Hown. unfold setDonationAddress, onlyOwner.
  now rewrite Hown, Z.eqb_refl.
Qed.

(** The cooldown guard of [donateYield], on its own. *)
Lemma donateYield_too_soon (e : Env) (s : state) :
  timestamp (lastDonationTimestamp (vault s)) ->
  block_timestamp e < lastDonationTimestamp (vault s) + MIN_DONATION_INTERVAL ->
  donateYield e s = Err CooldownNotElapsed.
Proof.
  intros [Hlo Hhi] Hsoon. unfold donateYield.
  rewrite add_Ok by (unfold MAX_UINT256, MIN_DONATION_INTERVAL; lia).
  cbv beta iota delta [bind].
  apply Z.leb_gt in Hsoon. now rewrite Hsoon.
Qed.

Lemma donateYield_after_cooldown (e : Env) (s : state) :
  uint256 (block_timestamp e) ->
  lastDonationTimestamp (vault s) + MIN_DONATION_INTERVAL <= block_timestamp e ->
  donateYield e s <> Err CooldownNotElapsed.
Proof.
  intros [Hlo Hhi] Hwait. unfold donateYield.
  rewrite add_Ok by lia. cbv beta iota delta [bind].
  apply Z.leb_le in Hwait. rewrite Hwait. simpl.
  destruct (totalAssets s <=? _totalUserDeposits (vault s)); [discriminate|].
  destruct (sub _ _) as [amount|err] eqn:Hsub; simpl.
  - destruct (ERC20.transfer _ _ _ _) as [[b a]|err] eqn:Hsend; simpl;
      [discriminate|].
    apply transfer_Err in Hsend as [name ->]. discriminate.
  - apply sub_Err in Hsub as ->. discriminate.
Qed.

(** C4. Once the cooldown has elapsed, [donateYield] on a state without
    yield ([totalAssets <= totalUserDeposits]) returns 0 and leaves the
    whole storage as it was.  In particular [lastDonationTimestamp] is not
    advanced: a later call on any state with that same timestamp is not
    stopped by the cooldown. *)
Theorem donateYield_no_yield (e : Env) (s : state) :
  uint256 (block_timestamp e) ->
  lastDonationTimestamp (vault s) + MIN_DONATION_INTERVAL <= block_timestamp e ->
  totalAssets s <= _totalUserDeposits (vault s) ->
  donateYield e s = Ok (0, s) /\
  commit s (donateYield e s) = s /\
  forall (e' : Env) (s' : state),
    uint256 (block_timestamp e') ->
    block_timestamp e <= block_timestamp e' ->
    lastDonationTimestamp (vault s') =
      lastDonationTimestamp (vault (commit s (donateYield e s))) ->
    donateYield e' s' <> Err CooldownNotElapsed.
Proof.
  intros Hnow Hwait Hnone.
  assert (Hrun : donateYield e s = Ok (0, s)).
  { unfold donateYield. destruct Hnow as [_ Hmax].
    rewrite add_Ok by lia. cbv beta iota delta [bind].
    apply Z.leb_le in Hwait. rewrite Hwait. simpl.
    apply Z.leb_le in Hnone. now rewrite Hnone. }
  rewrite Hrun. simpl. repeat split.
  intros e' s' Hnow' Hlater Hsame.
  apply donateYield_after_cooldown; [exact Hnow'|]. rewrite Hsame. lia.
Qed.

(** One day after the deposit, with no yield in the vault. *)
Lemma donateYield_no_yield_witness :
  donateYield Scenario.next_day Scenario.deposited = Ok (0, Scenario.deposited) /\
  commit Scenario.deposited (donateYield Scenario.next_day Scenario.deposited)
    = Scenario.deposited.
Proof.
  destruct (donateYield_no_yield Scenario.next_day Scenario.deposited)
    as (Hrun & Hsame & _).
  - vm_compute. split; discriminate.
  - vm_compute. discriminate.
  - vm_compute. discriminate.
  - split; assumption.
Defined.

(** C5. [donateYield] fails with [CooldownNotElapsed] exactly when
    [block.timestamp < lastDonationTimestamp + MIN_DONATION_INTERVAL]
    (one day); the failed call leaves the storage as it was; and after a
    release of a positive amount, a second call less than one day later
    fails with that error.  The two times are block timestamps (the
    stored one is, in every well-formed state). *)
Theorem donateYield_cooldown (e : Env) (s : state) :
  timestamp (lastDonationTimestamp (vault s)) ->
  timestamp (block_timestamp e) ->
  (donateYield e s = Err CooldownNotElapsed <->
   block_timestamp e < lastDonationTimestamp (vault s) + MIN_DONATION_INTERVAL) /\
  (block_timestamp e < lastDonationTimestamp (vault s) + MIN_DONATION_INTERVAL ->
   commit s (donateYield e s) = s) /\
  MIN_DONATION_INTERVAL = 24 * 60 * 60 /\
  forall (amount : Z) (s' : state) (e' : Env),
    donateYield e s = Ok (amount, s') -> 0 < amount ->
    block_timestamp e <= block_timestamp e' <
      block_timestamp e + MIN_DONATION_INTERVAL ->
    donateYield e' s' = Err CooldownNotElapsed.
Proof.
  intros Hlast Hnow.
  assert (Hfwd : block_timestamp e <
                 lastDonationTimestamp (vault s) + MIN_DONATION_INTERVAL ->
                 donateYield e s = Err CooldownNotElapsed)
    by (apply donateYield_too_soon; exact Hlast).
  split; [split; [|exact Hfwd]|].
  - intros Hfail.
    destruct (Z_lt_le_dec (block_timestamp e)
                (lastDonationTimestamp (vault s) + MIN_DONATION_INTERVAL))
      as [Hsoon|Hwait]; [exact Hsoon|].
    exfalso. revert Hfail. apply donateYield_after_cooldown; [|exact Hwait].
    destruct Hnow as [Hlo Hhi]. unfold uint256, MAX_UINT256. split; lia.
  - split; [|split; [reflexivity|]].
    + intros Hsoon. now rewrite (Hfwd Hsoon).
    + intros amount s' e' Hrun Hpos Hclose.
      assert (Hstamp : lastDonationTimestamp (vault s') = block_timestamp e).
      { unfold donateYield in Hrun. ok_steps Hrun.
        destruct (totalAssets s <=? _totalUserDeposits (vault s)).
        - injection Hrun as <- <-. lia.
        - ok_steps Hrun. now subst s'. }
      apply donateYield_too_soon; rewrite Hstamp; [exact Hnow|lia].
Qed.

(** An early call is refused; the yield of 10 is released one day after
    deployment, and a second call an hour later is refused. *)
Lemma donateYield_cooldown_witness :
  donateYield Scenario.as_user Scenario.with_yield = Err CooldownNotElapsed /\
  exists s' : state,
    donateYield Scenario.next_day Scenario.with_yield = Ok (10, s') /\
    donateYield
      {| msg_sender := Scenario.user;
         block_timestamp := block_timestamp Scenario.next_day + 3600 |} s'
    = Err CooldownNotElapsed.
Proof.
  assert (Hlast : timestamp (lastDonationTimestamp (vault Scenario.with_yield)))
    by (vm_compute; split; [discriminate|reflexivity]).
  split.
  - apply (donateYield_cooldown Scenario.as_user Scenario.with_yield Hlast).
    + vm_compute. split; [discriminate|reflexivity].
    + vm_compute. reflexivity.
  - destruct (donateYield Scenario.next_day Scenario.with_yield)
      as [[amount s']|err] eqn:Hrun; vm_compute in Hrun; [|discriminate].
    injection Hrun as <- <-. eexists. split; [reflexivity|].
    refine (proj2 (proj2 (proj2 (donateYield_cooldown Scenario.next_day
              Scenario.with_yield Hlast _))) 10 _ _ _ _ _).
    + vm_compute. split; [discriminate|reflexivity].
    + vm_compute. reflexivity.
    + lia.
    + vm_compute. split; [discriminate|reflexivity].
Defined.

(** C6, as the code has it.  When the cooldown has elapsed and the vault
    holds more than the tracked principal, [donateYield] returns
    [totalAssets - totalUserDeposits], sets [lastDonationTimestamp] to the
    block time and touches nothing else in the vault's storage: the
    principal stays.  When the donation address is not the vault itself,
    exactly that amount of the asset moves from the vault to the donation
    address, so the yield read afterwards is 0.  When the donation address
    is the vault itself, the transfer is from the vault to the vault: no
    balance of the asset changes, the total assets stay, and the yield
    read afterwards is still the amount returned. *)
Theorem donateYield_releases (e : Env) (s : state) :
  wf s ->
  uint256 (block_timestamp e) ->
  lastDonationTimestamp (vault s) + MIN_DONATION_INTERVAL <= block_timestamp e ->
  _totalUserDeposits (vault s) < totalAssets s ->
  exists s' : state,
    let amount := totalAssets s - _totalUserDeposits (vault s) in
    donateYield e s = Ok (amount, s') /\
    lastDonationTimestamp (vault s') = block_timestamp e /\
    _totalUserDeposits (vault s') = _totalUserDeposits (vault s) /\
    vault s' = set_lastDonationTimestamp (vault s) (block_timestamp e) /\
    (donationAddress (vault s) <> this (vault s) ->
     ERC20.balanceOf (asset s') (donationAddress (vault s))
       = ERC20.balanceOf (asset s) (donationAddress (vault s)) + amount /\
     totalAssets s' = totalAssets s - amount /\
     getAccumulatedYield s' = Ok 0) /\
    (donationAddress (vault s) = this (vault s) ->
     (forall a : address,
        ERC20.balanceOf (asset s') a = ERC20.balanceOf (asset s) a) /\
     totalAssets s' = totalAssets s /\
     getAccumulatedYield s' = Ok amount).
Proof.
  intros (Hthis & Hto & [Hp _] & _ & Hasset & _) [_ Hmax] Hwait Hyield.
  set (amount := totalAssets s - _totalUserDeposits (vault s)).
  destruct (Token.transfer_succeeds (this (vault s)) (donationAddress (vault s))
              amount (asset s)) as [a Hsend];
    [exact Hthis | exact Hto | unfold amount, totalAssets; lia |].
  exists {| asset := a;
            vault := set_lastDonationTimestamp (vault s) (block_timestamp e) |}.
  assert (Hpos : 0 <= amount) by (unfold amount; lia).
  pose proof (Token.transfer_Ok _ _ _ _ _ _ Hasset Hpos Hsend)
    as (_ & _ & _ & Hbal & _).
  assert (Hrun : donateYield e s =
    Ok (amount, {| asset := a;
                   vault := set_lastDonationTimestamp (vault s) (block_timestamp e) |})).
  { unfold donateYield. rewrite add_Ok by lia. cbv beta iota delta [bind].
    apply Z.leb_le in Hwait. rewrite Hwait. cbv beta iota delta [require].
    replace (totalAssets s <=? _totalUserDeposits (vault s)) with false
      by (symmetry; apply Z.leb_gt; lia).
    rewrite sub_Ok by lia. cbv beta iota delta [bind].
    fold amount. now rewrite Hsend. }
  cbv zeta. fold amount. split; [exact Hrun|].
  split; [reflexivity|]. split; [reflexivity|]. split; [reflexivity|].
  split.
  - intros Hother.
    assert (Hafter : totalAssets {| asset := a;
        vault := set_lastDonationTimestamp (vault s) (block_timestamp e) |}
        = totalAssets s - amount).
    { unfold totalAssets. simpl. rewrite Hbal.
      rewrite decide_False by congruence. now rewrite decide_True. }
    split.
    { simpl. rewrite Hbal. rewrite decide_False by congruence.
      rewrite decide_False by congruence. now rewrite decide_True. }
    split; [exact Hafter|].
    unfold getAccumulatedYield. rewrite Hafter. simpl.
    replace (totalAssets s - amount <=? _totalUserDeposits (vault s)) with true;
      [reflexivity|]. symmetry. apply Z.leb_le. unfold amount. lia.
  - intros Hself.
    assert (Hsame : forall b : address, ERC20.balanceOf a b = ERC20.balanceOf (asset s) b).
    { intros b. rewrite Hbal. now rewrite decide_True by congruence. }
    assert (Hafter : totalAssets {| asset := a;
        vault := set_lastDonationTimestamp (vault s) (block_timestamp e) |}
        = totalAssets s).
    { unfold totalAssets. simpl. apply Hsame. }
    split; [exact Hsame|]. split; [exact Hafter|].
    unfold getAccumulatedYield. rewrite Hafter. simpl.
    replace (totalAssets s <=? _totalUserDeposits (vault s)) with false
      by (symmetry; apply Z.leb_gt; lia).
    rewrite sub_Ok by lia. reflexivity.
Qed.

(** The scenario of the specification: deposit 100, total value 110 after
    yield; one day later the release returns 10, the recipient holds 10
    more, the total value is 100 and no yield is left.  With the vault
    itself as donation address the release returns 10 as well, and the
    total value and the yield read stay at 110 and 10. *)
Lemma donateYield_releases_witness :
  (exists s' : state,
     donateYield Scenario.next_day Scenario.with_yield = Ok (10, s') /\
     ERC20.balanceOf (asset s') Scenario.recipient
       = ERC20.balanceOf (asset Scenario.with_yield) Scenario.recipient + 10 /\
     totalAssets s' = 100 /\
     getAccumulatedYield s' = Ok 0 /\
     lastDonationTimestamp (vault s') = block_timestamp Scenario.next_day /\
     _totalUserDeposits (vault s') = 100) /\
  exists s' : state,
    donateYield Scenario.next_day Scenario.self_donating = Ok (10, s') /\
    totalAssets s' = 110 /\
    getAccumulatedYield s' = Ok 10 /\
    lastDonationTimestamp (vault s') = block_timestamp Scenario.next_day.
Proof.
  split.
  - destruct (donateYield_releases Scenario.next_day Scenario.with_yield)
      as (s' & Hrun & Hstamp & Hprincipal & _ & Hother & _).
    + apply wf_by_evaluation. vm_compute. reflexivity.
    + vm_compute. split; discriminate.
    + vm_compute. discriminate.
    + vm_compute. reflexivity.
    + destruct Hother as (Hpaid & Htotal & Hyield); [vm_compute; discriminate|].
      exists s'. repeat split; assumption.
  - destruct (donateYield_releases Scenario.next_day Scenario.self_donating)
      as (s' & Hrun & Hstamp & _ & _ & _ & Hself).
    + apply wf_by_evaluation. vm_compute. reflexivity.
    + vm_compute. split; discriminate.
    + vm_compute. discriminate.
    + vm_compute. reflexivity.
    + destruct Hself as (_ & Htotal & Hyield); [reflexivity|].
      exists s'. repeat split; assumption.
Defined.

(** C6, as stated, fails when the donation address is the vault itself:
    the release returns 10 and stamps the time, but the transfer is from
    the vault to the vault, so the recipient's balance and the total
    value stay at 110 and the yield read afterwards is still 10. *)
Lemma donateYield_to_itself :
  wf Scenario.self_donating /\
  uint256 (block_timestamp Scenario.next_day) /\
  lastDonationTimestamp (vault Scenario.self_donating) + MIN_DONATION_INTERVAL
    <= block_timestamp Scenario.next_day /\
  _totalUserDeposits (vault Scenario.self_donating)
    < totalAssets Scenario.self_donating /\
  exists s' : state,
    donateYield Scenario.next_day Scenario.self_donating = Ok (10, s') /\
    totalAssets Scenario.self_donating = 110 /\
    totalAssets s' = 110 /\
    ERC20.balanceOf (asset s') (donationAddress (vault Scenario.self_donating))
      = ERC20.balanceOf (asset Scenario.self_donating)
          (donationAddress (vault Scenario.self_donating)) /\
    getAccumulatedYield s' = Ok 10.
Proof.
  split; [apply wf_by_evaluation; vm_compute; reflexivity|].
  split; [vm_compute; split; discriminate|].
  split; [vm_compute; discriminate|].
  split; [vm_compute; reflexivity|].
  destruct (donateYield Scenario.next_day Scenario.self_donating)
    as [[amount s']|err] eqn:Hrun; vm_compute in Hrun; [|discriminate].
  injection Hrun as <- <-. eexists. split; [reflexivity|].
  repeat split.
Qed.

(** *** Withdrawals *)

Lemma reduceDeposits_Ok (assets : Z) (s s1 : state) :
  reduceDeposits assets s = Ok s1 ->
  asset s1 = asset s /\ token (vault s1) = token (vault s) /\
  same_settings (vault s) (vault s1) /\
  _totalUserDeposits (vault s1) =
    if 0 <? totalAssets s then principal_after assets s
    else _totalUserDeposits (vault s).
Proof.
  unfold reduceDeposits, principal_after, proportionalPrincipal, same_settings.
  destruct (0 <? totalAssets s); [|intros [= <-]; tauto].
  destruct (mul _ _) as [product|] eqn:Hmul; cbn [bind]; [|discriminate].
  apply mul_Ok_inv in Hmul as [-> _].
  destruct (div _ _) as [q|] eqn:Hdiv; cbn [bind]; [|discriminate].
  apply div_Ok_inv in Hdiv as [-> _].
  destruct (_ <=? _) eqn:Hle; [|intros [= <-]; tauto].
  apply Z.leb_le in Hle. rewrite sub_Ok by exact Hle. cbn [bind].
  intros [= <-]. simpl. tauto.
Qed.

Lemma _withdraw_Ok (caller receiver owner : address) (assets shares : Z)
  (s s' : state) :
  ERC20.wf (asset s) -> 0 <= assets ->
  _withdraw caller receiver owner assets shares s = Ok s' ->
  assets <= totalAssets s /\
  ERC20.moved (this (vault s)) receiver assets (asset s) (asset s') /\
  same_settings (vault s) (vault s') /\
  _totalUserDeposits (vault s') = _totalUserDeposits (vault s).
Proof.
  intros Hwf Hpos. unfold _withdraw, same_settings.
  destruct (if caller =? owner then _ else _) as [tok1|]; cbn [bind];
    [|discriminate].
  destruct (ERC20._burn owner shares tok1) as [tok2|]; cbn [bind];
    [|discriminate].
  destruct (ERC20.transfer _ _ _ _) as [[b a]|] eqn:Hsend; cbn [bind];
    [|discriminate].
  intros [= <-]. simpl.
  apply Token.transfer_Ok in Hsend as (_ & _ & Hfunds & Hmoved);
    [|exact Hwf|exact Hpos].
  unfold totalAssets. tauto.
Qed.

Lemma paid_out (caller receiver owner : address) (assets shares : Z)
  (s s1 s' : state) :
  ERC20.wf (asset s) -> 0 <= assets ->
  reduceDeposits assets s = Ok s1 ->
  _withdraw caller receiver owner assets shares s1 = Ok s' ->
  assets <= totalAssets s /\
  totalAssets s' =
    (if decide (receiver = this (vault s)) then totalAssets s
     else totalAssets s - assets) /\
  _totalUserDeposits (vault s') =
    (if 0 <? totalAssets s then principal_after assets s
     else _totalUserDeposits (vault s)).
Proof.
  intros Hwf Hpos Hreduce Hpay.
  apply reduceDeposits_Ok in Hreduce as (Hasset & _ & (Hthis & _) & Hprincipal).
  apply _withdraw_Ok in Hpay as (Hfunds & (Hbal & _) & (Hthis' & _) & Hsame);
    [|now rewrite Hasset|exact Hpos].
  unfold totalAssets in *.
  rewrite Hasset in Hfunds. rewrite Hthis in Hfunds.
  split; [exact Hfunds|]. split; [|congruence].
  rewrite Hthis', Hbal, Hasset, Hthis.
  destruct (decide (this (vault s) = receiver)) as [<-|Hne].
  - now rewrite decide_True.
  - rewrite (decide_False (P := receiver = this (vault s))) by congruence.
    now rewrite decide_True.
Qed.

Lemma withdrawn_by (caller receiver owner : address) (assets shares : Z)
  (s s1 s' : state) :
  ERC20.wf (asset s) -> 0 <= assets -> 0 < totalAssets s ->
  reduceDeposits assets s = Ok s1 ->
  _withdraw caller receiver owner assets shares s1 = Ok s' ->
  withdrawn assets receiver s s'.
Proof.
  intros Hwf Hpos Hsome Hreduce Hpay.
  destruct (paid_out _ _ _ _ _ _ _ _ Hwf Hpos Hreduce Hpay)
    as (_ & Htotal & Hprincipal).
  apply Z.ltb_lt in Hsome. rewrite Hsome in Hprincipal.
  split; assumption.
Qed.

Lemma mulDiv_nonneg (x y d q : Z) (rounding : Rounding) :
  0 <= x -> 0 <= y -> 0 <= d -> mulDiv x y d rounding = Ok q -> 0 <= q.
Proof.
  intros Hx Hy Hd. unfold mulDiv.
  destruct (d =? 0) eqn:Hzero; [discriminate|]. apply Z.eqb_neq in Hzero.
  assert (Hq : 0 <= x * y / d) by (apply Z.div_pos; nia).
  destruct rounding.
  - destruct (_ <=? _); [|discriminate]. now intros [= <-].
  - destruct (0 <? _); (destruct (_ <=? _); [|discriminate]);
      intros [= <-]; lia.
Qed.

Lemma totalSupply_nonneg (s : state) : wf s -> 0 <= totalSupply s.
Proof.
  intros (_ & _ & _ & _ & _ & (Hall & Hsum & _)). unfold totalSupply.
  rewrite <- Hsum. now apply Token.sum_balances_nonneg.
Qed.

Lemma totalAssets_nonneg (s : state) : wf s -> 0 <= totalAssets s.
Proof.
  intros (_ & _ & _ & _ & Hasset & _). now apply Token.balanceOf_nonneg.
Qed.

Lemma _convertToAssets_nonneg (shares assets : Z) (rounding : Rounding) (s : state) :
  wf s -> 0 <= shares -> _convertToAssets shares rounding s = Ok assets ->
  0 <= assets.
Proof.
  intros Hwf Hpos. unfold _convertToAssets.
  pose proof (totalAssets_nonneg s Hwf). pose proof (totalSupply_nonneg s Hwf).
  destruct (add (totalAssets s) 1) as [total|] eqn:Htotal; cbn [bind];
    [|discriminate].
  destruct (add (totalSupply s) 1) as [supply|] eqn:Hsupply; cbn [bind];
    [|discriminate].
  apply add_Ok_inv in Htotal as [-> _]. apply add_Ok_inv in Hsupply as [-> _].
  apply mulDiv_nonneg; lia.
Qed.

(** [withdraw] and [redeem] are the principal adjustment followed by the
    inherited payout. *)
Lemma withdraw_Ok (e : Env) (assets : Z) (receiver owner : address)
  (s s' : state) (shares : Z) :
  withdraw e assets receiver owner s = Ok (shares, s') ->
  exists s1 : state,
    reduceDeposits assets s = Ok s1 /\
    _withdraw (msg_sender e) receiver owner assets shares s1 = Ok s'.
Proof.
  unfold withdraw, super_withdraw.
  destruct (reduceDeposits assets s) as [s1|] eqn:Hreduce; cbn [bind];
    [|discriminate].
  destruct (maxWithdraw owner s1) as [maxAssets|]; cbn [bind]; [|discriminate].
  destruct (revert_if _ _); cbn [bind]; [|discriminate].
  destruct (previewWithdraw assets s1) as [burned|]; cbn [bind];
    [|discriminate].
  destruct (_withdraw _ _ _ _ _ _) as [s2|] eqn:Hpay; cbn [bind];
    [|discriminate].
  intros [= <- <-]. eauto.
Qed.

Lemma redeem_Ok (e : Env) (shares : Z) (receiver owner : address)
  (s s' : state) (assets : Z) :
  redeem e shares receiver owner s = Ok (assets, s') ->
  exists s1 : state,
    previewRedeem shares s = Ok assets /\
    reduceDeposits assets s = Ok s1 /\
    _withdraw (msg_sender e) receiver owner assets shares s1 = Ok s'.
Proof.
  unfold redeem, super_redeem.
  destruct (previewRedeem shares s) as [worth|] eqn:Hworth; cbn [bind];
    [|discriminate].
  destruct (reduceDeposits worth s) as [s1|] eqn:Hreduce; cbn [bind];
    [|discriminate].
  destruct (revert_if _ _); cbn [bind]; [|discriminate].
  destruct (previewRedeem shares s1) as [paid|] eqn:Hpaid; cbn [bind];
    [|discriminate].
  destruct (_withdraw _ _ _ _ _ _) as [s2|] eqn:Hpay; cbn [bind];
    [|discriminate].
  intros [= <- <-].
  assert (Hsame : paid = worth).
  { apply reduceDeposits_Ok in Hreduce as (Ha & Ht & (Hthis & _) & _).
    unfold previewRedeem, _convertToAssets, totalAssets, totalSupply in *.
    rewrite Ha, Ht, Hthis in Hpaid. congruence. }
  subst paid. eauto.
Qed.

(** C7, as the code has it.  On a state holding assets, a successful
    [withdraw] of [assets], and a successful [redeem] whose shares are
    worth [assets = previewRedeem(shares)], take
    [floor(totalUserDeposits * assets / totalAssets)] off the tracked
    principal unless that would underflow, in which case the principal is
    left alone; the vault's total assets go down by [assets], except that
    they stay as they were when the receiver is the vault itself. *)
Theorem withdraw_reduces_principal
  (e : Env) (receiver owner : address) (s s' : state) :
  wf s ->
  0 < totalAssets s ->
  let totalValue := totalAssets s in
  let totalPrincipal := _totalUserDeposits (vault s) in
  let onWithdraw (amount : Z) :=
    let proportionalPrincipal := totalPrincipal * amount / totalValue in
    _totalUserDeposits (vault s') =
      (if proportionalPrincipal <=? totalPrincipal
       then totalPrincipal - proportionalPrincipal
       else totalPrincipal) /\
    totalAssets s' =
      (if decide (receiver = this (vault s)) then totalValue
       else totalValue - amount) in
  (forall assets shares : Z,
     0 <= assets ->
     withdraw e assets receiver owner s = Ok (shares, s') ->
     onWithdraw assets) /\
  (forall shares assets : Z,
     0 <= shares ->
     redeem e shares receiver owner s = Ok (assets, s') ->
     previewRedeem shares s = Ok assets /\ onWithdraw assets).
Proof.
  intros Hwf Hsome. cbv zeta.
  assert (Hasset : ERC20.wf (asset s)) by apply Hwf.
  split.
  - intros assets shares Hpos Hrun.
    apply withdraw_Ok in Hrun as (s1 & Hreduce & Hpay).
    exact (withdrawn_by _ _ _ _ _ _ _ _ Hasset Hpos Hsome Hreduce Hpay).
  - intros shares assets Hpos Hrun.
    apply redeem_Ok in Hrun as (s1 & Hworth & Hreduce & Hpay).
    split; [exact Hworth|].
    assert (Hworth_pos : 0 <= assets)
      by (exact (_convertToAssets_nonneg _ _ _ _ Hwf Hpos Hworth)).
    exact (withdrawn_by _ _ _ _ _ _ _ _ Hasset Hworth_pos Hsome Hreduce Hpay).
Qed.

(** The depositor withdraws 50 of the 110 to themselves: 45 comes off the
    principal of 100, and the vault is left with 60. *)
Lemma withdraw_reduces_principal_witness :
  exists (shares : Z) (s' : state),
    withdraw Scenario.next_day 50 Scenario.user Scenario.user Scenario.with_yield
      = Ok (shares, s') /\
    _totalUserDeposits (vault s') = 55 /\
    totalAssets s' = 60.
Proof.
  destruct (withdraw Scenario.next_day 50 Scenario.user Scenario.user
              Scenario.with_yield) as [[shares s']|err] eqn:Hrun;
    [|vm_compute in Hrun; discriminate].
  exists shares, s'. split; [reflexivity|].
  assert (Hwf : wf Scenario.with_yield)
    by (apply wf_by_evaluation; vm_compute; reflexivity).
  assert (Hsome : 0 < totalAssets Scenario.with_yield) by (vm_compute; reflexivity).
  destruct (withdraw_reduces_principal Scenario.next_day Scenario.user
              Scenario.user Scenario.with_yield s' Hwf Hsome) as [Hwithdraw _].
  destruct (Hwithdraw 50 shares ltac:(lia) Hrun) as [Hprincipal Htotal].
  split; [rewrite Hprincipal | rewrite Htotal]; vm_compute; reflexivity.
Defined.

(** C7, as stated, fails on the total value when the receiver is the
    vault: the depositor withdraws 50 of the 110 to the vault's own
    address; 45 comes off the principal, the shares are burnt, and the
    vault still holds 110. *)
Lemma withdraw_to_the_vault :
  wf Scenario.with_yield /\
  totalAssets Scenario.with_yield = 110 /\
  exists (shares : Z) (s' : state),
    withdraw Scenario.next_day 50 Scenario.vault_address Scenario.user
      Scenario.with_yield = Ok (shares, s') /\
    _totalUserDeposits (vault s') = 55 /\
    totalAssets s' = 110.
Proof.
  split; [apply wf_by_evaluation; vm_compute; reflexivity|].
  split; [reflexivity|].
  destruct (withdraw Scenario.next_day 50 Scenario.vault_address Scenario.user
              Scenario.with_yield) as [[shares s']|err] eqn:Hrun;
    vm_compute in Hrun; [|discriminate].
  injection Hrun as <- <-. eexists _, _. split; [reflexivity|].
  split; reflexivity.
Qed.

(** *** Which calls take value out of the vault *)

Lemma _deposit_Ok (caller receiver : address) (assets shares : Z) (s s' : state) :
  ERC20.wf (asset s) -> 0 <= assets ->
  _deposit caller receiver assets shares s = Ok s' ->
  totalAssets s <= totalAssets s' /\
  _totalUserDeposits (vault s') = _totalUserDeposits (vault s) /\
  this (vault s') = this (vault s).
Proof.
  intros Hwf Hpos. unfold _deposit.
  destruct (ERC20.transferFrom _ _ _ _ _) as [[b a]|] eqn:Hpull; cbn [bind];
    [|discriminate].
  destruct (ERC20._mint _ _ _) as [tok|]; cbn [bind]; [|discriminate].
  intros [= <-]. unfold totalAssets. simpl.
  apply Token.transferFrom_Ok in Hpull as (_ & _ & _ & Hbal & _);
    [|exact Hwf|exact Hpos].
  rewrite Hbal. repeat split.
  repeat case_decide; subst; congruence || lia.
Qed.

Lemma deposit_Ok (e : Env) (assets : Z) (receiver : address) (s s' : state)
  (shares : Z) :
  wf s -> 0 <= assets ->
  deposit e assets receiver s = Ok (shares, s') ->
  totalAssets s <= totalAssets s'.
Proof.
  intros Hwf Hpos. unfold deposit, super_deposit.
  destruct (revert_if _ _); cbn [bind]; [|discriminate].
  destruct (previewDeposit assets s) as [minted|]; cbn [bind]; [|discriminate].
  destruct (_deposit _ _ _ _ _) as [s1|] eqn:Hput; cbn [bind]; [|discriminate].
  destruct (add _ _) as [p|]; cbn [bind]; [|discriminate].
  intros [= _ <-].
  apply _deposit_Ok in Hput as (Hle & _ & Hthis); [|apply Hwf|exact Hpos].
  unfold totalAssets in *. simpl. exact Hle.
Qed.

Lemma mint_Ok (e : Env) (shares : Z) (receiver : address) (s s' : state)
  (assets : Z) :
  wf s -> 0 <= shares ->
  mint e shares receiver s = Ok (assets, s') ->
  totalAssets s <= totalAssets s'.
Proof.
  intros Hwf Hpos. unfold mint, super_mint.
  destruct (revert_if _ _); cbn [bind]; [|discriminate].
  destruct (previewMint shares s) as [cost|] eqn:Hcost; cbn [bind];
    [|discriminate].
  destruct (_deposit _ _ _ _ _) as [s1|] eqn:Hput; cbn [bind]; [|discriminate].
  destruct (add _ _) as [p|]; cbn [bind]; [|discriminate].
  intros [= _ <-].
  apply _deposit_Ok in Hput as (Hle & _ & Hthis);
    [|apply Hwf|exact (_convertToAssets_nonneg _ _ _ _ Hwf Hpos Hcost)].
  unfold totalAssets in *. simpl. exact Hle.
Qed.

Lemma leaves_assets_Ok (e : Env) (c : call) (s s' : state) (word : Z) :
  leaves_assets c -> exec e c s = Ok (word, s') ->
  totalAssets s' = totalAssets s.
Proof.
  destruct c; simpl; try contradiction; intros _ Hrun;
    unfold returns_nothing, returns_bool, view, setDonationAddress,
      totalUserDeposits, transfer, approve, transferFrom, transferOwnership,
      renounceOwnership in Hrun;
    repeat (match goal with
            | H : bind _ _ = Ok _ |- _ =>
                apply bind_Ok in H; destruct H as (? & ? & H)
            | H : match ?p with (_, _) => _ end = Ok _ |- _ => destruct p
            end);
    simplify_eq; reflexivity.
Qed.

(** C2, as the code has it.  A call to the vault that lowers its total
    assets is one of four.  [withdraw] and [redeem] lower them by the
    assets paid out and take the proportional share
    [floor(totalUserDeposits * assets / totalAssets)] off the principal.
    [donateYield] and the owner's [transferToStrategyManager] lower them
    and leave the principal as it was.  No other call lowers them. *)
Theorem totalAssets_lowered_by
  (e : Env) (c : call) (s s' : state) (word : Z) :
  wf s -> call_ok c ->
  exec e c s = Ok (word, s') ->
  totalAssets s' < totalAssets s ->
  match c with
  | DonateYield | TransferToStrategyManager _ =>
      _totalUserDeposits (vault s') = _totalUserDeposits (vault s)
  | Withdraw assets _ _ =>
      totalAssets s' = totalAssets s - assets /\
      _totalUserDeposits (vault s')
        = _totalUserDeposits (vault s)
          - _totalUserDeposits (vault s) * assets / totalAssets s
  | Redeem shares _ _ =>
      exists assets : Z,
        previewRedeem shares s = Ok assets /\
        totalAssets s' = totalAssets s - assets /\
        _totalUserDeposits (vault s')
          = _totalUserDeposits (vault s)
            - _totalUserDeposits (vault s) * assets / totalAssets s
  | _ => False
  end.
Proof.
  intros Hwf Hargs Hrun Hless.
  assert (Hasset : ERC20.wf (asset s)) by apply Hwf.
  assert (Hprincipal : 0 <= _totalUserDeposits (vault s)) by apply Hwf.
  assert (Hpaid : forall (receiver owner : address) (assets shares : Z) (s1 : state),
    0 <= assets ->
    reduceDeposits assets s = Ok s1 ->
    _withdraw (msg_sender e) receiver owner assets shares s1 = Ok s' ->
    totalAssets s' = totalAssets s - assets /\
    _totalUserDeposits (vault s')
      = _totalUserDeposits (vault s) - proportionalPrincipal assets s).
  { intros receiver owner assets shares s1 Hpos Hreduce Hpay.
    destruct (paid_out _ _ _ _ _ _ _ _ Hasset Hpos Hreduce Hpay)
      as (Hfunds & Htotal & Hleft).
    destruct (decide (receiver = this (vault s))); [lia|].
    split; [exact Htotal|].
    assert (Hsome : 0 < totalAssets s) by lia.
    rewrite (proj2 (Z.ltb_lt _ _) Hsome) in Hleft. rewrite Hleft.
    unfold principal_after, proportionalPrincipal.
    assert (Hshare : _totalUserDeposits (vault s) * assets / totalAssets s
                     <= _totalUserDeposits (vault s)).
    { apply Z.div_le_upper_bound; [exact Hsome|]. nia. }
    apply Z.leb_le in Hshare. now rewrite Hshare. }
  destruct c; simpl in Hargs;
    try (match type of Hrun with
         | exec e ?c s = _ =>
             pose proof (leaves_assets_Ok e c s s' word I Hrun); lia
         end);
    simpl in Hrun.
  - (* deposit *)
    pose proof (deposit_Ok _ _ _ _ _ _ Hwf (proj1 Hargs) Hrun). lia.
  - (* mint *)
    pose proof (mint_Ok _ _ _ _ _ _ Hwf (proj1 Hargs) Hrun). lia.
  - (* withdraw *)
    apply withdraw_Ok in Hrun as (s1 & Hreduce & Hpay).
    exact (Hpaid _ _ _ _ _ (proj1 Hargs) Hreduce Hpay).
  - (* redeem *)
    apply redeem_Ok in Hrun as (s1 & Hworth & Hreduce & Hpay).
    exists word. split; [exact Hworth|].
    apply (Hpaid _ _ _ _ _
             (_convertToAssets_nonneg _ _ _ _ Hwf (proj1 Hargs) Hworth)
             Hreduce Hpay).
  - (* donateYield *)
    unfold donateYield in Hrun.
    destruct (add _ _) as [earliest|]; cbn [bind] in Hrun; [|discriminate].
    destruct (require _ _); cbn [bind] in Hrun; [|discriminate].
    destruct (_ <=? _); [now injection Hrun as _ <-|].
    destruct (sub _ _) as [amount|]; cbn [bind] in Hrun; [|discriminate].
    destruct (ERC20.transfer _ _ _ _) as [[sent ledger]|]; cbn [bind] in Hrun;
      [|discriminate].
    now injection Hrun as _ <-.
  - (* transferToStrategyManager *)
    unfold returns_nothing, transferToStrategyManager in Hrun.
    destruct (onlyOwner e s); cbn [bind] in Hrun; [|discriminate].
    destruct (ERC20.transfer _ _ _ _) as [[sent ledger]|]; cbn [bind] in Hrun;
      [|discriminate].
    now injection Hrun as _ <-.
Qed.

(** The depositor withdraws 50 of the 110. *)
Lemma totalAssets_lowered_by_witness :
  exists (shares : Z) (s' : state),
    exec Scenario.next_day (Withdraw 50 Scenario.user Scenario.user)
      Scenario.with_yield = Ok (shares, s') /\
    totalAssets s' = 110 - 50 /\
    _totalUserDeposits (vault s') = 100 - 100 * 50 / 110.
Proof.
  destruct (exec Scenario.next_day (Withdraw 50 Scenario.user Scenario.user)
              Scenario.with_yield) as [[shares s']|err] eqn:Hrun;
    [|vm_compute in Hrun; discriminate].
  exists shares, s'. split; [reflexivity|].
  apply (totalAssets_lowered_by Scenario.next_day
           (Withdraw 50 Scenario.user Scenario.user) Scenario.with_yield s' shares).
  - apply wf_by_evaluation. vm_compute. reflexivity.
  - vm_compute. split; discriminate.
  - exact Hrun.
  - vm_compute in Hrun. injection Hrun as _ <-. vm_compute. reflexivity.
Defined.

(** C2, as stated, fails on [transferToStrategyManager]: the owner pulls
    40 of the 110 out of the vault; it is not [donateYield], the total
    assets drop to 70, and the principal stays at 100 although the
    proportional share of 40 is 36. *)
Lemma transferToStrategyManager_unaccounted :
  wf Scenario.with_yield /\
  call_ok (TransferToStrategyManager 40) /\
  TransferToStrategyManager 40 <> DonateYield /\
  proportionalPrincipal 40 Scenario.with_yield = 36 /\
  exists s' : state,
    exec Scenario.owner_next_day (TransferToStrategyManager 40) Scenario.with_yield
      = Ok (0, s') /\
    totalAssets Scenario.with_yield = 110 /\
    totalAssets s' = 70 /\
    _totalUserDeposits (vault Scenario.with_yield) = 100 /\
    _totalUserDeposits (vault s') = 100.
Proof.
  split; [apply wf_by_evaluation; vm_compute; reflexivity|].
  split; [vm_compute; split; discriminate|].
  split; [discriminate|].
  split; [reflexivity|].
  destruct (exec Scenario.owner_next_day (TransferToStrategyManager 40)
              Scenario.with_yield) as [[word s']|err] eqn:Hrun;
    vm_compute in Hrun; [|discriminate].
  injection Hrun as <- <-. eexists. split; [reflexivity|].
  repeat split.
Qed.

(** *** Well-formedness is an invariant of the vault *)

Ltac ok_inv :=
  repeat match goal with
         | H : bind _ _ = Ok _ |- _ =>
             apply bind_Ok in H; destruct H as (? & ? & H)
         | H : match ?p with (_, _) => _ end = Ok _ |- _ => destruct p
         | H : revert_if _ _ = Ok _ |- _ => apply revert_if_Ok in H
         | H : require _ _ = Ok _ |- _ => apply require_Ok in H
         end.

Lemma wf_constructor (e : Env) (self : address) (asset_ : ERC20.t)
  (_donationAddress owner_ : address) (s : state) :
  env_ok e -> self <> 0 -> ERC20.wf asset_ ->
  constructor e self asset_ _donationAddress owner_ = Ok s -> wf s.
Proof.
  intros Hnow Hself Hasset Hrun. unfold constructor in Hrun. ok_inv.
  injection Hrun as <-.
  match goal with H : negb _ = true |- _ =>
    apply negb_true_iff, Z.eqb_neq in H; rename H into Hto end.
  unfold wf. simpl.
  split; [exact Hself|]. split; [exact Hto|].
  split; [split; [lia|vm_compute; discriminate]|].
  split; [exact Hnow|]. split; [exact Hasset|].
  split; [apply map_Forall_empty|].
  split; [reflexivity|vm_compute; discriminate].
Qed.

Lemma _convertToShares_nonneg (assets shares : Z) (rounding : Rounding) (s : state) :
  wf s -> 0 <= assets -> _convertToShares assets rounding s = Ok shares ->
  0 <= shares.
Proof.
  intros Hwf Hpos. unfold _convertToShares.
  pose proof (totalAssets_nonneg s Hwf). pose proof (totalSupply_nonneg s Hwf).
  destruct (add (totalSupply s) 1) as [supply|] eqn:Hsupply; cbn [bind];
    [|discriminate].
  destruct (add (totalAssets s) 1) as [total|] eqn:Htotal; cbn [bind];
    [|discriminate].
  apply add_Ok_inv in Htotal as [-> _]. apply add_Ok_inv in Hsupply as [-> _].
  apply mulDiv_nonneg; lia.
Qed.

Lemma wf_split (s : state) :
  wf s <-> wf_frame s /\ uint256 (_totalUserDeposits (vault s)).
Proof. unfold wf, wf_frame. tauto. Qed.

Lemma wf_frame_intro (s : state) :
  this (vault s) <> 0 -> donationAddress (vault s) <> 0 ->
  timestamp (lastDonationTimestamp (vault s)) ->
  ERC20.wf (asset s) -> ERC20.wf (token (vault s)) -> wf_frame s.
Proof. unfold wf_frame. tauto. Qed.

Lemma wf_intro (s : state) :
  this (vault s) <> 0 -> donationAddress (vault s) <> 0 ->
  uint256 (_totalUserDeposits (vault s)) ->
  timestamp (lastDonationTimestamp (vault s)) ->
  ERC20.wf (asset s) -> ERC20.wf (token (vault s)) -> wf s.
Proof. unfold wf. tauto. Qed.

Lemma _deposit_wf (caller receiver : address) (assets shares : Z) (s s' : state) :
  wf_frame s -> 0 <= assets -> 0 <= shares ->
  _deposit caller receiver assets shares s = Ok s' ->
  wf_frame s' /\ _totalUserDeposits (vault s') = _totalUserDeposits (vault s).
Proof.
  intros (Hthis & Hto & Hlast & Hasset & Htoken) Ha Hs Hrun.
  unfold _deposit in Hrun. ok_inv. injection Hrun as <-.
  split; [|reflexivity]. apply wf_frame_intro; simpl; try assumption.
  - eapply Token.transferFrom_wf; [| |eassumption]; assumption.
  - eapply Token._mint_wf; [| |eassumption]; assumption.
Qed.

Lemma _withdraw_wf (caller receiver owner : address) (assets shares : Z)
  (s s' : state) :
  wf_frame s -> 0 <= assets -> 0 <= shares ->
  _withdraw caller receiver owner assets shares s = Ok s' ->
  wf_frame s' /\ _totalUserDeposits (vault s') = _totalUserDeposits (vault s).
Proof.
  intros (Hthis & Hto & Hlast & Hasset & Htoken) Ha Hs Hrun.
  unfold _withdraw in Hrun. ok_inv. injection Hrun as <-.
  split; [|reflexivity]. apply wf_frame_intro; simpl; try assumption.
  - eapply Token.transfer_wf; [| |eassumption]; assumption.
  - eapply Token._burn_wf; [|exact Hs|eassumption].
    destruct (caller =? owner).
    + match goal with H : Ok _ = Ok _ |- _ => now injection H as <- end.
    + eapply Token._spendAllowance_wf; [|eassumption]; assumption.
Qed.

Lemma reduceDeposits_wf (assets : Z) (s s1 : state) :
  wf s -> 0 <= assets -> reduceDeposits assets s = Ok s1 -> wf s1.
Proof.
  intros Hwf Hpos Hrun.
  pose proof (totalAssets_nonneg s Hwf) as Htotal.
  apply reduceDeposits_Ok in Hrun
    as (Hasset & Htoken & (Hthis & _ & Hto & Hlast) & Hprincipal).
  destruct Hwf as (H1 & H2 & [Hp0 Hp1] & H4 & H5 & H6).
  unfold wf. rewrite Hasset, Htoken, Hthis, Hto, Hlast, Hprincipal.
  repeat (split; try assumption);
    unfold principal_after, proportionalPrincipal;
    destruct (0 <? totalAssets s) eqn:Hsome; try assumption;
    apply Z.ltb_lt in Hsome;
    destruct (_ <=? _) eqn:Hle; try assumption;
    apply Z.leb_le in Hle; try lia.
  assert (0 <= _totalUserDeposits (vault s) * assets / totalAssets s)
    by (apply Z.div_pos; nia).
  lia.
Qed.

(** X1. Every call that goes through takes a well-formed state to a
    well-formed state. *)
Theorem wf_exec (e : Env) (c : call) (s s' : state) (word : Z) :
  wf s -> env_ok e -> call_ok c ->
  exec e c s = Ok (word, s') -> wf s'.
Proof.
  intros Hwf Hnow Hargs Hrun.
  destruct c; simpl in Hrun, Hargs.
  - (* setDonationAddress *)
    unfold returns_nothing, setDonationAddress in Hrun. ok_inv.
    simplify_eq.
    match goal with H : negb _ = true |- _ =>
      apply negb_true_iff, Z.eqb_neq in H end.
    destruct Hwf as (W1 & W2 & W3 & W4 & W5 & W6).
    apply wf_intro; simpl; assumption.
  - (* deposit *)
    unfold deposit, super_deposit in Hrun. ok_inv. simplify_eq.
    match goal with H : previewDeposit _ _ = Ok _ |- _ =>
      apply (_convertToShares_nonneg _ _ _ _ Hwf (proj1 Hargs)) in H end.
    match goal with H : _deposit _ _ _ _ _ = Ok _ |- _ =>
      apply _deposit_wf in H as [Hframe Hsame];
        [|apply wf_split, Hwf|apply Hargs|assumption] end.
    match goal with H : add _ _ = Ok _ |- _ =>
      apply add_Ok_inv in H as [-> Hfit] end.
    apply wf_split. split; [exact Hframe|]. simpl.
    rewrite Hsame. destruct Hwf as (_ & _ & [Hp0 _] & _).
    unfold uint256 in *. lia.
  - (* mint *)
    unfold mint, super_mint in Hrun. ok_inv. simplify_eq.
    match goal with H : previewMint _ _ = Ok _ |- _ =>
      pose proof (_convertToAssets_nonneg _ _ _ _ Hwf (proj1 Hargs) H) end.
    match goal with H : _deposit _ _ _ _ _ = Ok _ |- _ =>
      apply _deposit_wf in H as [Hframe Hsame];
        [|apply wf_split, Hwf|assumption|apply Hargs] end.
    match goal with H : add _ _ = Ok _ |- _ =>
      apply add_Ok_inv in H as [-> Hfit] end.
    apply wf_split. split; [exact Hframe|]. simpl.
    rewrite Hsame. destruct Hwf as (_ & _ & [Hp0 _] & _).
    unfold uint256 in *. lia.
  - (* withdraw *)
    unfold withdraw, super_withdraw in Hrun. ok_inv. simplify_eq.
    match goal with H : reduceDeposits _ _ = Ok _ |- _ =>
      apply (reduceDeposits_wf _ _ _ Hwf (proj1 Hargs)) in H; rename H into Hwf1 end.
    match goal with H : previewWithdraw _ _ = Ok _ |- _ =>
      apply (_convertToShares_nonneg _ _ _ _ Hwf1 (proj1 Hargs)) in H end.
    match goal with H : _withdraw _ _ _ _ _ _ = Ok _ |- _ =>
      apply _withdraw_wf in H as [Hframe Hsame];
        [|apply wf_split, Hwf1|apply Hargs|assumption] end.
    apply wf_split. split; [exact Hframe|]. rewrite Hsame. apply Hwf1.
  - (* redeem *)
    unfold redeem, super_redeem in Hrun. ok_inv. simplify_eq.
    match goal with H : previewRedeem _ s = Ok _ |- _ =>
      pose proof (_convertToAssets_nonneg _ _ _ _ Hwf (proj1 Hargs) H) as Hworth end.
    match goal with H : reduceDeposits _ _ = Ok _ |- _ =>
      apply (reduceDeposits_wf _ _ _ Hwf Hworth) in H; rename H into Hwf1 end.
    match goal with H : previewRedeem _ _ = Ok word |- _ =>
      pose proof (_convertToAssets_nonneg _ _ _ _ Hwf1 (proj1 Hargs) H) end.
    match goal with H : _withdraw _ _ _ _ _ _ = Ok _ |- _ =>
      apply _withdraw_wf in H as [Hframe Hsame];
        [|apply wf_split, Hwf1|assumption|apply Hargs] end.
    apply wf_split. split; [exact Hframe|]. rewrite Hsame. apply Hwf1.
  - (* donateYield *)
    unfold donateYield in Hrun. ok_inv.
    destruct (totalAssets s <=? _totalUserDeposits (vault s)) eqn:Hnone.
    + now injection Hrun as _ <-.
    + ok_inv. injection Hrun as _ <-.
      apply Z.leb_gt in Hnone.
      match goal with H : sub _ _ = Ok _ |- _ =>
        apply sub_Ok_inv in H as [-> _] end.
      destruct Hwf as (W1 & W2 & W3 & W4 & W5 & W6).
      apply wf_intro; simpl; try assumption.
      eapply Token.transfer_wf; [exact W5| |eassumption]. lia.
  - (* totalUserDeposits *)
    unfold view in Hrun. ok_inv. now injection Hrun as _ <-.
  - (* getAccumulatedYield *)
    unfold view in Hrun. ok_inv. now injection Hrun as _ <-.
  - (* transferToStrategyManager *)
    unfold returns_nothing, transferToStrategyManager in Hrun. ok_inv.
    simplify_eq.
    destruct Hwf as (W1 & W2 & W3 & W4 & W5 & W6).
    apply wf_intro; simpl; try assumption.
    eapply Token.transfer_wf; [exact W5|apply Hargs|eassumption].
  - (* transfer *)
    unfold returns_bool, transfer in Hrun. ok_inv.
    simplify_eq.
    destruct Hwf as (W1 & W2 & W3 & W4 & W5 & W6).
    apply wf_intro; simpl; try assumption.
    eapply Token.transfer_wf; [exact W6|apply Hargs|eassumption].
  - (* approve *)
    unfold returns_bool, approve in Hrun. ok_inv.
    simplify_eq.
    destruct Hwf as (W1 & W2 & W3 & W4 & W5 & W6).
    apply wf_intro; simpl; try assumption.
    eapply Token.approve_wf; [exact W6|eassumption].
  - (* transferFrom *)
    unfold returns_bool, transferFrom in Hrun. ok_inv.
    simplify_eq.
    destruct Hwf as (W1 & W2 & W3 & W4 & W5 & W6).
    apply wf_intro; simpl; try assumption.
    eapply Token.transferFrom_wf; [exact W6|apply Hargs|eassumption].
  - (* transferOwnership *)
    unfold returns_nothing, transferOwnership in Hrun. ok_inv.
    simplify_eq.
    destruct Hwf as (W1 & W2 & W3 & W4 & W5 & W6).
    apply wf_intro; simpl; assumption.
  - (* renounceOwnership *)
    unfold returns_nothing, renounceOwnership in Hrun. ok_inv.
    simplify_eq.
    destruct Hwf as (W1 & W2 & W3 & W4 & W5 & W6).
    apply wf_intro; simpl; assumption.
Qed.

(** The release of the scenario leaves a well-formed state behind. *)
Lemma wf_exec_witness :
  exists s' : state,
    exec Scenario.next_day DonateYield Scenario.with_yield = Ok (10, s') /\ wf s'.
Proof.
  destruct (exec Scenario.next_day DonateYield Scenario.with_yield)
    as [[word s']|err] eqn:Hrun; [|vm_compute in Hrun; discriminate].
  assert (Hword : word = 10)
    by (vm_compute in Hrun; now injection Hrun as <- _).
  subst word. exists s'. split; [reflexivity|].
  apply (wf_exec Scenario.next_day DonateYield Scenario.with_yield s' 10).
  - apply wf_by_evaluation. vm_compute. reflexivity.
  - vm_compute. split; [discriminate|reflexivity].
  - exact I.
  - exact Hrun.
Defined.

(** Yield reaching the vault on the asset's ledger (here credited by a
    mint, as the tests do) keeps the state well formed too. *)
Lemma wf_yield (amount : Z) (s : state) (a : ERC20.t) :
  wf s -> 0 <= amount ->
  ERC20._mint (this (vault s)) amount (asset s) = Ok a ->
  wf (with_asset s a).
Proof.
  intros (W1 & W2 & W3 & W4 & W5 & W6) Hpos Hrun.
  apply wf_intro; simpl; try assumption.
  exact (Token._mint_wf _ _ _ _ W5 Hpos Hrun).
Qed.

(** *** The vault grants no allowance on its assets *)

Lemma _transfer_allowances (from to : address) (value : Z) (tok tok' : ERC20.t) :
  ERC20._transfer from to value tok = Ok tok' ->
  ERC20._allowances tok' = ERC20._allowances tok.
Proof.
  unfold ERC20._transfer, ERC20._update, revert_if.
  repeat (match goal with
          | |- context [if ?c then _ else _] => destruct c
          | |- context [add ?a ?b] => destruct (add a b)
          end; cbn [bind]; try discriminate);
    now intros [= <-].
Qed.

Lemma _spendAllowance_other (owner spender : address) (value : Z)
  (tok tok' : ERC20.t) (holder : address) (whom : address) :
  holder <> owner ->
  ERC20._spendAllowance owner spender value tok = Ok tok' ->
  ERC20.allowance tok' holder whom = ERC20.allowance tok holder whom.
Proof.
  intros Hother. unfold ERC20._spendAllowance, ERC20._approve, revert_if.
  destruct (_ =? MAX_UINT256); [now intros [= <-]|].
  destruct (_ <? value); cbn [bind]; [discriminate|].
  destruct (owner =? 0); cbn [bind]; [discriminate|].
  destruct (spender =? 0); cbn [bind]; [discriminate|].
  intros [= <-]. unfold ERC20.allowance, ERC20.set_allowance. simpl.
  now rewrite lookup_insert_ne by congruence.
Qed.

(** X3. No call made to the vault by another account changes what the vault
    allows anyone to take from its assets: the contract never calls
    [approve] on the asset. *)
Theorem exec_keeps_own_allowances
  (e : Env) (c : call) (s s' : state) (word : Z) (spender : address) :
  msg_sender e <> this (vault s) ->
  exec e c s = Ok (word, s') ->
  this (vault s') = this (vault s) /\
  ERC20.allowance (asset s') (this (vault s)) spender
  = ERC20.allowance (asset s) (this (vault s)) spender.
Proof.
  intros Hcaller Hrun.
  assert (Hput : forall caller receiver assets shares s0 s1,
    caller <> this (vault s0) ->
    _deposit caller receiver assets shares s0 = Ok s1 ->
    this (vault s1) = this (vault s0) /\
    ERC20.allowance (asset s1) (this (vault s0)) spender
    = ERC20.allowance (asset s0) (this (vault s0)) spender).
  { intros caller receiver assets shares s0 s1 Hne Hdep.
    unfold _deposit, ERC20.transferFrom in Hdep. ok_inv. simplify_eq. simpl.
    split; [reflexivity|].
    match goal with H : ERC20._transfer _ _ _ _ = Ok _ |- _ =>
      apply _transfer_allowances in H; rename H into Hsame end.
    unfold ERC20.allowance at 1. rewrite Hsame.
    eapply _spendAllowance_other; [|eassumption]. congruence. }
  assert (Hpay : forall caller receiver owner assets shares s0 s1,
    _withdraw caller receiver owner assets shares s0 = Ok s1 ->
    this (vault s1) = this (vault s0) /\
    ERC20.allowance (asset s1) (this (vault s0)) spender
    = ERC20.allowance (asset s0) (this (vault s0)) spender).
  { intros caller receiver owner assets shares s0 s1 Hwd.
    unfold _withdraw, ERC20.transfer in Hwd. ok_inv. simplify_eq. simpl.
    split; [reflexivity|].
    match goal with H : ERC20._transfer _ _ _ _ = Ok _ |- _ =>
      apply _transfer_allowances in H; rename H into Hsame end.
    unfold ERC20.allowance. now rewrite Hsame. }
  assert (Hreduce : forall assets s0 s1,
    reduceDeposits assets s0 = Ok s1 ->
    asset s1 = asset s0 /\ this (vault s1) = this (vault s0)).
  { intros assets s0 s1 Hred.
    apply reduceDeposits_Ok in Hred as (Ha & _ & (Hthis & _) & _). auto. }
  destruct c; simpl in Hrun.
  - unfold returns_nothing, setDonationAddress in Hrun. ok_inv. now simplify_eq.
  - unfold deposit, super_deposit in Hrun. ok_inv. simplify_eq. simpl.
    eapply Hput; eassumption.
  - unfold mint, super_mint in Hrun. ok_inv. simplify_eq. simpl.
    eapply Hput; eassumption.
  - apply withdraw_Ok in Hrun as (s1 & Hred & Hwd).
    apply Hreduce in Hred as [Ha Hthis]. apply Hpay in Hwd as [Hthis' Hsame].
    rewrite Hthis' , Hthis. split; [reflexivity|]. rewrite <- Ha, <- Hthis. exact Hsame.
  - apply redeem_Ok in Hrun as (s1 & _ & Hred & Hwd).
    apply Hreduce in Hred as [Ha Hthis]. apply Hpay in Hwd as [Hthis' Hsame].
    rewrite Hthis' , Hthis. split; [reflexivity|]. rewrite <- Ha, <- Hthis. exact Hsame.
  - unfold donateYield in Hrun. ok_inv.
    destruct (totalAssets s <=? _totalUserDeposits (vault s));
      [now simplify_eq|].
    unfold ERC20.transfer in Hrun. ok_inv. simplify_eq. simpl.
    split; [reflexivity|].
    match goal with H : ERC20._transfer _ _ _ _ = Ok _ |- _ =>
      apply _transfer_allowances in H; rename H into Hsame end.
    unfold ERC20.allowance. now rewrite Hsame.
  - unfold view in Hrun. ok_inv. now simplify_eq.
  - unfold view in Hrun. ok_inv. now simplify_eq.
  - unfold returns_nothing, transferToStrategyManager, ERC20.transfer in Hrun.
    ok_inv. simplify_eq. simpl. split; [reflexivity|].
    match goal with H : ERC20._transfer _ _ _ _ = Ok _ |- _ =>
      apply _transfer_allowances in H; rename H into Hsame end.
    unfold ERC20.allowance. now rewrite Hsame.
  - unfold returns_bool, transfer in Hrun. ok_inv. now simplify_eq.
  - unfold returns_bool, approve in Hrun. ok_inv. now simplify_eq.
  - unfold returns_bool, transferFrom in Hrun. ok_inv. now simplify_eq.
  - unfold returns_nothing, transferOwnership in Hrun. ok_inv. now simplify_eq.
  - unfold returns_nothing, renounceOwnership in Hrun. ok_inv. now simplify_eq.
Qed.

(** After the release of the scenario the manager is still allowed
    nothing. *)
Lemma exec_keeps_own_allowances_witness :
  exists s' : state,
    exec Scenario.next_day DonateYield Scenario.with_yield = Ok (10, s') /\
    ERC20.allowance (asset s') Scenario.vault_address Scenario.manager_address = 0.
Proof.
  destruct (exec Scenario.next_day DonateYield Scenario.with_yield)
    as [[word s']|err] eqn:Hrun; [|vm_compute in Hrun; discriminate].
  assert (Hword : word = 10)
    by (vm_compute in Hrun; now injection Hrun as <- _).
  subst word. exists s'. split; [reflexivity|].
  destruct (exec_keeps_own_allowances Scenario.next_day DonateYield
              Scenario.with_yield s' 10 Scenario.manager_address) as [_ Hsame].
  - vm_compute. discriminate.
  - exact Hrun.
  - exact Hsame.
Defined.

(** *** Deposits *)

Lemma _mint_Ok (account : address) (value : Z) (tok tok' : ERC20.t) :
  ERC20.wf tok -> 0 <= value ->
  ERC20._mint account value tok = Ok tok' ->
  account <> 0 /\
  (forall a : address,
     ERC20.balanceOf tok' a =
     if decide (a = account) then ERC20.balanceOf tok a + value
     else ERC20.balanceOf tok a) /\
  ERC20._totalSupply tok' = ERC20._totalSupply tok + value /\
  ERC20._allowances tok' = ERC20._allowances tok.
Proof.
  intros Hwf Hval Hrun. unfold ERC20._mint, ERC20._update in Hrun.
  apply bind_Ok in Hrun as (u & Hacc & Hrun). apply revert_if_Ok in Hacc.
  apply Z.eqb_neq in Hacc. rewrite Z.eqb_refl in Hrun.
  apply bind_Ok in Hrun as (tok1 & Hsupply & Hrun).
  apply bind_Ok in Hsupply as (supply & Hadd & Hset).
  apply add_Ok_inv in Hadd as [-> Hfit]. injection Hset as <-.
  destruct (account =? 0) eqn:Hz; [apply Z.eqb_eq in Hz; contradiction|].
  injection Hrun as <-.
  pose proof (Token.balanceOf_nonneg tok Hwf account) as Hlo.
  pose proof (Token.balanceOf_le_supply tok Hwf account) as Hhi.
  rewrite Token.balanceOf_set_totalSupply.
  rewrite Token.wrap_uint256 by (split; lia).
  split; [exact Hacc|]. split; [|split; reflexivity].
  intros a. rewrite Token.balanceOf_set_balance, Token.balanceOf_set_totalSupply.
  repeat case_decide; subst; congruence.
Qed.

(** [_deposit] by a caller other than the vault: the assets reach the
    vault and the shares reach the receiver. *)
Lemma _deposit_moves (caller receiver : address) (assets shares : Z) (s s' : state) :
  wf s -> 0 <= assets -> 0 <= shares -> caller <> this (vault s) ->
  _deposit caller receiver assets shares s = Ok s' ->
  totalAssets s' = totalAssets s + assets /\
  ERC20.balanceOf (asset s') caller = ERC20.balanceOf (asset s) caller - assets /\
  totalSupply s' = totalSupply s + shares /\
  ERC20.balanceOf (token (vault s')) receiver
    = ERC20.balanceOf (token (vault s)) receiver + shares /\
  vault s' = set_token (vault s) (token (vault s')).
Proof.
  intros (_ & _ & _ & _ & Hasset & Htoken) Ha Hs Hne Hrun.
  unfold _deposit in Hrun. ok_inv. simplify_eq.
  match goal with
  | H : ERC20.transferFrom _ _ _ _ _ = Ok _ |- _ =>
      apply Token.transferFrom_Ok in H as (_ & _ & _ & Hbal & _);
        [|exact Hasset|exact Ha]
  end.
  match goal with
  | H : ERC20._mint _ _ _ = Ok _ |- _ =>
      apply _mint_Ok in H as (_ & Hminted & Hsupply & _); [|exact Htoken|exact Hs]
  end.
  unfold totalAssets, totalSupply. simpl. rewrite !Hbal, Hminted, Hsupply.
  repeat split; repeat case_decide; congruence || lia.
Qed.

Lemma getAccumulatedYield_shift (s s' : state) (assets : Z) :
  totalAssets s' = totalAssets s + assets ->
  _totalUserDeposits (vault s') = _totalUserDeposits (vault s) + assets ->
  getAccumulatedYield s' = getAccumulatedYield s.
Proof.
  intros Ht Hp. unfold getAccumulatedYield, sub. rewrite Ht, Hp.
  destruct (totalAssets s <=? _totalUserDeposits (vault s)) eqn:Hle.
  - apply Z.leb_le in Hle.
    replace (totalAssets s + assets <=? _totalUserDeposits (vault s) + assets)
      with true by (symmetry; apply Z.leb_le; lia).
    reflexivity.
  - apply Z.leb_gt in Hle.
    replace (totalAssets s + assets <=? _totalUserDeposits (vault s) + assets)
      with false by (symmetry; apply Z.leb_gt; lia).
    replace (_totalUserDeposits (vault s) + assets <=? totalAssets s + assets)
      with true by (symmetry; apply Z.leb_le; lia).
    replace (_totalUserDeposits (vault s) <=? totalAssets s)
      with true by (symmetry; apply Z.leb_le; lia).
    f_equal. lia.
Qed.

Lemma mulDiv_Ok_inv (x y d q : Z) (rounding : Rounding) :
  mulDiv x y d rounding = Ok q ->
  d <> 0 /\
  q = match rounding with
      | Floor => x * y / d
      | Ceil => if 0 <? (x * y) mod d then x * y / d + 1 else x * y / d
      end.
Proof.
  unfold mulDiv. destruct (d =? 0) eqn:Hd; [discriminate|].
  apply Z.eqb_neq in Hd. destruct (_ <=? MAX_UINT256); [|discriminate].
  intros [= <-]. split; [exact Hd|reflexivity].
Qed.

Lemma _convertToShares_Ok (assets shares : Z) (rounding : Rounding) (s : state) :
  _convertToShares assets rounding s = Ok shares ->
  mulDiv assets (totalSupply s + 1) (totalAssets s + 1) rounding = Ok shares.
Proof.
  unfold _convertToShares. intros Hrun. ok_inv.
  repeat match goal with
         | H : add _ _ = Ok _ |- _ => apply add_Ok_inv in H as [-> _]
         end.
  exact Hrun.
Qed.

Lemma _convertToAssets_Ok (shares assets : Z) (rounding : Rounding) (s : state) :
  _convertToAssets shares rounding s = Ok assets ->
  mulDiv shares (totalAssets s + 1) (totalSupply s + 1) rounding = Ok assets.
Proof.
  unfold _convertToAssets. intros Hrun. ok_inv.
  repeat match goal with
         | H : add _ _ = Ok _ |- _ => apply add_Ok_inv in H as [-> _]
         end.
  exact Hrun.
Qed.

Lemma deposit_steps (e : Env) (assets : Z) (receiver : address) (s s' : state)
  (shares : Z) :
  deposit e assets receiver s = Ok (shares, s') ->
  exists s1 : state,
    previewDeposit assets s = Ok shares /\
    _deposit (msg_sender e) receiver assets shares s = Ok s1 /\
    _totalUserDeposits (vault s1) + assets <= MAX_UINT256 /\
    s' = with_vault s1 (set_totalUserDeposits (vault s1)
                          (_totalUserDeposits (vault s1) + assets)).
Proof.
  intros Hrun. unfold deposit, super_deposit in Hrun. ok_inv. simplify_eq.
  match goal with H : add _ _ = Ok _ |- _ => apply add_Ok_inv in H as [-> ?] end.
  eauto 10.
Qed.

Lemma mint_steps (e : Env) (shares : Z) (receiver : address) (s s' : state)
  (assets : Z) :
  mint e shares receiver s = Ok (assets, s') ->
  exists s1 : state,
    previewMint shares s = Ok assets /\
    _deposit (msg_sender e) receiver assets shares s = Ok s1 /\
    _totalUserDeposits (vault s1) + assets <= MAX_UINT256 /\
    s' = with_vault s1 (set_totalUserDeposits (vault s1)
                          (_totalUserDeposits (vault s1) + assets)).
Proof.
  intros Hrun. unfold mint, super_mint in Hrun. ok_inv. simplify_eq.
  match goal with H : add _ _ = Ok _ |- _ => apply add_Ok_inv in H as [-> ?] end.
  eauto 10.
Qed.

(** What a deposit of [assets] paid for with [shares] leaves behind. *)
Lemma deposit_books (caller receiver : address) (assets shares : Z) (s s1 : state) :
  wf s -> 0 <= assets -> 0 <= shares -> caller <> this (vault s) ->
  _deposit caller receiver assets shares s = Ok s1 ->
  let s' := with_vault s1 (set_totalUserDeposits (vault s1)
                             (_totalUserDeposits (vault s1) + assets)) in
  totalAssets s' = totalAssets s + assets /\
  _totalUserDeposits (vault s') = _totalUserDeposits (vault s) + assets /\
  totalSupply s' = totalSupply s + shares /\
  ERC20.balanceOf (token (vault s')) receiver
    = ERC20.balanceOf (token (vault s)) receiver + shares /\
  ERC20.balanceOf (asset s') caller = ERC20.balanceOf (asset s) caller - assets /\
  same_settings (vault s) (vault s').
Proof.
  intros Hwf Ha Hs Hne Hput.
  apply _deposit_moves in Hput as (Ht & Hb & Hsup & Hsh & Hv); try assumption.
  unfold totalAssets, totalSupply, same_settings in *. simpl.
  rewrite Hv in *. simpl in *. repeat split; assumption || reflexivity.
Qed.

(** X8. A [deposit] of [assets] by an account other than the vault mints
    [floor(assets * (totalSupply + 1) / (totalAssets + 1))] shares to the
    receiver, takes the assets from the caller, and raises the vault's
    total assets and the tracked principal by [assets] each: the yield
    read afterwards is the yield read before. *)
Theorem deposit_accounts (e : Env) (assets : Z) (receiver : address)
  (s s' : state) (shares : Z) :
  wf s -> 0 <= assets -> msg_sender e <> this (vault s) ->
  deposit e assets receiver s = Ok (shares, s') ->
  shares = assets * (totalSupply s + 1) / (totalAssets s + 1) /\
  totalAssets s' = totalAssets s + assets /\
  _totalUserDeposits (vault s') = _totalUserDeposits (vault s) + assets /\
  totalSupply s' = totalSupply s + shares /\
  ERC20.balanceOf (token (vault s')) receiver
    = ERC20.balanceOf (token (vault s)) receiver + shares /\
  ERC20.balanceOf (asset s') (msg_sender e)
    = ERC20.balanceOf (asset s) (msg_sender e) - assets /\
  getAccumulatedYield s' = getAccumulatedYield s /\
  same_settings (vault s) (vault s').
Proof.
  intros Hwf Ha Hne Hrun.
  apply deposit_steps in Hrun as (s1 & Hprev & Hput & _ & ->).
  pose proof (_convertToShares_nonneg _ _ _ _ Hwf Ha Hprev) as Hs.
  apply _convertToShares_Ok, mulDiv_Ok_inv in Hprev as [_ Hshares].
  destruct (deposit_books _ _ _ _ _ _ Hwf Ha Hs Hne Hput)
    as (Ht & Hp & Hsup & Hsh & Hb & Hsame).
  split; [exact Hshares|]. split; [exact Ht|]. split; [exact Hp|].
  split; [exact Hsup|]. split; [exact Hsh|]. split; [exact Hb|].
  split; [|exact Hsame].
  now apply (getAccumulatedYield_shift _ _ assets).
Qed.

(** The depositor of the scenario puts in the 100 they approved: 100
    shares at par. *)
Lemma deposit_accounts_witness :
  exists s' : state,
    (let* s0 := constructor Scenario.at_deploy Scenario.vault_address
                  Scenario.funded Scenario.recipient Scenario.deployer in
     deposit Scenario.as_user 100 Scenario.user s0) = Ok (100, s') /\
    totalAssets s' = 100 /\
    _totalUserDeposits (vault s') = 100 /\
    getAccumulatedYield s' = Ok 0.
Proof.
  destruct (constructor Scenario.at_deploy Scenario.vault_address
              Scenario.funded Scenario.recipient Scenario.deployer)
    as [s0|err] eqn:Hnew; [|vm_compute in Hnew; discriminate].
  cbn [bind].
  destruct (deposit Scenario.as_user 100 Scenario.user s0)
    as [[shares s']|err] eqn:Hrun;
    [|vm_compute in Hnew; injection Hnew as <-; vm_compute in Hrun; discriminate].
  assert (Hwf : wf s0).
  { vm_compute in Hnew. injection Hnew as <-.
    apply wf_by_evaluation. vm_compute. reflexivity. }
  assert (Hne : msg_sender Scenario.as_user <> this (vault s0)).
  { vm_compute in Hnew. injection Hnew as <-. vm_compute. discriminate. }
  destruct (deposit_accounts Scenario.as_user 100 Scenario.user s0 s' shares
              Hwf ltac:(lia) Hne Hrun)
    as (Hshares & Ht & Hp & _ & _ & _ & Hy & _).
  vm_compute in Hnew. injection Hnew as <-.
  assert (Hval : shares = 100) by (rewrite Hshares; vm_compute; reflexivity).
  subst shares. exists s'. split; [reflexivity|].
  split; [rewrite Ht; vm_compute; reflexivity|].
  split; [rewrite Hp; vm_compute; reflexivity|].
  rewrite Hy. vm_compute. reflexivity.
Defined.

(** X9. A [mint] of [shares] by an account other than the vault charges
    the caller [ceil(shares * (totalAssets + 1) / (totalSupply + 1))]
    assets, mints the shares to the receiver, and raises the vault's total
    assets and the tracked principal by the assets charged. *)
Theorem mint_accounts (e : Env) (shares : Z) (receiver : address)
  (s s' : state) (assets : Z) :
  wf s -> 0 <= shares -> msg_sender e <> this (vault s) ->
  mint e shares receiver s = Ok (assets, s') ->
  let product := shares * (totalAssets s + 1) in
  let supply := totalSupply s + 1 in
  assets = (if 0 <? product mod supply then product / supply + 1
            else product / supply) /\
  shares * (totalAssets s + 1) <= assets * (totalSupply s + 1) /\
  totalAssets s' = totalAssets s + assets /\
  _totalUserDeposits (vault s') = _totalUserDeposits (vault s) + assets /\
  totalSupply s' = totalSupply s + shares /\
  ERC20.balanceOf (token (vault s')) receiver
    = ERC20.balanceOf (token (vault s)) receiver + shares /\
  ERC20.balanceOf (asset s') (msg_sender e)
    = ERC20.balanceOf (asset s) (msg_sender e) - assets /\
  getAccumulatedYield s' = getAccumulatedYield s /\
  same_settings (vault s) (vault s').
Proof.
  intros Hwf Hs Hne Hrun product supply.
  apply mint_steps in Hrun as (s1 & Hprev & Hput & _ & ->).
  pose proof (_convertToAssets_nonneg _ _ _ _ Hwf Hs Hprev) as Ha.
  apply _convertToAssets_Ok, mulDiv_Ok_inv in Hprev as [Hd Hassets].
  destruct (deposit_books _ _ _ _ _ _ Hwf Ha Hs Hne Hput)
    as (Ht & Hp & Hsup & Hsh & Hb & Hsame).
  fold product supply in Hassets.
  split; [exact Hassets|]. split.
  { pose proof (totalSupply_nonneg s Hwf) as Hsupply.
    fold product. fold supply.
    pose proof (Z.div_mod product supply Hd) as Hdm.
    pose proof (Z.mod_pos_bound product supply ltac:(unfold supply; lia)) as Hmod.
    rewrite Hassets. destruct (0 <? product mod supply) eqn:Hrem.
    - nia.
    - apply Z.ltb_ge in Hrem. nia. }
  split; [exact Ht|]. split; [exact Hp|].
  split; [exact Hsup|]. split; [exact Hsh|]. split; [exact Hb|].
  split; [|exact Hsame].
  now apply (getAccumulatedYield_shift _ _ assets).
Qed.

(** The depositor of the scenario mints 50 shares at par: 50 assets. *)
Lemma mint_accounts_witness :
  exists s' : state,
    (let* s0 := constructor Scenario.at_deploy Scenario.vault_address
                  Scenario.funded Scenario.recipient Scenario.deployer in
     mint Scenario.as_user 50 Scenario.user s0) = Ok (50, s') /\
    totalAssets s' = 50 /\
    _totalUserDeposits (vault s') = 50.
Proof.
  destruct (constructor Scenario.at_deploy Scenario.vault_address
              Scenario.funded Scenario.recipient Scenario.deployer)
    as [s0|err] eqn:Hnew; [|vm_compute in Hnew; discriminate].
  cbn [bind].
  destruct (mint Scenario.as_user 50 Scenario.user s0)
    as [[assets s']|err] eqn:Hrun;
    [|vm_compute in Hnew; injection Hnew as <-; vm_compute in Hrun; discriminate].
  assert (Hwf : wf s0).
  { vm_compute in Hnew. injection Hnew as <-.
    apply wf_by_evaluation. vm_compute. reflexivity. }
  assert (Hne : msg_sender Scenario.as_user <> this (vault s0)).
  { vm_compute in Hnew. injection Hnew as <-. vm_compute. discriminate. }
  destruct (mint_accounts Scenario.as_user 50 Scenario.user s0 s' assets
              Hwf ltac:(lia) Hne Hrun)
    as (Hassets & _ & Ht & Hp & _).
  vm_compute in Hnew. injection Hnew as <-.
  assert (Hval : assets = 50) by (rewrite Hassets; vm_compute; reflexivity).
  subst assets. exists s'. split; [reflexivity|].
  split; [rewrite Ht; vm_compute; reflexivity|].
  rewrite Hp. vm_compute. reflexivity.
Defined.

(** *** The principal stays covered *)

Lemma principal_after_solvent (P TA a : Z) :
  0 <= P <= TA -> 0 <= a <= TA -> 0 < TA ->
  (if P * a / TA <=? P then P - P * a / TA else P) <= TA - a.
Proof.
  intros HP Ha HTA.
  assert (Hhi : P * a / TA <= P) by (apply Z.div_le_upper_bound; nia).
  assert (Hlo : a - (TA - P) <= P * a / TA).
  { apply Z.div_le_lower_bound; [lia|].
    assert (0 <= (TA - a) * (TA - P)) by (apply Z.mul_nonneg_nonneg; lia). nia. }
  apply Z.leb_le in Hhi as Hhi'. rewrite Hhi'. lia.
Qed.

Lemma leaves_assets_principal (e : Env) (c : call) (s s' : state) (word : Z) :
  leaves_assets c -> exec e c s = Ok (word, s') ->
  _totalUserDeposits (vault s') = _totalUserDeposits (vault s).
Proof.
  destruct c; simpl; try contradiction; intros _ Hrun;
    unfold returns_nothing, returns_bool, view, setDonationAddress,
      totalUserDeposits, transfer, approve, transferFrom, transferOwnership,
      renounceOwnership in Hrun;
    ok_inv; simplify_eq; reflexivity.
Qed.

Lemma paid_out_solvent (caller receiver owner : address) (assets shares : Z)
  (s s1 s' : state) :
  wf s -> 0 <= assets -> solvent s ->
  reduceDeposits assets s = Ok s1 ->
  _withdraw caller receiver owner assets shares s1 = Ok s' ->
  solvent s'.
Proof.
  intros Hwf Ha Hsolvent Hreduce Hout. unfold solvent in *.
  pose proof Hwf as (_ & _ & [Hp0 _] & _ & Hasset & _).
  destruct (paid_out _ _ _ _ _ _ _ _ Hasset Ha Hreduce Hout) as (Hle & Ht & Hp).
  rewrite Hp, Ht.
  destruct (0 <? totalAssets s) eqn:Hpos.
  - apply Z.ltb_lt in Hpos.
    pose proof (principal_after_solvent (_totalUserDeposits (vault s))
                  (totalAssets s) assets ltac:(lia) ltac:(lia) Hpos) as Hkept.
    unfold principal_after, proportionalPrincipal.
    case_decide; lia.
  - apply Z.ltb_ge in Hpos. case_decide; lia.
Qed.

(** X10. The tracked principal stays covered: on a state where it is at most
    the vault's total assets, every call by another account that goes
    through leaves it at most the total assets, except the owner's
    [transferToStrategyManager], which takes assets out and leaves the
    principal as it was. *)
Theorem solvent_kept (e : Env) (c : call) (s s' : state) (word : Z) :
  wf s -> call_ok c -> msg_sender e <> this (vault s) ->
  solvent s ->
  exec e c s = Ok (word, s') ->
  match c with
  | TransferToStrategyManager _ =>
      _totalUserDeposits (vault s') = _totalUserDeposits (vault s)
  | _ => solvent s'
  end.
Proof.
  intros Hwf Hc Hne Hsolvent Hrun.
  assert (Hleaves : leaves_assets c -> solvent s').
  { intros Hl. unfold solvent.
    rewrite (leaves_assets_Ok _ _ _ _ _ Hl Hrun),
      (leaves_assets_principal _ _ _ _ _ Hl Hrun).
    exact Hsolvent. }
  destruct c as [a|assets receiver|shares receiver|assets receiver owner
                |shares receiver owner| | | |amount|to value|spender value
                |from to value|newOwner| ];
    try (apply Hleaves; exact I); simpl in Hrun, Hc.
  - (* deposit *)
    destruct Hc as [Ha _].
    apply deposit_steps in Hrun as (s1 & Hprev & Hput & _ & ->).
    pose proof (_convertToShares_nonneg _ _ _ _ Hwf Ha Hprev) as Hs.
    destruct (deposit_books _ _ _ _ _ _ Hwf Ha Hs Hne Hput) as (Ht & Hp & _).
    unfold solvent in *. rewrite Ht, Hp. lia.
  - (* mint *)
    destruct Hc as [Hs _].
    apply mint_steps in Hrun as (s1 & Hprev & Hput & _ & ->).
    pose proof (_convertToAssets_nonneg _ _ _ _ Hwf Hs Hprev) as Ha.
    destruct (deposit_books _ _ _ _ _ _ Hwf Ha Hs Hne Hput) as (Ht & Hp & _).
    unfold solvent in *. rewrite Ht, Hp. lia.
  - (* withdraw *)
    destruct Hc as [Ha _].
    apply withdraw_Ok in Hrun as (s1 & Hreduce & Hout).
    exact (paid_out_solvent _ _ _ _ _ _ _ _ Hwf Ha Hsolvent Hreduce Hout).
  - (* redeem *)
    destruct Hc as [Hs _].
    apply redeem_Ok in Hrun as (s1 & Hprev & Hreduce & Hout).
    pose proof (_convertToAssets_nonneg _ _ _ _ Hwf Hs Hprev) as Ha.
    exact (paid_out_solvent _ _ _ _ _ _ _ _ Hwf Ha Hsolvent Hreduce Hout).
  - (* donateYield *)
    unfold donateYield in Hrun.
    apply bind_Ok in Hrun as (earliest & _ & Hrun).
    apply bind_Ok in Hrun as (u & _ & Hrun).
    destruct (totalAssets s <=? _totalUserDeposits (vault s)) eqn:Hyield.
    + injection Hrun as _ <-. exact Hsolvent.
    + apply Z.leb_gt in Hyield. ok_inv. simplify_eq.
      match goal with H : sub _ _ = Ok _ |- _ => apply sub_Ok_inv in H as [-> _] end.
      pose proof Hwf as (_ & _ & _ & _ & Hasset & _).
      match goal with
      | H : ERC20.transfer _ _ _ _ = Ok _ |- _ =>
          apply Token.transfer_Ok in H as (_ & _ & _ & (Hbal & _));
            [|exact Hasset|lia]
      end.
      unfold solvent, totalAssets in *. simpl. rewrite Hbal.
      repeat case_decide; try congruence; lia.
  - (* transferToStrategyManager *)
    unfold returns_nothing, transferToStrategyManager in Hrun.
    ok_inv. simplify_eq. reflexivity.
Qed.

(** The depositor withdraws 50 of the 110: the principal of 55 left is
    covered by the 60 the vault still holds. *)
Lemma solvent_kept_witness :
  exists (shares : Z) (s' : state),
    exec Scenario.next_day (Withdraw 50 Scenario.user Scenario.user)
      Scenario.with_yield = Ok (shares, s') /\
    solvent s'.
Proof.
  destruct (exec Scenario.next_day (Withdraw 50 Scenario.user Scenario.user)
              Scenario.with_yield) as [[shares s']|err] eqn:Hrun;
    [|vm_compute in Hrun; discriminate].
  exists shares, s'. split; [reflexivity|].
  apply (solvent_kept Scenario.next_day (Withdraw 50 Scenario.user Scenario.user)
           Scenario.with_yield s' shares).
  - apply wf_by_evaluation. vm_compute. reflexivity.
  - vm_compute. split; discriminate.
  - vm_compute. discriminate.
  - vm_compute. discriminate.
  - exact Hrun.
Defined.

(** *** Round trips *)

Lemma withdraw_shares (e : Env) (assets : Z) (receiver owner : address)
  (s s' : state) (shares : Z) :
  withdraw e assets receiver owner s = Ok (shares, s') ->
  mulDiv assets (totalSupply s + 1) (totalAssets s + 1) Ceil = Ok shares.
Proof.
  intros Hrun. unfold withdraw in Hrun.
  apply bind_Ok in Hrun as (s1 & Hreduce & Hrun).
  apply reduceDeposits_Ok in Hreduce as (Hasset & Htoken & (Hthis & _) & _).
  unfold super_withdraw in Hrun. ok_inv. simplify_eq.
  match goal with
  | H : previewWithdraw _ _ = Ok _ |- _ => apply _convertToShares_Ok in H
  end.
  unfold totalSupply, totalAssets in *. now rewrite Hasset, Htoken, Hthis in *.
Qed.

Lemma floor_le (x y d : Z) : 0 < d -> d * (x * y / d) <= x * y.
Proof. intros Hd. apply Z.mul_div_le. exact Hd. Qed.

Lemma ceil_ge (x y d : Z) :
  0 < d ->
  x * y <= d * (if 0 <? (x * y) mod d then x * y / d + 1 else x * y / d).
Proof.
  intros Hd.
  pose proof (Z.div_mod (x * y) d ltac:(lia)) as Hdm.
  pose proof (Z.mod_pos_bound (x * y) d Hd) as Hmod.
  destruct (0 <? (x * y) mod d) eqn:Hrem.
  - nia.
  - apply Z.ltb_ge in Hrem. nia.
Qed.

(** X11. No profit from a round trip: the shares minted by a deposit of
    [assets], redeemed at once, pay at most [assets]; and withdrawing the
    [assets] at once burns at least the shares minted. *)
Theorem round_trip_no_profit (e : Env) (assets : Z) (receiver : address)
  (s s1 : state) (shares : Z) :
  wf s -> 0 <= assets -> msg_sender e <> this (vault s) ->
  deposit e assets receiver s = Ok (shares, s1) ->
  (forall (e' : Env) (receiver' owner : address) (paid : Z) (s2 : state),
     redeem e' shares receiver' owner s1 = Ok (paid, s2) -> paid <= assets) /\
  (forall (e' : Env) (receiver' owner : address) (burnt : Z) (s2 : state),
     withdraw e' assets receiver' owner s1 = Ok (burnt, s2) -> shares <= burnt).
Proof.
  intros Hwf Ha Hne Hrun.
  pose proof (totalSupply_nonneg s Hwf) as Hsupply.
  pose proof (totalAssets_nonneg s Hwf) as Htotal.
  apply deposit_steps in Hrun as (s0 & Hprev & Hput & _ & ->).
  pose proof (_convertToShares_nonneg _ _ _ _ Hwf Ha Hprev) as Hs.
  apply _convertToShares_Ok, mulDiv_Ok_inv in Hprev as [_ Hshares].
  destruct (deposit_books _ _ _ _ _ _ Hwf Ha Hs Hne Hput) as (Ht & _ & Hsup & _).
  pose proof (floor_le assets (totalSupply s + 1) (totalAssets s + 1) ltac:(lia))
    as Hfloor.
  rewrite <- Hshares in Hfloor.
  split.
  - intros e' receiver' owner paid s2 Hout.
    apply redeem_Ok in Hout as (_ & Hpaid & _).
    apply _convertToAssets_Ok, mulDiv_Ok_inv in Hpaid as [_ ->].
    rewrite Ht, Hsup. apply Z.div_le_upper_bound; [lia|]. nia.
  - intros e' receiver' owner burnt s2 Hout.
    apply withdraw_shares, mulDiv_Ok_inv in Hout as [_ Hburnt].
    rewrite Ht, Hsup in Hburnt.
    pose proof (ceil_ge assets (totalSupply s + shares + 1)
                  (totalAssets s + assets + 1) ltac:(lia)) as Hceil.
    rewrite <- Hburnt in Hceil.
    destruct (Z_le_gt_dec shares burnt) as [Hle|Hgt]; [exact Hle|].
    exfalso. nia.
Qed.

(** The depositor puts 110 into the vault holding yield and redeems the
    100 shares minted. *)
Lemma round_trip_no_profit_witness :
  exists (s1 s2 : state) (paid : Z),
    deposit Scenario.as_user 110 Scenario.user Scenario.with_yield_approved
      = Ok (100, s1) /\
    redeem Scenario.as_user 100 Scenario.user Scenario.user s1 = Ok (paid, s2) /\
    paid <= 110.
Proof.
  destruct (deposit Scenario.as_user 110 Scenario.user Scenario.with_yield_approved)
    as [[shares s1]|err] eqn:Hin; [|vm_compute in Hin; discriminate].
  assert (Hshares : shares = 100) by (vm_compute in Hin; now injection Hin as <- _).
  subst shares.
  destruct (redeem Scenario.as_user 100 Scenario.user Scenario.user s1)
    as [[paid s2]|err] eqn:Hout;
    [|vm_compute in Hin; injection Hin as <-; vm_compute in Hout; discriminate].
  exists s1, s2, paid. split; [reflexivity|]. split; [exact Hout|].
  assert (Hwf : wf Scenario.with_yield_approved)
    by (apply wf_by_evaluation; vm_compute; reflexivity).
  assert (Hne : msg_sender Scenario.as_user <> this (vault Scenario.with_yield_approved))
    by (vm_compute; discriminate).
  destruct (round_trip_no_profit Scenario.as_user 110 Scenario.user
              Scenario.with_yield_approved s1 100 Hwf ltac:(lia) Hne Hin)
    as [Hredeem _].
  exact (Hredeem _ _ _ _ _ Hout).
Defined.

(** X12. A deposit of [assets > 0] by an account other than the vault,
    followed at once by a withdrawal of the same [assets], leaves the
    tracked principal at
    [P + assets - floor((P + assets) * assets / (totalAssets + assets))],
    [P] and [totalAssets] being the figures before the deposit.  The total
    assets are restored when the withdrawal is paid to an account other
    than the vault; paid to the vault itself, the assets stay in it.
    When the principal was covered ([P <= totalAssets]) the new principal
    lies between [P] and [totalAssets]: above [P] when the vault held
    yield, equal to [P] when it held none, and the yield read afterwards
    is [totalAssets] minus the new principal.  When the principal was not
    covered the new principal lies between [totalAssets] and [P]. *)
Theorem round_trip_principal (e e' : Env) (assets : Z)
  (receiver receiver' owner : address) (s s1 s2 : state) (shares burnt : Z) :
  wf s -> 0 < assets ->
  msg_sender e <> this (vault s) ->
  deposit e assets receiver s = Ok (shares, s1) ->
  withdraw e' assets receiver' owner s1 = Ok (burnt, s2) ->
  let P := _totalUserDeposits (vault s) in
  let P2 := _totalUserDeposits (vault s2) in
  P2 = P + assets - (P + assets) * assets / (totalAssets s + assets) /\
  totalAssets s2 =
    (if decide (receiver' = this (vault s)) then totalAssets s + assets
     else totalAssets s) /\
  (P <= totalAssets s -> P <= P2 <= totalAssets s) /\
  (P < totalAssets s -> P < P2) /\
  (P = totalAssets s -> P2 = P) /\
  (totalAssets s <= P -> totalAssets s <= P2 <= P) /\
  (P <= totalAssets s -> receiver' <> this (vault s) ->
   getAccumulatedYield s2 = Ok (totalAssets s - P2)).
Proof.
  intros Hwf Ha Hne Hin Hout P P2.
  pose proof (totalAssets_nonneg s Hwf) as Htotal.
  pose proof Hwf as (_ & _ & [Hp0 _] & _).
  assert (Ha0 : 0 <= assets) by lia.
  apply deposit_steps in Hin as (s0 & Hprev & Hput & _ & ->).
  pose proof (_convertToShares_nonneg _ _ _ _ Hwf Ha0 Hprev) as Hs.
  assert (Hasset1 : ERC20.wf (asset s0)).
  { apply wf_split in Hwf as [Hframe _].
    destruct (_deposit_wf _ _ _ _ _ _ Hframe Ha0 Hs Hput)
      as ((_ & _ & _ & Hasset & _) & _).
    exact Hasset. }
  destruct (deposit_books _ _ _ _ _ _ Hwf Ha0 Hs Hne Hput)
    as (Ht & Hp & _ & _ & _ & (Hthis & _)).
  set (s1 := with_vault s0 _) in *.
  apply withdraw_Ok in Hout as (s1' & Hreduce & Hpay).
  destruct (paid_out _ _ _ _ _ s1 _ _ Hasset1 Ha0 Hreduce Hpay)
    as (_ & Ht2 & Hp2).
  rewrite Hthis in Ht2.
  replace (0 <? totalAssets s1) with true in Hp2
    by (symmetry; apply Z.ltb_lt; lia).
  unfold principal_after, proportionalPrincipal in Hp2. rewrite Ht, Hp in Hp2.
  fold P in Hp2, Hp0 |- *.
  set (q := (P + assets) * assets / (totalAssets s + assets)) in *.
  assert (Hq : q <= P + assets).
  { unfold q. apply Z.div_le_upper_bound; [lia|]. nia. }
  replace (q <=? P + assets) with true in Hp2 by (symmetry; apply Z.leb_le; lia).
  fold P2 in Hp2.
  assert (Hcovered : P <= totalAssets s -> q <= assets /\ P + assets - q <= totalAssets s).
  { intros Hsolvent. split.
    - unfold q. apply Z.div_le_upper_bound; [lia|]. nia.
    - pose proof (principal_after_solvent (P + assets) (totalAssets s + assets) assets
                    ltac:(lia) ltac:(lia) ltac:(lia)) as Hkept.
      fold q in Hkept.
      replace (q <=? P + assets) with true in Hkept
        by (symmetry; apply Z.leb_le; lia).
      lia. }
  assert (Hyielding : P < totalAssets s -> q < assets).
  { intros Hlt. unfold q. apply Z.div_lt_upper_bound; [lia|]. nia. }
  assert (Hshort : totalAssets s <= P -> assets <= q /\ totalAssets s <= P + assets - q).
  { intros Hge. split.
    - unfold q. apply Z.div_le_lower_bound; [lia|]. nia.
    - assert (Hup : q * (totalAssets s + assets) <= (P + assets) * assets).
      { unfold q. rewrite Z.mul_comm. apply Z.mul_div_le. lia. }
      assert (0 <= (P - totalAssets s) * totalAssets s)
        by (apply Z.mul_nonneg_nonneg; lia).
      nia. }
  split; [exact Hp2|]. split.
  { rewrite Ht2, Ht. destruct (decide (receiver' = this (vault s))); lia. }
  split; [intros Hc; specialize (Hcovered Hc); lia|].
  split; [intros Hc; specialize (Hyielding Hc); lia|].
  split; [intros Hc; specialize (Hcovered ltac:(lia)); specialize (Hshort ltac:(lia)); lia|].
  split; [intros Hc; specialize (Hshort Hc); lia|].
  intros Hc Hne'. specialize (Hcovered Hc).
  unfold getAccumulatedYield. fold P2. rewrite Ht2, Ht.
  rewrite decide_False by exact Hne'.
  replace (totalAssets s + assets - assets) with (totalAssets s) by lia.
  destruct (totalAssets s <=? P2) eqn:Hcmp.
  - apply Z.leb_le in Hcmp. f_equal. lia.
  - apply Z.leb_gt in Hcmp. unfold sub.
    replace (P2 <=? totalAssets s) with true by (symmetry; apply Z.leb_le; lia).
    reflexivity.
Qed.

(** The vault holds 110 against a principal of 100.  The depositor puts
    in 110 and takes 110 out again: the vault holds 110 as before, the
    principal is 105 and the yield read is 5 where it was 10.  After the
    owner has taken 50 units out, 60 are held against the principal of
    100: a round trip of 60 leaves the principal at 80. *)
Lemma round_trip_principal_witness :
  getAccumulatedYield Scenario.with_yield_approved = Ok 10 /\
  (exists (s1 s2 : state) (burnt : Z),
     deposit Scenario.as_user 110 Scenario.user Scenario.with_yield_approved
       = Ok (100, s1) /\
     withdraw Scenario.as_user 110 Scenario.user Scenario.user s1 = Ok (burnt, s2) /\
     totalAssets s2 = 110 /\
     _totalUserDeposits (vault s2) = 105 /\
     getAccumulatedYield s2 = Ok 5) /\
  transferToStrategyManager Scenario.owner_next_day 50 Scenario.with_yield_approved
  = Ok Scenario.uncovered /\
  exists (s1 s2 : state) (burnt : Z),
    deposit Scenario.as_user 60 Scenario.user Scenario.uncovered = Ok (99, s1) /\
    withdraw Scenario.as_user 60 Scenario.user Scenario.user s1 = Ok (burnt, s2) /\
    totalAssets s2 = 60 /\
    _totalUserDeposits (vault s2) = 80.
Proof.
  split; [vm_compute; reflexivity|]. split; [|split; [vm_compute; reflexivity|]].
  - destruct (deposit Scenario.as_user 110 Scenario.user Scenario.with_yield_approved)
      as [[shares s1]|err] eqn:Hin; [|vm_compute in Hin; discriminate].
    assert (Hshares : shares = 100) by (vm_compute in Hin; now injection Hin as <- _).
    subst shares.
    destruct (withdraw Scenario.as_user 110 Scenario.user Scenario.user s1)
      as [[burnt s2]|err] eqn:Hout;
      [|vm_compute in Hin; injection Hin as <-; vm_compute in Hout; discriminate].
    exists s1, s2, burnt. split; [reflexivity|]. split; [exact Hout|].
    assert (Hwf : wf Scenario.with_yield_approved)
      by (apply wf_by_evaluation; vm_compute; reflexivity).
    assert (Hne : msg_sender Scenario.as_user
                  <> this (vault Scenario.with_yield_approved))
      by (vm_compute; discriminate).
    destruct (round_trip_principal Scenario.as_user Scenario.as_user 110
                Scenario.user Scenario.user Scenario.user
                Scenario.with_yield_approved s1 s2 100 burnt
                Hwf ltac:(lia) Hne Hin Hout)
      as (Hp & Ht & _ & _ & _ & _ & Hy).
    assert (Hval : _totalUserDeposits (vault s2) = 105)
      by (rewrite Hp; vm_compute; reflexivity).
    split; [rewrite Ht; vm_compute; reflexivity|]. split; [exact Hval|].
    rewrite Hy, ?Hval; [vm_compute; reflexivity|vm_compute; discriminate
                       |vm_compute; discriminate].
  - destruct (deposit Scenario.as_user 60 Scenario.user Scenario.uncovered)
      as [[shares s1]|err] eqn:Hin; [|vm_compute in Hin; discriminate].
    assert (Hshares : shares = 99) by (vm_compute in Hin; now injection Hin as <- _).
    subst shares.
    destruct (withdraw Scenario.as_user 60 Scenario.user Scenario.user s1)
      as [[burnt s2]|err] eqn:Hout;
      [|vm_compute in Hin; injection Hin as <-; vm_compute in Hout; discriminate].
    exists s1, s2, burnt. split; [reflexivity|]. split; [exact Hout|].
    assert (Hwf : wf Scenario.uncovered)
      by (apply wf_by_evaluation; vm_compute; reflexivity).
    assert (Hne : msg_sender Scenario.as_user <> this (vault Scenario.uncovered))
      by (vm_compute; discriminate).
    destruct (round_trip_principal Scenario.as_user Scenario.as_user 60
                Scenario.user Scenario.user Scenario.user
                Scenario.uncovered s1 s2 99 burnt
                Hwf ltac:(lia) Hne Hin Hout)
      as (Hp & Ht & _).
    split; [rewrite Ht; vm_compute; reflexivity|].
    rewrite Hp. vm_compute. reflexivity.
Defined.

(** *** Ownership *)

Lemma _deposit_settings (caller receiver : address) (assets shares : Z)
  (s s' : state) :
  _deposit caller receiver assets shares s = Ok s' ->
  same_settings (vault s) (vault s').
Proof.
  unfold _deposit. intros Hrun. ok_inv. simplify_eq. now unfold same_settings.
Qed.

Lemma _withdraw_settings (caller receiver owner : address) (assets shares : Z)
  (s s' : state) :
  _withdraw caller receiver owner assets shares s = Ok s' ->
  same_settings (vault s) (vault s').
Proof.
  unfold _withdraw. intros Hrun. ok_inv. simplify_eq. now unfold same_settings.
Qed.

Lemma same_settings_trans (v1 v2 v3 : t) :
  same_settings v1 v2 -> same_settings v2 v3 -> same_settings v1 v3.
Proof. unfold same_settings. intuition congruence. Qed.

Lemma onlyOwner_other (e : Env) (s : state) :
  msg_sender e <> _owner (vault s) -> onlyOwner e s = Err Unauthorized.
Proof.
  intros Hne. unfold onlyOwner, revert_if.
  destruct (_owner (vault s) =? msg_sender e) eqn:Heq; [|reflexivity].
  apply Z.eqb_eq in Heq. congruence.
Qed.

(** X13. What is the owner's alone: sent by any other account,
    [setDonationAddress], [transferToStrategyManager], [transferOwnership]
    and [renounceOwnership] fail with [OwnableUnauthorizedAccount], and no
    call by such an account changes the owner or the donation address. *)
Theorem owner_only (e : Env) (s : state) :
  msg_sender e <> _owner (vault s) ->
  (forall a : address, exec e (SetDonationAddress a) s = Err Unauthorized) /\
  (forall amount : Z, exec e (TransferToStrategyManager amount) s = Err Unauthorized) /\
  (forall newOwner : address, exec e (TransferOwnership newOwner) s = Err Unauthorized) /\
  exec e RenounceOwnership s = Err Unauthorized /\
  forall (c : call) (word : Z) (s' : state),
    exec e c s = Ok (word, s') ->
    _owner (vault s') = _owner (vault s) /\
    donationAddress (vault s') = donationAddress (vault s).
Proof.
  intros Hne. pose proof (onlyOwner_other e s Hne) as Honly.
  assert (Hset : forall a, exec e (SetDonationAddress a) s = Err Unauthorized).
  { intros a. simpl. unfold setDonationAddress. now rewrite Honly. }
  assert (Hpull : forall n, exec e (TransferToStrategyManager n) s = Err Unauthorized).
  { intros n. simpl. unfold transferToStrategyManager. now rewrite Honly. }
  assert (Hgive : forall o, exec e (TransferOwnership o) s = Err Unauthorized).
  { intros o. simpl. unfold transferOwnership. now rewrite Honly. }
  assert (Hdrop : exec e RenounceOwnership s = Err Unauthorized).
  { simpl. unfold renounceOwnership. now rewrite Honly. }
  split; [exact Hset|]. split; [exact Hpull|]. split; [exact Hgive|].
  split; [exact Hdrop|].
  intros c word s' Hrun.
  assert (Hsame : same_settings (vault s) (vault s') ->
                  _owner (vault s') = _owner (vault s) /\
                  donationAddress (vault s') = donationAddress (vault s))
    by (unfold same_settings; intuition).
  destruct c as [a|assets receiver|shares receiver|assets receiver owner
                |shares receiver owner| | | |amount|to value|spender value
                |from to value|newOwner| ].
  - rewrite Hset in Hrun. discriminate.
  - apply deposit_steps in Hrun as (s1 & _ & Hput & _ & ->).
    apply _deposit_settings in Hput. apply Hsame. exact Hput.
  - apply mint_steps in Hrun as (s1 & _ & Hput & _ & ->).
    apply _deposit_settings in Hput. apply Hsame. exact Hput.
  - apply withdraw_Ok in Hrun as (s1 & Hreduce & Hout).
    apply reduceDeposits_Ok in Hreduce as (_ & _ & Hs1 & _).
    apply _withdraw_settings in Hout. apply Hsame.
    exact (same_settings_trans _ _ _ Hs1 Hout).
  - apply redeem_Ok in Hrun as (s1 & _ & Hreduce & Hout).
    apply reduceDeposits_Ok in Hreduce as (_ & _ & Hs1 & _).
    apply _withdraw_settings in Hout. apply Hsame.
    exact (same_settings_trans _ _ _ Hs1 Hout).
  - simpl in Hrun. unfold donateYield in Hrun.
    apply bind_Ok in Hrun as (earliest & _ & Hrun).
    apply bind_Ok in Hrun as (u & _ & Hrun).
    destruct (totalAssets s <=? _totalUserDeposits (vault s)).
    + injection Hrun as _ <-. auto.
    + ok_inv. simplify_eq. auto.
  - simpl in Hrun. unfold view, totalUserDeposits in Hrun. ok_inv. simplify_eq. auto.
  - simpl in Hrun. unfold view in Hrun. ok_inv. simplify_eq. auto.
  - rewrite Hpull in Hrun. discriminate.
  - simpl in Hrun. unfold returns_bool, transfer in Hrun. ok_inv. simplify_eq. auto.
  - simpl in Hrun. unfold returns_bool, approve in Hrun. ok_inv. simplify_eq. auto.
  - simpl in Hrun. unfold returns_bool, transferFrom in Hrun. ok_inv. simplify_eq. auto.
  - rewrite Hgive in Hrun. discriminate.
  - rewrite Hdrop in Hrun. discriminate.
Qed.

(** The depositor is not the owner: naming a recipient is refused, and the
    release of the yield leaves owner and recipient as they were. *)
Lemma owner_only_witness :
  exec Scenario.next_day (SetDonationAddress Scenario.user) Scenario.with_yield
    = Err Unauthorized /\
  exists s' : state,
    exec Scenario.next_day DonateYield Scenario.with_yield = Ok (10, s') /\
    _owner (vault s') = Scenario.deployer /\
    donationAddress (vault s') = Scenario.recipient.
Proof.
  assert (Hne : msg_sender Scenario.next_day <> _owner (vault Scenario.with_yield))
    by (vm_compute; discriminate).
  destruct (owner_only Scenario.next_day Scenario.with_yield Hne)
    as (Hset & _ & _ & _ & Hkeeps).
  split; [apply Hset|].
  destruct (exec Scenario.next_day DonateYield Scenario.with_yield)
    as [[word s']|err] eqn:Hrun; [|vm_compute in Hrun; discriminate].
  assert (Hword : word = 10) by (vm_compute in Hrun; now injection Hrun as <- _).
  subst word. exists s'. split; [reflexivity|].
  destruct (Hkeeps _ _ _ Hrun) as [Ho Hd]. rewrite Ho, Hd. split; reflexivity.
Defined.

(** *** The constructor *)



(** *** The owner's withdrawal *)

(** X20. [transferToStrategyManager] pays the caller, who is the owner: a
    call that goes through moves [amount] of the asset from the vault to
    the owner's own balance and changes no other balance and nothing in
    the vault's storage, so an account that is not the owner (the
    strategy manager of the deployment script, say) receives nothing. *)
Theorem transferToStrategyManager_pays_owner (e : Env) (amount : Z)
  (s s' : state) (word : Z) :
  wf s -> 0 <= amount -> _owner (vault s) <> this (vault s) ->
  exec e (TransferToStrategyManager amount) s = Ok (word, s') ->
  msg_sender e = _owner (vault s) /\
  amount <= totalAssets s /\
  vault s' = vault s /\
  totalAssets s' = totalAssets s - amount /\
  ERC20.balanceOf (asset s') (_owner (vault s))
    = ERC20.balanceOf (asset s) (_owner (vault s)) + amount /\
  forall a : address,
    a <> _owner (vault s) -> a <> this (vault s) ->
    ERC20.balanceOf (asset s') a = ERC20.balanceOf (asset s) a.
Proof.
  intros Hwf Ha Hne Hrun. simpl in Hrun.
  unfold returns_nothing, transferToStrategyManager in Hrun. ok_inv. simplify_eq.
  match goal with
  | H : onlyOwner _ _ = Ok _ |- _ =>
      unfold onlyOwner in H; apply revert_if_Ok, negb_false_iff, Z.eqb_eq in H;
      rename H into Howner
  end.
  pose proof Hwf as (_ & _ & _ & _ & Hasset & _).
  match goal with
  | H : ERC20.transfer _ _ _ _ = Ok _ |- _ =>
      apply Token.transfer_Ok in H as (_ & _ & Hfunds & (Hbal & _));
        [|exact Hasset|exact Ha]
  end.
  rewrite <- Howner in *.
  split; [reflexivity|]. split; [exact Hfunds|]. split; [reflexivity|].
  unfold totalAssets. simpl. rewrite !Hbal.
  split; [repeat case_decide; congruence || lia|].
  split; [repeat case_decide; congruence || lia|].
  intros a Ha1 Ha2. rewrite Hbal. repeat case_decide; congruence.
Qed.

(** The owner of the scenario takes 40 of the 110: the 40 reach the
    owner's balance, and the manager's balance stays empty. *)
Lemma transferToStrategyManager_pays_owner_witness :
  exists s' : state,
    exec Scenario.owner_next_day (TransferToStrategyManager 40) Scenario.with_yield
      = Ok (0, s') /\
    ERC20.balanceOf (asset s') Scenario.deployer = 40 /\
    ERC20.balanceOf (asset s') Scenario.manager_address = 0.
Proof.
  destruct (exec Scenario.owner_next_day (TransferToStrategyManager 40)
              Scenario.with_yield) as [[word s']|err] eqn:Hrun;
    [|vm_compute in Hrun; discriminate].
  assert (Hword : word = 0) by (vm_compute in Hrun; now injection Hrun as <- _).
  subst word. exists s'. split; [reflexivity|].
  assert (Hwf : wf Scenario.with_yield)
    by (apply wf_by_evaluation; vm_compute; reflexivity).
  assert (Hne : _owner (vault Scenario.with_yield) <> this (vault Scenario.with_yield))
    by (vm_compute; discriminate).
  destruct (transferToStrategyManager_pays_owner Scenario.owner_next_day 40
              Scenario.with_yield s' 0 Hwf ltac:(lia) Hne Hrun)
    as (_ & _ & _ & _ & Howner & Hothers).
  split.
  - change Scenario.deployer with (_owner (vault Scenario.with_yield)).
    rewrite Howner. vm_compute. reflexivity.
  - rewrite Hothers; [vm_compute; reflexivity|vm_compute; discriminate
                     |vm_compute; discriminate].
Defined.

(** *** The value of a share *)

Lemma _burn_Ok (account : address) (value : Z) (tok tok' : ERC20.t) :
  ERC20.wf tok -> 0 <= value ->
  ERC20._burn account value tok = Ok tok' ->
  value <= ERC20.balanceOf tok account /\
  ERC20._totalSupply tok' = ERC20._totalSupply tok - value.
Proof.
  intros Hwf Hval Hrun. unfold ERC20._burn, ERC20._update in Hrun.
  apply bind_Ok in Hrun as (u & Hacc & Hrun). apply revert_if_Ok in Hacc.
  rewrite Hacc, Z.eqb_refl in Hrun.
  apply bind_Ok in Hrun as (tok1 & Hdebit & Hrun).
  apply bind_Ok in Hdebit as (u1 & Hfunds & Hdebit).
  apply revert_if_Ok, Z.ltb_ge in Hfunds.
  injection Hdebit as <-. injection Hrun as <-. simpl.
  pose proof (Token.balanceOf_le_supply tok Hwf account) as Hle.
  pose proof (Token.totalSupply_uint256 tok Hwf) as [_ Hmax].
  rewrite Token.wrap_uint256 by (split; lia).
  split; [exact Hfunds|reflexivity].
Qed.

Lemma _withdraw_supply (caller receiver owner : address) (assets shares : Z)
  (s s' : state) :
  ERC20.wf (token (vault s)) -> 0 <= shares ->
  _withdraw caller receiver owner assets shares s = Ok s' ->
  shares <= totalSupply s /\ totalSupply s' = totalSupply s - shares.
Proof.
  intros Hwf Hs Hrun. unfold _withdraw in Hrun.
  apply bind_Ok in Hrun as (tok1 & Hspend & Hrun).
  assert (Hsame : ERC20.wf tok1 /\
                  ERC20._totalSupply tok1 = ERC20._totalSupply (token (vault s))).
  { destruct (caller =? owner).
    - injection Hspend as <-. auto.
    - split; [exact (Token._spendAllowance_wf _ _ _ _ _ Hwf Hspend)|].
      now apply Token._spendAllowance_Ok in Hspend as [_ ?]. }
  destruct Hsame as [Hwf1 Hsupply].
  ok_inv. simplify_eq.
  match goal with
  | H : ERC20._burn _ _ _ = Ok _ |- _ =>
      apply _burn_Ok in H as [Hfunds Hburnt]; [|exact Hwf1|exact Hs]
  end.
  pose proof (Token.balanceOf_le_supply tok1 Hwf1 owner) as Hle.
  unfold totalSupply. simpl. rewrite Hburnt, <- Hsupply. lia.
Qed.

Lemma leaves_assets_supply (e : Env) (c : call) (s s' : state) (word : Z) :
  wf s -> call_ok c -> leaves_assets c -> exec e c s = Ok (word, s') ->
  totalSupply s' = totalSupply s.
Proof.
  intros (_ & _ & _ & _ & _ & Htoken) Hc.
  destruct c; simpl; try contradiction; intros _ Hrun;
    unfold returns_nothing, returns_bool, view, setDonationAddress,
      totalUserDeposits, transfer, approve, transferFrom, transferOwnership,
      renounceOwnership in Hrun;
    ok_inv; simplify_eq; try reflexivity; unfold totalSupply; simpl.
  - match goal with
    | H : ERC20.transfer _ _ _ _ = Ok _ |- _ =>
        apply Token.transfer_Ok in H as (_ & _ & _ & (_ & Hsupply & _));
          [exact Hsupply|exact Htoken|apply Hc]
    end.
  - match goal with
    | H : ERC20.approve _ _ _ _ = Ok _ |- _ =>
        unfold ERC20.approve, ERC20._approve in H; ok_inv; now simplify_eq
    end.
  - match goal with
    | H : ERC20.transferFrom _ _ _ _ _ = Ok _ |- _ =>
        apply Token.transferFrom_Ok in H as (_ & _ & _ & _ & Hsupply);
          [exact Hsupply|exact Htoken|apply Hc]
    end.
Qed.

(** Conversion at a ratio that has not gone down pays at least as much. *)
Lemma convert_mono (x T S T' S' : Z) :
  0 <= x -> 0 <= S -> 0 <= S' ->
  (T + 1) * (S' + 1) <= (T' + 1) * (S + 1) ->
  x * (T + 1) / (S + 1) <= x * (T' + 1) / (S' + 1).
Proof.
  intros Hx HS HS' Hratio.
  apply Z.div_le_lower_bound; [lia|].
  pose proof (floor_le x (T + 1) (S + 1) ltac:(lia)) as Hfloor.
  set (v := x * (T + 1) / (S + 1)) in *.
  apply (Z.mul_le_mono_pos_r _ _ (S + 1)); [lia|].
  transitivity (x * ((T + 1) * (S' + 1))); [nia|].
  transitivity (x * ((T' + 1) * (S + 1))); [|nia].
  now apply Z.mul_le_mono_nonneg_l.
Qed.

Lemma paid_out_price (caller receiver owner : address) (assets shares : Z)
  (s s1 s' : state) :
  wf s -> 0 <= assets -> 0 <= shares ->
  assets * (totalSupply s + 1) <= shares * (totalAssets s + 1) ->
  reduceDeposits assets s = Ok s1 ->
  _withdraw caller receiver owner assets shares s1 = Ok s' ->
  0 <= totalSupply s' /\ price_kept s s'.
Proof.
  intros Hwf Ha Hs Hrate Hreduce Hout.
  pose proof Hwf as (_ & _ & _ & _ & Hasset & Htoken).
  pose proof (totalAssets_nonneg s Hwf) as HT.
  pose proof (totalSupply_nonneg s Hwf) as HS.
  destruct (paid_out _ _ _ _ _ _ _ _ Hasset Ha Hreduce Hout) as (Hle & Ht & _).
  apply reduceDeposits_Ok in Hreduce as (_ & Htok & _).
  apply _withdraw_supply in Hout as [Hfunds Hsupply];
    [|now rewrite Htok|exact Hs].
  unfold totalSupply in Hfunds, Hsupply. rewrite Htok in Hfunds, Hsupply.
  fold (totalSupply s) in Hfunds, Hsupply. fold (totalSupply s') in Hsupply.
  unfold price_kept. rewrite Hsupply, Ht. split; [lia|].
  case_decide; nia.
Qed.

(** X21. The value of a share never goes down through deposits and
    withdrawals: after a successful [deposit], [mint], [withdraw], [redeem]
    or any call that moves no asset, made by an account other than the
    vault, every amount of shares converts to at least the assets it
    converted to before ([previewRedeem] does not decrease).  The two
    calls that can lower it are [donateYield] and
    [transferToStrategyManager], after which it is at most what it was. *)
Theorem share_price_kept (e : Env) (c : call) (s s' : state) (word : Z) :
  wf s -> call_ok c -> msg_sender e <> this (vault s) ->
  exec e c s = Ok (word, s') ->
  match c with
  | DonateYield | TransferToStrategyManager _ => price_kept s' s
  | _ =>
      price_kept s s' /\
      forall shares before after : Z,
        0 <= shares ->
        previewRedeem shares s = Ok before ->
        previewRedeem shares s' = Ok after ->
        before <= after
  end.
Proof.
  intros Hwf Hc Hne Hrun.
  pose proof (totalAssets_nonneg s Hwf) as HT.
  pose proof (totalSupply_nonneg s Hwf) as HS.
  pose proof Hwf as (_ & _ & _ & _ & Hasset & Htoken).
  assert (Hconv : 0 <= totalSupply s' -> price_kept s s' ->
                  price_kept s s' /\
                  forall shares before after : Z,
                    0 <= shares ->
                    previewRedeem shares s = Ok before ->
                    previewRedeem shares s' = Ok after ->
                    before <= after).
  { intros HS' Hkept. split; [exact Hkept|].
    intros shares before after Hshares Hb Ha.
    apply _convertToAssets_Ok, mulDiv_Ok_inv in Hb as [_ ->].
    apply _convertToAssets_Ok, mulDiv_Ok_inv in Ha as [_ ->].
    now apply convert_mono. }
  assert (Hleaves : leaves_assets c ->
                    0 <= totalSupply s' /\ price_kept s s').
  { intros Hl. unfold price_kept.
    rewrite (leaves_assets_Ok _ _ _ _ _ Hl Hrun),
      (leaves_assets_supply _ _ _ _ _ Hwf Hc Hl Hrun).
    split; lia. }
  destruct c as [a|assets receiver|shares receiver|assets receiver owner
                |shares receiver owner| | | |amount|to value|spender value
                |from to value|newOwner| ];
    try (destruct (Hleaves I) as [HS' Hkept]; exact (Hconv HS' Hkept));
    simpl in Hrun, Hc.
  - (* deposit *)
    destruct Hc as [Ha _].
    apply deposit_steps in Hrun as (s1 & Hprev & Hput & _ & ->).
    pose proof (_convertToShares_nonneg _ _ _ _ Hwf Ha Hprev) as Hs.
    apply _convertToShares_Ok, mulDiv_Ok_inv in Hprev as [_ Hshares].
    destruct (deposit_books _ _ _ _ _ _ Hwf Ha Hs Hne Hput) as (Ht & _ & Hsup & _).
    pose proof (floor_le assets (totalSupply s + 1) (totalAssets s + 1) ltac:(lia))
      as Hfloor.
    rewrite <- Hshares in Hfloor.
    apply Hconv; [lia|]. unfold price_kept. rewrite Ht, Hsup. nia.
  - (* mint *)
    destruct Hc as [Hs _].
    apply mint_steps in Hrun as (s1 & Hprev & Hput & _ & ->).
    pose proof (_convertToAssets_nonneg _ _ _ _ Hwf Hs Hprev) as Ha.
    apply _convertToAssets_Ok, mulDiv_Ok_inv in Hprev as [_ Hassets].
    destruct (deposit_books _ _ _ _ _ _ Hwf Ha Hs Hne Hput) as (Ht & _ & Hsup & _).
    pose proof (ceil_ge shares (totalAssets s + 1) (totalSupply s + 1) ltac:(lia))
      as Hceil.
    rewrite <- Hassets in Hceil.
    apply Hconv; [lia|]. unfold price_kept. rewrite Ht, Hsup. nia.
  - (* withdraw *)
    destruct Hc as [Ha _].
    pose proof (withdraw_shares _ _ _ _ _ _ _ Hrun) as Hburnt.
    assert (Hs : 0 <= word).
    { apply (mulDiv_nonneg assets (totalSupply s + 1) (totalAssets s + 1) word Ceil);
        [exact Ha|lia|lia|exact Hburnt]. }
    apply mulDiv_Ok_inv in Hburnt as [_ Hburnt].
    pose proof (ceil_ge assets (totalSupply s + 1) (totalAssets s + 1) ltac:(lia))
      as Hceil.
    rewrite <- Hburnt in Hceil.
    apply withdraw_Ok in Hrun as (s1 & Hreduce & Hout).
    assert (Hrate : assets * (totalSupply s + 1) <= word * (totalAssets s + 1)) by lia.
    destruct (paid_out_price _ _ _ _ _ _ _ _ Hwf Ha Hs Hrate Hreduce Hout)
      as [HS' Hkept].
    exact (Hconv HS' Hkept).
  - (* redeem *)
    destruct Hc as [Hs _].
    apply redeem_Ok in Hrun as (s1 & Hprev & Hreduce & Hout).
    pose proof (_convertToAssets_nonneg _ _ _ _ Hwf Hs Hprev) as Ha.
    apply _convertToAssets_Ok, mulDiv_Ok_inv in Hprev as [_ Hassets].
    pose proof (floor_le shares (totalAssets s + 1) (totalSupply s + 1) ltac:(lia))
      as Hfloor.
    rewrite <- Hassets in Hfloor.
    assert (Hrate : word * (totalSupply s + 1) <= shares * (totalAssets s + 1)) by lia.
    destruct (paid_out_price _ _ _ _ _ _ _ _ Hwf Ha Hs Hrate Hreduce Hout)
      as [HS' Hkept].
    exact (Hconv HS' Hkept).
  - (* donateYield *)
    unfold donateYield in Hrun.
    apply bind_Ok in Hrun as (earliest & _ & Hrun).
    apply bind_Ok in Hrun as (u & _ & Hrun).
    destruct (totalAssets s <=? _totalUserDeposits (vault s)) eqn:Hyield.
    + injection Hrun as _ <-. unfold price_kept. lia.
    + apply Z.leb_gt in Hyield. ok_inv. simplify_eq.
      match goal with H : sub _ _ = Ok _ |- _ => apply sub_Ok_inv in H as [-> _] end.
      match goal with
      | H : ERC20.transfer _ _ _ _ = Ok _ |- _ =>
          apply Token.transfer_Ok in H as (_ & _ & _ & (Hbal & _));
            [|exact Hasset|lia]
      end.
      unfold price_kept, totalAssets, totalSupply in *. simpl. rewrite Hbal.
      repeat case_decide; try congruence; nia.
  - (* transferToStrategyManager *)
    unfold returns_nothing, transferToStrategyManager in Hrun.
    ok_inv. simplify_eq.
    match goal with
    | H : ERC20.transfer _ _ _ _ = Ok _ |- _ =>
        apply Token.transfer_Ok in H as (_ & _ & _ & (Hbal & _));
          [|exact Hasset|apply Hc]
    end.
    destruct Hc as [Hamount _].
    unfold price_kept, totalAssets, totalSupply in *. simpl. rewrite Hbal.
    repeat case_decide; try congruence; nia.
Qed.

(** The depositor withdraws 50 of the 110: the shares left are worth no
    less each. *)
Lemma share_price_kept_witness :
  exists (burnt : Z) (s' : state),
    exec Scenario.next_day (Withdraw 50 Scenario.user Scenario.user)
      Scenario.with_yield = Ok (burnt, s') /\
    price_kept Scenario.with_yield s'.
Proof.
  destruct (exec Scenario.next_day (Withdraw 50 Scenario.user Scenario.user)
              Scenario.with_yield) as [[burnt s']|err] eqn:Hrun;
    [|vm_compute in Hrun; discriminate].
  exists burnt, s'. split; [reflexivity|].
  assert (Hwf : wf Scenario.with_yield)
    by (apply wf_by_evaluation; vm_compute; reflexivity).
  assert (Hc : call_ok (Withdraw 50 Scenario.user Scenario.user))
    by (vm_compute; split; discriminate).
  assert (Hne : msg_sender Scenario.next_day <> this (vault Scenario.with_yield))
    by (vm_compute; discriminate).
  exact (proj1 (share_price_kept Scenario.next_day
                  (Withdraw 50 Scenario.user Scenario.user)
                  Scenario.with_yield s' burnt Hwf Hc Hne Hrun)).
Defined.

(** *** Getting out *)

Lemma previewRedeem_eval (shares : Z) (s : state) :
  wf s -> 0 <= shares ->
  totalAssets s < MAX_UINT256 -> totalSupply s < MAX_UINT256 ->
  shares * (totalAssets s + 1) / (totalSupply s + 1) <= MAX_UINT256 ->
  previewRedeem shares s
  = Ok (shares * (totalAssets s + 1) / (totalSupply s + 1)).
Proof.
  intros Hwf Hs HT HS Hfit.
  pose proof (totalSupply_nonneg s Hwf) as HS0.
  unfold previewRedeem, _convertToAssets.
  rewrite add_Ok by lia. cbn [bind]. rewrite add_Ok by lia. cbn [bind].
  unfold mulDiv.
  replace (totalSupply s + 1 =? 0) with false by (symmetry; apply Z.eqb_neq; lia).
  apply Z.leb_le in Hfit. now rewrite Hfit.
Qed.

Lemma reduceDeposits_eval (assets : Z) (s : state) :
  wf s -> 0 <= assets ->
  _totalUserDeposits (vault s) * assets <= MAX_UINT256 ->
  exists s1 : state, reduceDeposits assets s = Ok s1.
Proof.
  intros Hwf Ha Hfit. unfold reduceDeposits.
  destruct (0 <? totalAssets s) eqn:Hpos; [|eauto].
  apply Z.ltb_lt in Hpos.
  unfold mul. apply Z.leb_le in Hfit. rewrite Hfit. cbn [bind].
  unfold div.
  replace (totalAssets s =? 0) with false by (symmetry; apply Z.eqb_neq; lia).
  cbn [bind].
  destruct (_ <=? _totalUserDeposits (vault s)) eqn:Hle; [|eauto].
  apply Z.leb_le in Hle. rewrite sub_Ok by exact Hle. cbn [bind]. eauto.
Qed.

Lemma reduceDeposits_overflow (assets : Z) (s : state) :
  0 < totalAssets s ->
  MAX_UINT256 < _totalUserDeposits (vault s) * assets ->
  reduceDeposits assets s = Err (Panic 17).
Proof.
  intros Hpos Hover. unfold reduceDeposits.
  apply Z.ltb_lt in Hpos. rewrite Hpos.
  unfold mul. apply Z.leb_gt in Hover. now rewrite Hover.
Qed.

Lemma _burn_succeeds (account : address) (value : Z) (tok : ERC20.t) :
  account <> 0 -> value <= ERC20.balanceOf tok account ->
  exists tok' : ERC20.t, ERC20._burn account value tok = Ok tok'.
Proof.
  intros Hacc Hfunds. unfold ERC20._burn, ERC20._update, revert_if.
  apply Z.eqb_neq in Hacc. rewrite Hacc. cbn [bind].
  apply Z.ltb_ge in Hfunds. rewrite Hfunds. cbn [bind].
  rewrite Z.eqb_refl. eauto.
Qed.

(** X25. A holder can always redeem their own shares, short of an
    arithmetic overflow.  On a well-formed state whose totals are below
    [2^256 - 1], [redeem] of up to the caller's own share balance to a
    non-zero receiver goes through and pays
    [floor(shares * (totalAssets + 1) / (totalSupply + 1))], provided the
    product of the tracked principal and the assets paid fits a
    [uint256]; when the vault holds assets and that product does not fit,
    the call reverts with the arithmetic panic. *)
Theorem redeem_succeeds (e : Env) (shares : Z) (receiver : address) (s : state) :
  wf s ->
  msg_sender e <> 0 -> receiver <> 0 ->
  0 <= shares <= ERC20.balanceOf (token (vault s)) (msg_sender e) ->
  totalAssets s < MAX_UINT256 -> totalSupply s < MAX_UINT256 ->
  let assets := shares * (totalAssets s + 1) / (totalSupply s + 1) in
  assets <= totalAssets s /\
  (_totalUserDeposits (vault s) * assets <= MAX_UINT256 ->
   exists s' : state, redeem e shares receiver (msg_sender e) s = Ok (assets, s')) /\
  (0 < totalAssets s -> MAX_UINT256 < _totalUserDeposits (vault s) * assets ->
   redeem e shares receiver (msg_sender e) s = Err (Panic 17)).
Proof.
  intros Hwf Hcaller Hreceiver Hshares HT HS assets.
  pose proof (totalSupply_nonneg s Hwf) as HS0.
  pose proof (totalAssets_nonneg s Hwf) as HT0.
  pose proof Hwf as (Hthis & _ & _ & _ & Hasset & Htoken).
  pose proof (Token.balanceOf_le_supply _ Htoken (msg_sender e)) as Hheld.
  fold (totalSupply s) in Hheld.
  assert (Hassets : 0 <= assets <= totalAssets s).
  { unfold assets. split.
    - apply Z.div_pos; [|lia]. apply Z.mul_nonneg_nonneg; lia.
    - apply Z.lt_succ_r. apply Z.div_lt_upper_bound; [lia|]. nia. }
  assert (Hpreview : previewRedeem shares s = Ok assets).
  { apply previewRedeem_eval; try assumption; [lia|]. fold assets. lia. }
  split; [apply Hassets|]. split.
  - intros Hfit. unfold redeem. rewrite Hpreview. cbn [bind].
    destruct (reduceDeposits_eval assets s Hwf ltac:(lia) Hfit) as [s1 Hreduce].
    rewrite Hreduce. cbn [bind].
    apply reduceDeposits_Ok in Hreduce as (Ha1 & Htok1 & (Hthis1 & _) & _).
    assert (Hpreview1 : previewRedeem shares s1 = Ok assets).
    { unfold previewRedeem, _convertToAssets, totalAssets, totalSupply in *.
      now rewrite Ha1, Htok1, Hthis1. }
    unfold super_redeem, maxRedeem. rewrite Htok1.
    replace (ERC20.balanceOf (token (vault s)) (msg_sender e) <? shares) with false
      by (symmetry; apply Z.ltb_ge; lia).
    cbn [revert_if bind]. rewrite Hpreview1. cbn [bind].
    unfold _withdraw. rewrite Z.eqb_refl. cbn [bind]. rewrite Htok1.
    destruct (_burn_succeeds (msg_sender e) shares (token (vault s)) Hcaller
                ltac:(lia)) as [tok2 Hburn].
    rewrite Hburn. cbn [bind]. rewrite Ha1, Hthis1.
    destruct (Token.transfer_succeeds (this (vault s)) receiver assets (asset s)
                Hthis Hreceiver ltac:(unfold totalAssets in Hassets; lia))
      as [a Hpay].
    rewrite Hpay. cbn [bind]. eauto.
  - intros Hpos Hover. unfold redeem. rewrite Hpreview. cbn [bind].
    now rewrite (reduceDeposits_overflow assets s Hpos Hover).
Qed.

(** The depositor of the scenario redeems their 100 shares from the vault
    holding 110: 109 are paid. *)
Lemma redeem_succeeds_witness :
  exists s' : state,
    redeem Scenario.next_day 100 Scenario.user Scenario.user Scenario.with_yield
    = Ok (109, s').
Proof.
  assert (Hwf : wf Scenario.with_yield)
    by (apply wf_by_evaluation; vm_compute; reflexivity).
  assert (Hcaller : msg_sender Scenario.next_day <> 0) by (vm_compute; discriminate).
  assert (Hreceiver : Scenario.user <> 0) by (vm_compute; discriminate).
  assert (Hshares : 0 <= 100 <= ERC20.balanceOf (token (vault Scenario.with_yield))
                                  (msg_sender Scenario.next_day))
    by (vm_compute; split; discriminate).
  assert (HT : totalAssets Scenario.with_yield < MAX_UINT256)
    by (vm_compute; reflexivity).
  assert (HS : totalSupply Scenario.with_yield < MAX_UINT256)
    by (vm_compute; reflexivity).
  destruct (redeem_succeeds Scenario.next_day 100 Scenario.user Scenario.with_yield
              Hwf Hcaller Hreceiver Hshares HT HS) as (_ & Hgoes & _).
  destruct Hgoes as [s' Hrun]; [vm_compute; discriminate|].
  exists s'. exact Hrun.
Defined.

(** *** Getting in *)

Lemma transferFrom_succeeds (sender from to : address) (value : Z) (tok : ERC20.t) :
  from <> 0 -> sender <> 0 -> to <> 0 ->
  value <= ERC20.balanceOf tok from ->
  value <= ERC20.allowance tok from sender ->
  exists tok' : ERC20.t, ERC20.transferFrom sender from to value tok = Ok (true, tok').
Proof.
  intros Hfrom Hsender Hto Hfunds Hallowed.
  unfold ERC20.transferFrom, ERC20._spendAllowance.
  assert (Hmove : forall tok1 : ERC20.t,
            ERC20._balances tok1 = ERC20._balances tok ->
            exists tok' : ERC20.t,
              (let* tok2 := ERC20._transfer from to value tok1 in Ok (true, tok2))
              = Ok (true, tok')).
  { intros tok1 Hbal.
    destruct (Token._transfer_succeeds from to value tok1 Hfrom Hto) as [tok2 Hrun].
    - unfold ERC20.balanceOf in *. now rewrite Hbal.
    - rewrite Hrun. cbn [bind]. eauto. }
  destruct (ERC20.allowance tok from sender =? MAX_UINT256).
  - cbn [bind]. apply Hmove. reflexivity.
  - unfold revert_if. apply Z.ltb_ge in Hallowed. rewrite Hallowed. cbn [bind].
    unfold ERC20._approve, revert_if.
    apply Z.eqb_neq in Hfrom as Hfrom', Hsender as Hsender'.
    rewrite Hfrom', Hsender'. cbn [bind]. apply Hmove. reflexivity.
Qed.

Lemma _mint_succeeds (account : address) (value : Z) (tok : ERC20.t) :
  account <> 0 -> ERC20._totalSupply tok + value <= MAX_UINT256 ->
  exists tok' : ERC20.t, ERC20._mint account value tok = Ok tok'.
Proof.
  intros Hacc Hfit. unfold ERC20._mint, ERC20._update, revert_if.
  apply Z.eqb_neq in Hacc. rewrite Hacc. cbn [bind].
  replace (0 =? 0) with true by reflexivity.
  rewrite add_Ok by exact Hfit. cbn [bind]. eauto.
Qed.

(** X26. A deposit goes through whenever the depositor has the funds and
    the allowance.  On a well-formed state whose totals are below
    [2^256 - 1], [deposit] of [assets] by a caller who holds at least
    [assets] of the asset and has approved the vault for at least that
    much, to a non-zero receiver, goes through and mints
    [floor(assets * (totalSupply + 1) / (totalAssets + 1))] shares,
    provided the share supply and the tracked principal stay within
    [uint256]. *)
Theorem deposit_succeeds (e : Env) (assets : Z) (receiver : address) (s : state) :
  wf s ->
  msg_sender e <> 0 -> receiver <> 0 ->
  0 <= assets <= ERC20.balanceOf (asset s) (msg_sender e) ->
  assets <= ERC20.allowance (asset s) (msg_sender e) (this (vault s)) ->
  totalAssets s < MAX_UINT256 -> totalSupply s < MAX_UINT256 ->
  let shares := assets * (totalSupply s + 1) / (totalAssets s + 1) in
  totalSupply s + shares <= MAX_UINT256 ->
  _totalUserDeposits (vault s) + assets <= MAX_UINT256 ->
  exists s' : state, deposit e assets receiver s = Ok (shares, s').
Proof.
  intros Hwf Hcaller Hreceiver Hfunds Hallowed HT HS shares Hsupply Hprincipal.
  pose proof (totalSupply_nonneg s Hwf) as HS0.
  pose proof (totalAssets_nonneg s Hwf) as HT0.
  pose proof Hwf as (Hthis & _ & _ & _ & Hasset & Htoken).
  pose proof (Token.balanceOf_uint256 _ Hasset (msg_sender e)) as [_ Hmax].
  assert (Hshares : 0 <= shares).
  { unfold shares. apply Z.div_pos; [|lia]. apply Z.mul_nonneg_nonneg; lia. }
  unfold deposit, super_deposit.
  replace (MAX_UINT256 <? assets) with false by (symmetry; apply Z.ltb_ge; lia).
  cbn [revert_if bind].
  unfold previewDeposit, _convertToShares.
  rewrite add_Ok by lia. cbn [bind]. rewrite add_Ok by lia. cbn [bind].
  unfold mulDiv.
  replace (totalAssets s + 1 =? 0) with false by (symmetry; apply Z.eqb_neq; lia).
  fold shares.
  replace (shares <=? MAX_UINT256) with true by (symmetry; apply Z.leb_le; lia).
  cbn [bind]. unfold _deposit.
  destruct (transferFrom_succeeds (this (vault s)) (msg_sender e) (this (vault s))
              assets (asset s) Hcaller Hthis Hthis ltac:(lia) Hallowed) as [a Hpull].
  rewrite Hpull. cbn [bind].
  destruct (_mint_succeeds receiver shares (token (vault s)) Hreceiver Hsupply)
    as [tok Hmint].
  rewrite Hmint. cbn [bind]. simpl _totalUserDeposits.
  rewrite add_Ok by exact Hprincipal. cbn [bind]. eauto.
Qed.

(** The depositor of the scenario, who has approved the vault for 100,
    deposits the 100 into the vault just constructed. *)
Lemma deposit_succeeds_witness :
  exists s0 s' : state,
    constructor Scenario.at_deploy Scenario.vault_address Scenario.funded
      Scenario.recipient Scenario.deployer = Ok s0 /\
    deposit Scenario.as_user 100 Scenario.user s0 = Ok (100, s').
Proof.
  destruct (constructor Scenario.at_deploy Scenario.vault_address Scenario.funded
              Scenario.recipient Scenario.deployer) as [s0|err] eqn:Hnew;
    [|vm_compute in Hnew; discriminate].
  vm_compute in Hnew. injection Hnew as <-.
  match goal with |- exists s0 s', Ok ?st = Ok s0 /\ _ => set (s0 := st) end.
  assert (Hwf : wf s0) by (apply wf_by_evaluation; vm_compute; reflexivity).
  assert (Hcaller : msg_sender Scenario.as_user <> 0) by (vm_compute; discriminate).
  assert (Hreceiver : Scenario.user <> 0) by (vm_compute; discriminate).
  assert (Hfunds : 0 <= 100 <= ERC20.balanceOf (asset s0) (msg_sender Scenario.as_user))
    by (vm_compute; split; discriminate).
  assert (Hallowed : 100 <= ERC20.allowance (asset s0) (msg_sender Scenario.as_user)
                              (this (vault s0)))
    by (vm_compute; discriminate).
  assert (HT : totalAssets s0 < MAX_UINT256) by (vm_compute; reflexivity).
  assert (HS : totalSupply s0 < MAX_UINT256) by (vm_compute; reflexivity).
  destruct (deposit_succeeds Scenario.as_user 100 Scenario.user s0
              Hwf Hcaller Hreceiver Hfunds Hallowed HT HS) as [s' Hrun];
    [vm_compute; discriminate|vm_compute; discriminate|].
  exists s0, s'. split; [reflexivity|exact Hrun].
Defined.

End Ledger.

(** ** The allocation validator *)

Module Validator.

Import HealthCheck.

(** The validator on vectors whose sum fits a [uint256]: the three tests
    in the order they are made. *)
Lemma validateAllocation_eval (a m s u : Z) :
  a + m <= MAX_UINT256 -> a + m + s <= MAX_UINT256 -> a + m + s + u <= MAX_UINT256 ->
  validateAllocation a m s u =
  Ok ((a + m + s + u =? 10000)
      && negb ((8000 <? a) || (8000 <? m) || (8000 <? s) || (8000 <? u))
      && negb ((a <? 500) || (m <? 500) || (s <? 500) || (u <? 500))).
Proof.
  intros H1 H2 H3. unfold validateAllocation.
  rewrite (add_Ok a m) by exact H1. cbv beta iota delta [bind].
  rewrite (add_Ok (a + m) s) by exact H2. cbv beta iota delta [bind].
  rewrite (add_Ok (a + m + s) u) by exact H3. cbv beta iota delta [bind].
  destruct (a + m + s + u =? 10000); simpl; [|reflexivity].
  destruct ((8000 <? a) || (8000 <? m) || (8000 <? s) || (8000 <? u)); simpl;
    [reflexivity|].
  now destruct ((a <? 500) || (m <? 500) || (s <? 500) || (u <? 500)).
Qed.

Lemma validateAllocation_overflow (a m s u : Z) :
  0 <= a -> 0 <= m -> 0 <= s -> 0 <= u ->
  MAX_UINT256 < a + m + s + u ->
  validateAllocation a m s u = Err (Panic 17).
Proof.
  intros Ha Hm Hs Hu Hover. unfold validateAllocation.
  destruct (Z_le_gt_dec (a + m) MAX_UINT256) as [H1|H1].
  - rewrite (add_Ok a m) by exact H1. cbv beta iota delta [bind].
    destruct (Z_le_gt_dec (a + m + s) MAX_UINT256) as [H2|H2].
    + rewrite (add_Ok (a + m) s) by exact H2. cbv beta iota delta [bind].
      now rewrite add_overflow by lia.
    + now rewrite (add_overflow (a + m) s) by lia.
  - now rewrite add_overflow by lia.
Qed.

(** C8, as the code has it.  [validateAllocation] reads no storage and
    writes none (it is a function of its four arguments).  It returns
    [true] exactly when the four weights sum to 10000 and each lies
    between 500 and 8000; a vector with any other sum is never accepted.
    It returns a boolean whenever the sum of the weights fits in 256 bits,
    and reverts with the arithmetic panic otherwise. *)
Theorem validateAllocation_accepts (a m s u : Z) :
  0 <= a -> 0 <= m -> 0 <= s -> 0 <= u ->
  (validateAllocation a m s u = Ok true <->
   a + m + s + u = 10000 /\
   in_bounds a /\ in_bounds m /\ in_bounds s /\ in_bounds u) /\
  (a + m + s + u <> 10000 -> validateAllocation a m s u <> Ok true) /\
  (a + m + s + u <= MAX_UINT256 ->
   exists valid : bool, validateAllocation a m s u = Ok valid) /\
  (MAX_UINT256 < a + m + s + u -> validateAllocation a m s u = Err (Panic 17)).
Proof.
  intros Ha Hm Hs Hu.
  assert (Hiff : validateAllocation a m s u = Ok true <->
                 a + m + s + u = 10000 /\
                 in_bounds a /\ in_bounds m /\ in_bounds s /\ in_bounds u).
  { destruct (Z_le_gt_dec (a + m + s + u) MAX_UINT256) as [Hfit|Hover].
    - rewrite validateAllocation_eval by lia. unfold in_bounds. split.
      + intros [= Hall].
        apply andb_prop in Hall as [Hall Hfloor].
        apply andb_prop in Hall as [Hsum Hceil].
        apply Z.eqb_eq in Hsum.
        apply negb_true_iff in Hceil, Hfloor.
        repeat (apply orb_false_elim in Hceil as [Hceil ?]).
        repeat (apply orb_false_elim in Hfloor as [Hfloor ?]).
        rewrite Z.ltb_ge in *. lia.
      + intros (Hsum & Hba & Hbm & Hbs & Hbu). f_equal.
        apply Z.eqb_eq in Hsum. rewrite Hsum. simpl.
        replace (8000 <? a) with false by (symmetry; apply Z.ltb_ge; lia).
        replace (8000 <? m) with false by (symmetry; apply Z.ltb_ge; lia).
        replace (8000 <? s) with false by (symmetry; apply Z.ltb_ge; lia).
        replace (8000 <? u) with false by (symmetry; apply Z.ltb_ge; lia).
        replace (a <? 500) with false by (symmetry; apply Z.ltb_ge; lia).
        replace (m <? 500) with false by (symmetry; apply Z.ltb_ge; lia).
        replace (s <? 500) with false by (symmetry; apply Z.ltb_ge; lia).
        replace (u <? 500) with false by (symmetry; apply Z.ltb_ge; lia).
        reflexivity.
    - rewrite validateAllocation_overflow by lia. split; [discriminate|].
      intros (Hsum & _). unfold MAX_UINT256 in Hover. lia. }
  split; [exact Hiff|]. split; [|split].
  - intros Hsum Hyes. apply Hiff in Hyes. tauto.
  - intros Hfit. rewrite validateAllocation_eval by lia. eauto.
  - now apply validateAllocation_overflow.
Qed.

Lemma validateAllocation_accepts_witness :
  (HealthCheck.validateAllocation 4000 3000 2000 1000 = Ok true <->
   4000 + 3000 + 2000 + 1000 = 10000 /\
   in_bounds 4000 /\ in_bounds 3000 /\ in_bounds 2000 /\ in_bounds 1000) /\
  HealthCheck.validateAllocation 4000 3000 2000 1000 = Ok true.
Proof.
  split; [|reflexivity].
  apply (validateAllocation_accepts 4000 3000 2000 1000); lia.
Defined.

(** C8, as stated, fails on totality: on the weights
    [(2^256 - 1, 1, 0, 0)] the checked sum overflows and the call reverts
    instead of returning [false]. *)
Lemma validateAllocation_not_total :
  uint256 MAX_UINT256 /\ uint256 1 /\ uint256 0 /\
  validateAllocation MAX_UINT256 1 0 0 = Err (Panic 17) /\
  ~ (exists valid : bool, validateAllocation MAX_UINT256 1 0 0 = Ok valid).
Proof.
  assert (Hrun : validateAllocation MAX_UINT256 1 0 0 = Err (Panic 17))
    by reflexivity.
  repeat split; try (unfold MAX_UINT256; lia); try exact Hrun.
  intros [valid Hvalid]. rewrite Hrun in Hvalid. discriminate.
Qed.

End Validator.

(** ** The allocation controller *)

Module Controller.

Import StrategyManager.

(** X2. What [setAllocationWeights] does with a vector of [uint256] weights
    that sums to [BASIS_POINTS], sent by the owner. *)
Lemma setAllocationWeights_eval (e : Env) (w : AllocationWeights) (m : t) :
  msg_sender e = _owner m ->
  0 <= aave w -> 0 <= morpho w -> 0 <= spark w -> 0 <= uniswap w ->
  0 <= aave (currentAllocation m) ->
  aave w + morpho w + spark w + uniswap w = BASIS_POINTS ->
  setAllocationWeights e w m =
  if initialized m then
    if delta (aave (currentAllocation m)) (aave w) <=? MAX_REBALANCE_DELTA
    then Ok (set_currentAllocation m w)
    else Err ExcessiveAllocationChange
  else Ok (set_currentAllocation (set_initialized m true) w).
Proof.
  intros Hown Ha Hm Hs Hu Hold Hsum. unfold BASIS_POINTS in Hsum.
  unfold setAllocationWeights, onlyOwner.
  rewrite Hown, Z.eqb_refl. cbv beta iota delta [bind negb revert_if].
  rewrite (add_Ok (aave w)) by (unfold MAX_UINT256; lia).
  cbv beta iota delta [bind].
  rewrite (add_Ok (aave w + morpho w)) by (unfold MAX_UINT256; lia).
  cbv beta iota delta [bind].
  rewrite (add_Ok (aave w + morpho w + spark w)) by (unfold MAX_UINT256; lia).
  cbv beta iota delta [bind].
  rewrite Hsum. change (BASIS_POINTS =? BASIS_POINTS) with true.
  cbv beta iota delta [bind require].
  destruct (initialized m); [|reflexivity].
  unfold delta.
  destruct (aave (currentAllocation m) <? aave w) eqn:Hcmp.
  - apply Z.ltb_lt in Hcmp. rewrite sub_Ok by lia.
    cbv beta iota delta [bind].
    rewrite Z.abs_eq by lia.
    now destruct (_ <=? MAX_REBALANCE_DELTA).
  - apply Z.ltb_ge in Hcmp. rewrite sub_Ok by lia.
    cbv beta iota delta [bind].
    replace (Z.abs (aave w - aave (currentAllocation m)))
      with (aave (currentAllocation m) - aave w) by lia.
    now destruct (_ <=? MAX_REBALANCE_DELTA).
Qed.

(** A vector of [uint256] weights whose sum is not 10000 is refused with
    [InvalidWeightSum], initialized or not. *)
Lemma setAllocationWeights_wrong_sum (e : Env) (w : AllocationWeights) (m : t) :
  msg_sender e = _owner m ->
  0 <= aave w -> 0 <= morpho w -> 0 <= spark w -> 0 <= uniswap w ->
  aave w + morpho w + spark w + uniswap w <= MAX_UINT256 ->
  aave w + morpho w + spark w + uniswap w <> BASIS_POINTS ->
  setAllocationWeights e w m = Err InvalidWeightSum.
Proof.
  intros Hown Ha Hm Hs Hu Hfit Hsum.
  unfold setAllocationWeights, onlyOwner.
  rewrite Hown, Z.eqb_refl. cbv beta iota delta [bind negb revert_if].
  rewrite (add_Ok (aave w)) by lia. cbv beta iota delta [bind].
  rewrite (add_Ok (aave w + morpho w)) by lia. cbv beta iota delta [bind].
  rewrite (add_Ok (aave w + morpho w + spark w)) by lia.
  cbv beta iota delta [bind].
  apply Z.eqb_neq in Hsum. now rewrite Hsum.
Qed.

(** On the manager holding [4000, 3000, 2000, 1000], a move of the first
    weight by 1000 is accepted and a move by 2500 is refused. *)
Lemma setAllocationWeights_eval_witness :
  setAllocationWeights Scenario.at_deploy (Scenario.weights 5000 2000 2000 1000)
    Scenario.manager1
  = Ok (set_currentAllocation Scenario.manager1
          (Scenario.weights 5000 2000 2000 1000)) /\
  setAllocationWeights Scenario.at_deploy (Scenario.weights 6500 1500 1500 500)
    Scenario.manager1
  = Err ExcessiveAllocationChange.
Proof.
  split.
  - rewrite (setAllocationWeights_eval Scenario.at_deploy
               (Scenario.weights 5000 2000 2000 1000) Scenario.manager1);
      simpl; try reflexivity; lia.
  - rewrite (setAllocationWeights_eval Scenario.at_deploy
               (Scenario.weights 6500 1500 1500 500) Scenario.manager1);
      simpl; try reflexivity; lia.
Defined.

(** C10. The first weight vector: on a manager that has not been
    initialized, the owner's [setAllocationWeights] accepts and stores
    every vector of [uint256] weights that sums to 10000, whatever
    [HealthCheck.validateAllocation] says of it; the validator's 500 and
    8000 bounds play no part. *)
Theorem setAllocationWeights_first_vector
  (e : Env) (w : AllocationWeights) (m : t) :
  msg_sender e = _owner m ->
  initialized m = false ->
  0 <= aave w -> 0 <= morpho w -> 0 <= spark w -> 0 <= uniswap w ->
  aave w + morpho w + spark w + uniswap w = 10000 ->
  setAllocationWeights e w m = Ok (set_currentAllocation (set_initialized m true) w) /\
  currentAllocation (set_currentAllocation (set_initialized m true) w) = w /\
  initialized (set_currentAllocation (set_initialized m true) w) = true.
Proof.
  intros Hown Hinit Ha Hm Hs Hu Hsum.
  split; [|split; reflexivity].
  unfold setAllocationWeights, onlyOwner.
  rewrite Hown, Z.eqb_refl. cbv beta iota delta [bind negb revert_if].
  rewrite (add_Ok (aave w)) by (unfold MAX_UINT256; lia).
  cbv beta iota delta [bind].
  rewrite (add_Ok (aave w + morpho w)) by (unfold MAX_UINT256; lia).
  cbv beta iota delta [bind].
  rewrite (add_Ok (aave w + morpho w + spark w)) by (unfold MAX_UINT256; lia).
  cbv beta iota delta [bind].
  rewrite Hsum, Hinit. reflexivity.
Qed.

(** The vector [10000, 0, 0, 0], which the validator rejects, is accepted
    as the first vector. *)
Lemma setAllocationWeights_first_vector_witness :
  HealthCheck.validateAllocation 10000 0 0 0 = Ok false /\
  setAllocationWeights Scenario.at_deploy (Scenario.weights 10000 0 0 0)
    Scenario.manager0 =
  Ok (set_currentAllocation (set_initialized Scenario.manager0 true)
        (Scenario.weights 10000 0 0 0)).
Proof.
  split; [reflexivity|].
  apply (setAllocationWeights_first_vector Scenario.at_deploy
           (Scenario.weights 10000 0 0 0) Scenario.manager0);
    simpl; try reflexivity; lia.
Defined.

(** The scenario of the specification: [4000, 3000, 2000, 1000] is accepted
    as the first vector, and [6500, 1500, 1500, 500] is then refused, the
    first weight moving by 2500. *)
Example first_then_refused :
  setAllocationWeights Scenario.at_deploy (Scenario.weights 4000 3000 2000 1000)
    Scenario.manager0 = Ok Scenario.manager1 /\
  setAllocationWeights Scenario.at_deploy (Scenario.weights 6500 1500 1500 500)
    Scenario.manager1 = Err ExcessiveAllocationChange.
Proof. split; reflexivity. Qed.

(** C1, at the input where the code departs from it.  The manager holds
    [4000, 3000, 2000, 1000]; the owner sends [4000, 6000, 0, 0].  The
    second weight moves by 3000, the third by 2000 and the fourth by 1000,
    so the change is not within [MAX_REBALANCE_DELTA] on every venue; the
    first weight does not move, and the call is accepted and the new
    vector stored: only the first venue's change is tested. *)
Theorem setAllocationWeights_checks_aave_only :
  initialized Scenario.manager1 = true /\
  currentAllocation Scenario.manager1 = Scenario.weights 4000 3000 2000 1000 /\
  delta 3000 6000 = 3000 /\
  MAX_REBALANCE_DELTA = 2000 /\
  ~ within_delta (currentAllocation Scenario.manager1)
      (Scenario.weights 4000 6000 0 0) /\
  setAllocationWeights Scenario.at_deploy (Scenario.weights 4000 6000 0 0)
    Scenario.manager1 =
  Ok (set_currentAllocation Scenario.manager1 (Scenario.weights 4000 6000 0 0)).
Proof.
  repeat split.
  intros (_ & Hmorpho & _). vm_compute in Hmorpho. now apply Hmorpho.
Qed.

(** *** Rebalancing *)

Lemma deposits_app (l1 l2 : list call) :
  deposits (l1 ++ l2) = (deposits l1 ++ deposits l2)%list.
Proof. unfold deposits. now rewrite flat_map_app. Qed.

Lemma withdrawals_app (l1 l2 : list call) :
  withdrawals (l1 ++ l2) = (withdrawals l1 ++ withdrawals l2)%list.
Proof. unfold withdrawals. now rewrite flat_map_app. Qed.

Lemma deposits_venue_calls (m : t) (strategy : address) (current target : Z) :
  deposits (venue_calls m strategy current target)
  = venue_deposit strategy current target.
Proof.
  unfold venue_calls, venue_deposit.
  destruct (current <? target); [reflexivity|].
  now destruct (target <? current).
Qed.

Lemma withdrawals_venue_calls (m : t) (strategy : address) (current target : Z) :
  withdrawals (venue_calls m strategy current target)
  = venue_withdrawal strategy current target.
Proof.
  unfold venue_calls, venue_withdrawal.
  destruct (current <? target); [reflexivity|].
  now destruct (target <? current).
Qed.

Lemma target_amount_Ok (totalAssets weight target : Z) :
  target_amount totalAssets weight = Ok target ->
  target = totalAssets * weight / BASIS_POINTS.
Proof.
  unfold target_amount. intros Hrun. ok_steps Hrun.
  apply mul_Ok_inv in Ha as [-> _]. now apply div_Ok_inv in Hrun as [-> _].
Qed.

Section Issued.

Context {X : Type} `{External X}.

(** The chain of address tests picks the adapter it was asked for. *)
Lemma adapter_for_adapter (m : t) (strategy : address) :
  is_adapter m strategy -> adapter_for m strategy = Some strategy.
Proof.
  intros Hin. unfold adapter_for.
  destruct (strategy =? aaveAdapter m) eqn:H1;
    [apply Z.eqb_eq in H1; now rewrite <- H1|].
  destruct (strategy =? morphoAdapter m) eqn:H2;
    [apply Z.eqb_eq in H2; now rewrite <- H2|].
  destruct (strategy =? sparkAdapter m) eqn:H3;
    [apply Z.eqb_eq in H3; now rewrite <- H3|].
  destruct (strategy =? uniswapAdapter m) eqn:H4;
    [apply Z.eqb_eq in H4; now rewrite <- H4|].
  apply Z.eqb_neq in H1, H2, H3, H4. unfold is_adapter in Hin. tauto.
Qed.

Lemma do_call_Ok (m : t) (c : call) (r r' : running) (word : Z) :
  do_call m c r = Ok (word, r') -> snd r' = (snd r ++ [c])%list.
Proof.
  unfold do_call. intros Hrun. ok_steps Hrun. now subst r'.
Qed.

(** One venue: a successful [_rebalanceStrategy] adds exactly the calls the
    venue is owed. *)
Lemma _rebalanceStrategy_calls
  (m : t) (strategy : address) (current target : Z) (r r' : running) :
  is_adapter m strategy ->
  _rebalanceStrategy m strategy current target r = Ok r' ->
  snd r' = (snd r ++ venue_calls m strategy current target)%list.
Proof.
  intros Hin. unfold _rebalanceStrategy, venue_calls.
  rewrite (adapter_for_adapter m strategy Hin).
  destruct (current <? target) eqn:Hlow.
  - intros Hrun. ok_steps Hrun.
    apply sub_Ok_inv in Ha as [-> _].
    apply do_call_Ok in Ha0. apply do_call_Ok in Ha2. apply do_call_Ok in Ha3.
    subst r'. rewrite Ha3, Ha2, Ha0. now rewrite <- !app_assoc.
  - destruct (target <? current) eqn:Hhigh.
    + intros Hrun. ok_steps Hrun.
      apply sub_Ok_inv in Ha as [-> _].
      apply do_call_Ok in Ha0. now subst r'.
    + intros [= <-]. now rewrite app_nil_r.
Qed.

End Issued.

(** C9 fails on the deployed contracts.  [_rebalanceStrategy] funds a
    venue by [asset.transferFrom(vault, manager, amount)] ("Transfer
    assets from vault to strategy manager"), which needs an allowance from
    the vault to the manager on the asset token, and no function of the
    vault grants one.  The scenario of the claim, produced by the
    contracts' own constructors and functions: the vault is constructed
    over the asset token, the depositor approves it and deposits 1000, the
    manager is constructed and given the weights [4000, 3000, 2000, 1000].
    The status view then reports total assets 1000 and no balance in any
    venue, the targets computed are 400, 300, 200 and 100, and [rebalance],
    sent by the owner, reverts in the token with
    [ERC20InsufficientAllowance] where the claim has it issue the four
    deposits. *)
Theorem rebalance_cannot_fund :
  Vault.constructor Scenario.at_deploy Scenario.vault_address Scenario.minted
    Scenario.recipient Scenario.deployer
  = Ok (Deployment.ledger Scenario.pool_empty) /\
  (let* '(_, a) :=
     ERC20.approve Scenario.user Scenario.vault_address 1000 Scenario.minted in
   Vault.deposit Scenario.as_user 1000 Scenario.user
     (Vault.with_asset (Deployment.ledger Scenario.pool_empty) a))
  = Ok (1000, Deployment.ledger Scenario.pool) /\
  constructor Scenario.manager_address Scenario.vault_address
    Scenario.asset_address 301 302 303 304 400 Scenario.deployer
  = Ok Scenario.manager0 /\
  setAllocationWeights Scenario.at_deploy (Scenario.weights 4000 3000 2000 1000)
    Scenario.manager0
  = Ok Scenario.manager1 /\
  getAllocationStatus Scenario.manager1 Scenario.pool
  = Ok (1000, 0, 0, 0, 0, Scenario.weights 4000 3000 2000 1000) /\
  target_amount 1000 4000 = Ok 400 /\ target_amount 1000 3000 = Ok 300 /\
  target_amount 1000 2000 = Ok 200 /\ target_amount 1000 1000 = Ok 100 /\
  Deployment.manager_allowance Scenario.manager1 Scenario.pool = 0 /\
  rebalance Scenario.at_deploy Scenario.manager1 Scenario.pool
  = Err (CustomError "ERC20InsufficientAllowance").
Proof. repeat split; vm_compute; reflexivity. Qed.

(** [rebalance] ends with a call to the stored health check: a manager
    constructed with an address that holds no [HealthCheck] cannot
    rebalance, even when there is nothing to move. *)
Example rebalance_without_health_check :
  rebalance Scenario.at_deploy Scenario.manager1 Scenario.pool_empty
  = Ok (Scenario.pool_empty, []) /\
  rebalance Scenario.at_deploy
    (set_currentAllocation
       {| this := Scenario.manager_address; _owner := Scenario.deployer;
          vault := Scenario.vault_address; asset := Scenario.asset_address;
          aaveAdapter := 301; morphoAdapter := 302; sparkAdapter := 303;
          uniswapAdapter := 304;
          currentAllocation := Scenario.weights 0 0 0 0;
          healthCheck := 401; initialized := true |}
       (Scenario.weights 4000 3000 2000 1000))
    Scenario.pool_empty
  = Err NoCode.
Proof. split; vm_compute; reflexivity. Qed.

(** *** The stored allocation *)

Ltac ok_inv := Ledger.ok_inv.





(** *** Targets *)

Lemma target_amount_eval (totalAssets weight : Z) :
  totalAssets * weight <= MAX_UINT256 ->
  target_amount totalAssets weight = Ok (totalAssets * weight / BASIS_POINTS).
Proof.
  intros Hfit. unfold target_amount, mul, div.
  apply Z.leb_le in Hfit. rewrite Hfit. reflexivity.
Qed.

Lemma target_bounds (totalAssets weight : Z) :
  0 <= totalAssets -> 0 <= weight ->
  10000 * (totalAssets * weight / BASIS_POINTS) <= totalAssets * weight
  < 10000 * (totalAssets * weight / BASIS_POINTS) + 10000.
Proof.
  intros Ht Hw. unfold BASIS_POINTS.
  pose proof (Z.div_mod (totalAssets * weight) 10000 ltac:(lia)) as Hdm.
  pose proof (Z.mod_pos_bound (totalAssets * weight) 10000 ltac:(lia)) as Hmod.
  lia.
Qed.

(** X16. The four targets of a rebalance.  With weights that sum to 10000
    and total assets whose product with 10000 fits a [uint256], the four
    targets [floor(totalAssets * weight / 10000)] are computed without
    overflow, add up to at most the total assets, and leave at most 3
    units of them unallocated. *)
Theorem targets_within_total (totalAssets : Z) (w : AllocationWeights) :
  0 <= totalAssets -> totalAssets * 10000 <= MAX_UINT256 ->
  0 <= aave w -> 0 <= morpho w -> 0 <= spark w -> 0 <= uniswap w ->
  sum_weights w = BASIS_POINTS ->
  exists targetAave targetMorpho targetSpark targetUniswap : Z,
    target_amount totalAssets (aave w) = Ok targetAave /\
    target_amount totalAssets (morpho w) = Ok targetMorpho /\
    target_amount totalAssets (spark w) = Ok targetSpark /\
    target_amount totalAssets (uniswap w) = Ok targetUniswap /\
    0 <= targetAave /\ 0 <= targetMorpho /\ 0 <= targetSpark /\ 0 <= targetUniswap /\
    totalAssets - 3 <= targetAave + targetMorpho + targetSpark + targetUniswap
      <= totalAssets.
Proof.
  intros Ht Hfit Ha Hm Hs Hu Hsum. unfold sum_weights, BASIS_POINTS in Hsum.
  exists (totalAssets * aave w / BASIS_POINTS), (totalAssets * morpho w / BASIS_POINTS),
    (totalAssets * spark w / BASIS_POINTS), (totalAssets * uniswap w / BASIS_POINTS).
  repeat (split; [apply target_amount_eval; nia|]).
  pose proof (target_bounds totalAssets (aave w) Ht Ha) as Ba.
  pose proof (target_bounds totalAssets (morpho w) Ht Hm) as Bm.
  pose proof (target_bounds totalAssets (spark w) Ht Hs) as Bs.
  pose proof (target_bounds totalAssets (uniswap w) Ht Hu) as Bu.
  assert (Hall : totalAssets * aave w + totalAssets * morpho w
                 + totalAssets * spark w + totalAssets * uniswap w
                 = 10000 * totalAssets) by nia.
  repeat (split; [apply Z.div_pos; [nia|unfold BASIS_POINTS; lia]|]).
  lia.
Qed.

(** Total assets 1003 under the weights of the scenario: the targets are
    401, 300, 200 and 100, and 2 units stay unallocated. *)
Lemma targets_within_total_witness :
  exists targetAave targetMorpho targetSpark targetUniswap : Z,
    target_amount 1003 4000 = Ok targetAave /\
    target_amount 1003 3000 = Ok targetMorpho /\
    target_amount 1003 2000 = Ok targetSpark /\
    target_amount 1003 1000 = Ok targetUniswap /\
    1000 <= targetAave + targetMorpho + targetSpark + targetUniswap <= 1003.
Proof.
  destruct (targets_within_total 1003 (Scenario.weights 4000 3000 2000 1000))
    as (ta & tm & ts & tu & Ha & Hm & Hs & Hu & _ & _ & _ & _ & Hsum);
    try (vm_compute; discriminate); try reflexivity.
  exists ta, tm, ts, tu. repeat (split; [assumption|]). exact Hsum.
Defined.

(** *** The status view and the rebalance *)

Section Reads.

Context {X : Type} `{External X}.

(** The steps of a rebalance that goes through. *)
Lemma rebalance_steps (e : Env) (m : t) (x : X) (r : running) :
  rebalance e m x = Ok r ->
  exists (totalAssets currentAave currentMorpho currentSpark currentUniswap : Z)
         (r1 r2 r3 : running),
    msg_sender e = _owner m /\
    vault_totalAssets (vault m) x = Ok totalAssets /\
    adapter_balanceOf (aaveAdapter m) (this m) x = Ok currentAave /\
    adapter_balanceOf (morphoAdapter m) (this m) x = Ok currentMorpho /\
    adapter_balanceOf (sparkAdapter m) (this m) x = Ok currentSpark /\
    adapter_balanceOf (uniswapAdapter m) (this m) x = Ok currentUniswap /\
    _rebalanceStrategy m (aaveAdapter m) currentAave
      (totalAssets * aave (currentAllocation m) / 10000) (x, []) = Ok r1 /\
    _rebalanceStrategy m (morphoAdapter m) currentMorpho
      (totalAssets * morpho (currentAllocation m) / 10000) r1 = Ok r2 /\
    _rebalanceStrategy m (sparkAdapter m) currentSpark
      (totalAssets * spark (currentAllocation m) / 10000) r2 = Ok r3 /\
    _rebalanceStrategy m (uniswapAdapter m) currentUniswap
      (totalAssets * uniswap (currentAllocation m) / 10000) r3 = Ok r.
Proof.
  unfold rebalance. intros Hrun. ok_steps Hrun.
  apply target_amount_Ok in Ha1, Ha2, Ha3, Ha4. unfold BASIS_POINTS in *.
  subst a1 a2 a3 a4 r.
  assert (Howner : msg_sender e = _owner m).
  { unfold onlyOwner in Ha. apply revert_if_Ok in Ha.
    apply negb_false_iff, Z.eqb_eq in Ha. congruence. }
  eauto 20.
Qed.

Lemma _rebalanceStrategy_on_target (m : t) (strategy : address) (amount : Z)
  (r : running) :
  _rebalanceStrategy m strategy amount amount r = Ok r.
Proof. unfold _rebalanceStrategy. now rewrite Z.ltb_irrefl. Qed.

(** X19. [getAllocationStatus] reports the figures a rebalance acts on: when
    a rebalance goes through, the status read on the same state returns
    the total assets and the four balances from which the calls of the
    rebalance follow, with the stored weights; and when each balance
    reported equals its target [floor(totalAssets * weight / 10000)], the
    rebalance makes no call and changes nothing. *)
Theorem status_predicts_rebalance (e : Env) (m : t) (x x' : X) (calls : list call) :
  rebalance e m x = Ok (x', calls) ->
  exists totalAssets aaveBalance morphoBalance sparkBalance uniswapBalance : Z,
    let target weight := totalAssets * weight / 10000 in
    getAllocationStatus m x =
      Ok (totalAssets, aaveBalance, morphoBalance, sparkBalance, uniswapBalance,
          currentAllocation m) /\
    calls =
      (venue_calls m (aaveAdapter m) aaveBalance (target (aave (currentAllocation m)))
       ++ venue_calls m (morphoAdapter m) morphoBalance
            (target (morpho (currentAllocation m)))
       ++ venue_calls m (sparkAdapter m) sparkBalance
            (target (spark (currentAllocation m)))
       ++ venue_calls m (uniswapAdapter m) uniswapBalance
            (target (uniswap (currentAllocation m))))%list /\
    (aaveBalance = target (aave (currentAllocation m)) ->
     morphoBalance = target (morpho (currentAllocation m)) ->
     sparkBalance = target (spark (currentAllocation m)) ->
     uniswapBalance = target (uniswap (currentAllocation m)) ->
     x' = x /\ calls = []).
Proof.
  intros Hrun.
  apply rebalance_steps in Hrun
    as (total & cA & cM & cS & cU & r1 & r2 & r3 & _ & Htotal & HA & HM & HS & HU
        & H1 & H2 & H3 & H4).
  exists total, cA, cM, cS, cU. cbv zeta.
  split; [|split].
  - unfold getAllocationStatus. rewrite Htotal, HA, HM, HS, HU. reflexivity.
  - pose proof (_rebalanceStrategy_calls m (aaveAdapter m) _ _ _ _
                  ltac:(unfold is_adapter; tauto) H1) as K1.
    pose proof (_rebalanceStrategy_calls m (morphoAdapter m) _ _ _ _
                  ltac:(unfold is_adapter; tauto) H2) as K2.
    pose proof (_rebalanceStrategy_calls m (sparkAdapter m) _ _ _ _
                  ltac:(unfold is_adapter; tauto) H3) as K3.
    pose proof (_rebalanceStrategy_calls m (uniswapAdapter m) _ _ _ _
                  ltac:(unfold is_adapter; tauto) H4) as K4.
    simpl in K4. rewrite K4, K3, K2, K1. simpl. now rewrite <- !app_assoc.
  - intros EA EM ES EU. rewrite EA in H1. rewrite EM in H2. rewrite ES in H3.
    rewrite EU in H4.
    rewrite _rebalanceStrategy_on_target in H1, H2, H3, H4.
    simplify_eq. auto.
Qed.

End Reads.

(** The deployment as the constructors leave it, the weights set: the
    vault is empty, so every target is 0, which is what the manager holds
    in every adapter, and the rebalance makes no call. *)
Lemma status_predicts_rebalance_witness :
  getAllocationStatus Scenario.manager1 Scenario.pool_empty
  = Ok (0, 0, 0, 0, 0, Scenario.weights 4000 3000 2000 1000) /\
  rebalance Scenario.at_deploy Scenario.manager1 Scenario.pool_empty
  = Ok (Scenario.pool_empty, []).
Proof.
  destruct (rebalance Scenario.at_deploy Scenario.manager1 Scenario.pool_empty)
    as [[x' calls]|err] eqn:Hrun; [|vm_compute in Hrun; discriminate].
  destruct (status_predicts_rebalance _ _ _ _ _ Hrun)
    as (total & cA & cM & cS & cU & Hstatus & _ & Hnone).
  assert (Hread : getAllocationStatus Scenario.manager1 Scenario.pool_empty
                  = Ok (0, 0, 0, 0, 0, Scenario.weights 4000 3000 2000 1000))
    by (vm_compute; reflexivity).
  split; [exact Hread|].
  rewrite Hread in Hstatus. injection Hstatus as <- <- <- <- <-.
  destruct Hnone as [-> ->]; reflexivity.
Defined.

(** *** Ownership *)

Lemma manager_onlyOwner_other (e : Env) (m : t) :
  msg_sender e <> _owner m -> onlyOwner e m = Err Unauthorized.
Proof.
  intros Hne. unfold onlyOwner, revert_if.
  destruct (_owner m =? msg_sender e) eqn:Heq; [|reflexivity].
  apply Z.eqb_eq in Heq. congruence.
Qed.

Section Owner.

Context {X : Type} `{External X}.

(** X22. The manager is the owner's alone: sent by any other account,
    [setAllocationWeights], [transferOwnership] and [renounceOwnership]
    fail with [OwnableUnauthorizedAccount] and store nothing, and
    [rebalance] fails with it before reading or calling any other
    contract, whatever those contracts are. *)
Theorem manager_owner_only (e : Env) (m : t) :
  msg_sender e <> _owner m ->
  (forall u : update, exec e u m = Err Unauthorized) /\
  (forall x : X, rebalance e m x = Err Unauthorized).
Proof.
  intros Hne. pose proof (manager_onlyOwner_other e m Hne) as Honly.
  split.
  - intros [w|newOwner| ]; simpl;
      unfold setAllocationWeights, transferOwnership, renounceOwnership;
      now rewrite Honly.
  - intros x. unfold rebalance. now rewrite Honly.
Qed.

End Owner.

(** The depositor of the scenario is not the manager's owner. *)
Lemma manager_owner_only_witness :
  exec Scenario.as_user (SetAllocationWeights (Scenario.weights 2500 2500 2500 2500))
    Scenario.manager1 = Err Unauthorized /\
  rebalance Scenario.as_user Scenario.manager1 Scenario.pool = Err Unauthorized.
Proof.
  assert (Hne : msg_sender Scenario.as_user <> _owner Scenario.manager1)
    by (vm_compute; discriminate).
  destruct (manager_owner_only (X := Deployment.world) Scenario.as_user
              Scenario.manager1 Hne) as [Hupdate Hrebalance].
  split; [apply Hupdate|apply Hrebalance].
Defined.

(** *** The limit over a sequence of calls *)

Lemma setAllocationWeights_step (e : Env) (w : AllocationWeights) (m : t) :
  msg_sender e = _owner m -> initialized m = true ->
  0 <= aave w -> 0 <= morpho w -> 0 <= spark w -> 0 <= uniswap w ->
  sum_weights w = BASIS_POINTS ->
  0 <= aave (currentAllocation m) ->
  Z.abs (aave w - aave (currentAllocation m)) <= MAX_REBALANCE_DELTA ->
  setAllocationWeights e w m = Ok (set_currentAllocation m w).
Proof.
  intros Howner Hinit Ha Hm Hs Hu Hsum Hold Hdelta.
  unfold sum_weights, BASIS_POINTS, MAX_REBALANCE_DELTA in *.
  unfold setAllocationWeights, onlyOwner, revert_if.
  rewrite Howner, Z.eqb_refl. cbn [negb bind].
  assert (Hmax : 10000 <= MAX_UINT256) by (vm_compute; discriminate).
  do 3 (rewrite add_Ok by lia; cbn [bind]).
  replace (aave w + morpho w + spark w + uniswap w =? BASIS_POINTS) with true
    by (symmetry; apply Z.eqb_eq; unfold BASIS_POINTS; lia).
  cbn [require bind]. rewrite Hinit.
  destruct (aave (currentAllocation m) <? aave w) eqn:Hup.
  - apply Z.ltb_lt in Hup. rewrite sub_Ok by lia. cbn [bind].
    replace (aave w - aave (currentAllocation m) <=? MAX_REBALANCE_DELTA) with true
      by (symmetry; apply Z.leb_le; unfold MAX_REBALANCE_DELTA; lia).
    reflexivity.
  - apply Z.ltb_ge in Hup. rewrite sub_Ok by lia. cbn [bind].
    replace (aave (currentAllocation m) - aave w <=? MAX_REBALANCE_DELTA) with true
      by (symmetry; apply Z.leb_le; unfold MAX_REBALANCE_DELTA; lia).
    reflexivity.
Qed.

Lemma allocation_path (e : Env) (w : AllocationWeights) (n : nat) :
  0 <= aave w -> 0 <= morpho w -> 0 <= spark w -> 0 <= uniswap w ->
  sum_weights w = BASIS_POINTS ->
  forall m : t,
    msg_sender e = _owner m -> initialized m = true ->
    0 <= aave (currentAllocation m) <= BASIS_POINTS ->
    Z.abs (aave w - aave (currentAllocation m)) <= MAX_REBALANCE_DELTA * Z.of_nat (S n) ->
    exists path : list AllocationWeights,
      (length path <= S n)%nat /\
      setAllocationWeights_each e path m = Ok (set_currentAllocation m w).
Proof.
  intros Ha Hm Hs Hu Hsum.
  assert (Hw : aave w <= BASIS_POINTS) by (unfold sum_weights in Hsum; lia).
  induction n as [|n IH]; intros m Howner Hinit Hold Hfar.
  - exists [w]. split; [simpl; lia|]. simpl.
    assert (Hstep : setAllocationWeights e w m = Ok (set_currentAllocation m w)).
    { apply setAllocationWeights_step; try assumption; lia. }
    rewrite Hstep. reflexivity.
  - destruct (Z_le_gt_dec (Z.abs (aave w - aave (currentAllocation m)))
                MAX_REBALANCE_DELTA) as [Hnear|Hgt].
    + exists [w]. split; [simpl; lia|]. simpl.
      assert (Hstep : setAllocationWeights e w m = Ok (set_currentAllocation m w)).
      { apply setAllocationWeights_step; try assumption; lia. }
      rewrite Hstep. reflexivity.
    + set (a := aave (currentAllocation m)) in *.
      set (a1 := if a <? aave w then a + MAX_REBALANCE_DELTA
                 else a - MAX_REBALANCE_DELTA).
      assert (Ha1 : 0 <= a1 <= BASIS_POINTS /\
                    Z.abs (a1 - a) <= MAX_REBALANCE_DELTA /\
                    Z.abs (aave w - a1)
                    <= MAX_REBALANCE_DELTA * Z.of_nat (S n)).
      { unfold a1, MAX_REBALANCE_DELTA, BASIS_POINTS in *.
        destruct (a <? aave w) eqn:Hup;
          [apply Z.ltb_lt in Hup|apply Z.ltb_ge in Hup]; lia. }
      destruct Ha1 as (Hrange & Hstep & Hrest).
      destruct (IH (set_currentAllocation m (shifted a1))) as (path & Hlen & Hrun);
        try assumption.
      exists (shifted a1 :: path). split; [simpl; lia|].
      cbn [setAllocationWeights_each].
      assert (Hfirst : setAllocationWeights e (shifted a1) m
                       = Ok (set_currentAllocation m (shifted a1))).
      { apply setAllocationWeights_step; try assumption;
          unfold sum_weights, shifted, BASIS_POINTS in *; simpl; lia. }
      rewrite Hfirst. cbn [bind]. exact Hrun.
Qed.

(** X23. [MAX_REBALANCE_DELTA] limits one call, not a sequence of calls:
    on an initialized manager whose first weight is at most 10000, the
    owner can store any vector of non-negative weights that sums to 10000
    with at most 5 accepted [setAllocationWeights] calls, however far it
    is from the stored one. *)
Theorem allocation_limit_composes (e : Env) (w : AllocationWeights) (m : t) :
  msg_sender e = _owner m -> initialized m = true ->
  0 <= aave (currentAllocation m) <= BASIS_POINTS ->
  0 <= aave w -> 0 <= morpho w -> 0 <= spark w -> 0 <= uniswap w ->
  sum_weights w = BASIS_POINTS ->
  exists path : list AllocationWeights,
    (length path <= 5)%nat /\
    setAllocationWeights_each e path m = Ok (set_currentAllocation m w).
Proof.
  intros Howner Hinit Hold Ha Hm Hs Hu Hsum.
  apply (allocation_path e w 4); try assumption.
  unfold sum_weights, BASIS_POINTS, MAX_REBALANCE_DELTA in *. lia.
Qed.

(** The manager holds [4000, 3000, 2000, 1000].  The vector
    [10000, 0, 0, 0] is refused when sent directly, and stored after a
    sequence of accepted calls. *)
Lemma allocation_limit_composes_witness :
  setAllocationWeights Scenario.at_deploy (Scenario.weights 10000 0 0 0)
    Scenario.manager1 = Err ExcessiveAllocationChange /\
  exists path : list AllocationWeights,
    (length path <= 5)%nat /\
    setAllocationWeights_each Scenario.at_deploy path Scenario.manager1
    = Ok (set_currentAllocation Scenario.manager1 (Scenario.weights 10000 0 0 0)).
Proof.
  split; [vm_compute; reflexivity|].
  apply (allocation_limit_composes Scenario.at_deploy
           (Scenario.weights 10000 0 0 0) Scenario.manager1);
    try reflexivity; try (vm_compute; discriminate).
  vm_compute. split; discriminate.
Defined.

End Controller.

(** ** The strategy adapters *)

Module Adapter.

Import Strategy.

Ltac ok_inv := Ledger.ok_inv.

(** The constructor leaves well-formed books, at par. *)
Lemma adapter_constructor_wf (self : address) (k : kind) (rate : Z) :
  0 <= rate -> wf (constructor self k rate) /\ at_par (constructor self k rate).
Proof.
  intros Hrate. unfold wf, at_par, constructor. simpl.
  split; [|split; [lia|reflexivity]].
  split; [apply map_Forall_empty|].
  split; [unfold ERC20.sum_balances; now rewrite map_fold_empty|].
  split; [vm_compute; discriminate|].
  split; [|exact Hrate]. split; [lia|vm_compute; discriminate].
Qed.

Lemma deposit_Ok_inv (sender : address) (amount : Z) (asset asset' : ERC20.t)
  (st st' : t) (shares : Z) :
  deposit sender amount asset st = Ok (shares, (asset', st')) ->
  0 < amount /\ shares = amount /\
  (exists b : bool,
     ERC20.transferFrom (this st) sender (this st) amount asset = Ok (b, asset')) /\
  _totalAssets st + amount <= MAX_UINT256 /\
  _totalShares st + amount <= MAX_UINT256 /\
  balanceOf sender st + amount <= MAX_UINT256 /\
  st' = {| this := this st; contract := contract st;
           _totalAssets := _totalAssets st + amount;
           _totalShares := _totalShares st + amount;
           yieldRate := yieldRate st; volatility := volatility st;
           _balances := <[sender := balanceOf sender st + amount]> (_balances st) |}.
Proof.
  intros Hrun. unfold deposit in Hrun. ok_inv.
  repeat match goal with
         | H : add _ _ = Ok _ |- _ => apply add_Ok_inv in H as [-> ?]
         end.
  match goal with H : (0 <? amount) = true |- _ => apply Z.ltb_lt in H end.
  simplify_eq. repeat split; try assumption. eauto.
Qed.

Lemma withdraw_Ok_inv (sender : address) (shares : Z) (asset asset' : ERC20.t)
  (st st' : t) (amount : Z) :
  withdraw sender shares asset st = Ok (amount, (asset', st')) ->
  0 < shares <= balanceOf sender st /\
  amount = (if 0 <? _totalShares st
            then shares * _totalAssets st / _totalShares st else shares) /\
  amount <= _totalAssets st /\
  shares <= _totalShares st /\
  (exists b : bool, ERC20.transfer (this st) sender amount asset = Ok (b, asset')) /\
  st' = {| this := this st; contract := contract st;
           _totalAssets := _totalAssets st - amount;
           _totalShares := _totalShares st - shares;
           yieldRate := yieldRate st; volatility := volatility st;
           _balances := <[sender := balanceOf sender st - shares]> (_balances st) |}.
Proof.
  intros Hrun. unfold withdraw in Hrun.
  apply bind_Ok in Hrun as (u & Hguard & Hrun).
  assert (Hshares : 0 < shares <= balanceOf sender st).
  { destruct (contract st).
    - apply bind_Ok in Hguard as (u1 & Hpos & Hbal).
      apply require_Ok in Hpos, Hbal. lia.
    - apply require_Ok in Hguard. apply andb_true_iff in Hguard. lia.
    - apply require_Ok in Hguard. apply andb_true_iff in Hguard. lia. }
  apply bind_Ok in Hrun as (amount' & Hamount & Hrun).
  assert (Hval : amount' = if 0 <? _totalShares st
                           then shares * _totalAssets st / _totalShares st
                           else shares).
  { destruct (0 <? _totalShares st); [|congruence].
    apply bind_Ok in Hamount as (product & Hmul & Hdiv).
    apply mul_Ok_inv in Hmul as [-> _]. now apply div_Ok_inv in Hdiv as [-> _]. }
  ok_inv.
  repeat match goal with
         | H : sub _ _ = Ok _ |- _ => apply sub_Ok_inv in H as [-> ?]
         | H : (_ <=? _) = true |- _ => apply Z.leb_le in H
         end.
  simplify_eq. repeat split; try assumption; try lia. eauto.
Qed.

Lemma accrueYield_Ok_inv (st st' : t) :
  accrueYield st = Ok st' ->
  _totalAssets st + dailyYield st <= MAX_UINT256 /\
  st' = {| this := this st; contract := contract st;
           _totalAssets := _totalAssets st + dailyYield st;
           _totalShares := _totalShares st;
           yieldRate := yieldRate st; volatility := volatility st;
           _balances := _balances st |}.
Proof.
  intros Hrun. unfold accrueYield in Hrun. ok_inv.
  repeat match goal with
         | H : mul _ _ = Ok _ |- _ => apply mul_Ok_inv in H as [-> ?]
         | H : div _ _ = Ok _ |- _ => apply div_Ok_inv in H as [-> ?]
         | H : add _ _ = Ok _ |- _ => apply add_Ok_inv in H as [-> ?]
         end.
  simplify_eq. unfold dailyYield. split; [assumption|reflexivity].
Qed.

Lemma dailyYield_nonneg (st : t) :
  0 <= _totalAssets st -> 0 <= yieldRate st -> 0 <= dailyYield st.
Proof.
  intros Ha Hr. unfold dailyYield.
  apply Z.div_pos; [|lia]. apply Z.div_pos; [|lia]. now apply Z.mul_nonneg_nonneg.
Qed.

(** The books of an adapter under one call that goes through. *)
Lemma exec_books (sender : address) (c : call) (asset asset' : ERC20.t)
  (st st' : t) (word : Z) :
  wf st -> call_ok c ->
  exec sender c asset st = Ok (word, (asset', st')) ->
  wf st' /\ this st' = this st /\ contract st' = contract st.
Proof.
  intros (Hall & Hshares & Hmax & Hassets & Hrate) Hc Hrun.
  destruct c as [amount|shares|r| |v]; simpl in Hrun.
  - apply deposit_Ok_inv in Hrun as (Hpos & _ & _ & Ha & Hs & Hb & ->).
    split; [|split; reflexivity]. unfold wf. simpl.
    split; [apply map_Forall_insert_2; [|exact Hall]|].
    + unfold balanceOf. destruct (_balances st !! sender) as [old|] eqn:Hold; simpl.
      * pose proof (Hall sender old Hold). simpl in *. lia.
      * lia.
    + rewrite Token.sum_balances_insert. unfold balanceOf. lia.
  - apply withdraw_Ok_inv in Hrun as (Hsh & Hamount & Hle & Hts & _ & ->).
    split; [|split; reflexivity]. unfold wf. simpl.
    assert (0 <= word).
    { rewrite Hamount. destruct (0 <? _totalShares st) eqn:Hts0; [|lia].
      apply Z.ltb_lt in Hts0. apply Z.div_pos; [|lia].
      apply Z.mul_nonneg_nonneg; lia. }
    split; [apply map_Forall_insert_2; [lia|exact Hall]|].
    rewrite Token.sum_balances_insert. unfold balanceOf in *. lia.
  - injection Hrun as _ _ <-. split; [|split; reflexivity].
    unfold wf. simpl. simpl in Hc. unfold uint256 in Hc.
    repeat split; try assumption; lia.
  - apply bind_Ok in Hrun as (st1 & Hacc & Hrun). injection Hrun as _ _ <-.
    apply accrueYield_Ok_inv in Hacc as (Hfit & ->).
    split; [|split; reflexivity]. unfold wf. simpl.
    pose proof (dailyYield_nonneg st ltac:(lia) Hrate).
    repeat split; try assumption; lia.
  - destruct (contract st) eqn:K; try discriminate.
    injection Hrun as _ _ <-. split; [|split; [reflexivity|simpl; congruence]].
    unfold wf. simpl. repeat split; try assumption; lia.
Qed.

(** The two rates are written by their setters only. *)
Lemma exec_rates (sender : address) (c : call) (asset asset' : ERC20.t)
  (st st' : t) (word : Z) :
  exec sender c asset st = Ok (word, (asset', st')) ->
  (yieldRate st' = yieldRate st \/ c = SetYieldRate (yieldRate st')) /\
  (volatility st' = volatility st \/ c = SetVolatility (volatility st')).
Proof.
  intros Hrun. destruct c as [amount|shares|r| |v]; simpl in Hrun.
  - apply deposit_Ok_inv in Hrun as (_ & _ & _ & _ & _ & _ & ->). simpl. auto.
  - apply withdraw_Ok_inv in Hrun as (_ & _ & _ & _ & _ & ->). simpl. auto.
  - injection Hrun as _ _ <-. simpl. auto.
  - apply bind_Ok in Hrun as (st1 & Hacc & Hrun). injection Hrun as _ _ <-.
    apply accrueYield_Ok_inv in Hacc as (_ & ->). simpl. auto.
  - destruct (contract st); try discriminate.
    injection Hrun as _ _ <-. simpl. auto.
Qed.

(** X4. The books of an adapter stay well formed under every call that
    goes through: no holder's balance is negative, the shares issued are
    the holders' shares and the one share the constructor starts from,
    and [_totalShares], [_totalAssets], [yieldRate] and [volatility] stay
    within [uint256]; the adapter keeps its address and its code. *)
Theorem adapter_books_kept (sender : address) (c : call) (asset asset' : ERC20.t)
  (st st' : t) (word : Z) :
  wf st -> uint256 (yieldRate st) -> uint256 (volatility st) -> call_ok c ->
  exec sender c asset st = Ok (word, (asset', st')) ->
  wf st' /\
  0 <= _totalShares st' <= MAX_UINT256 /\
  0 <= _totalAssets st' <= MAX_UINT256 /\
  uint256 (yieldRate st') /\ uint256 (volatility st') /\
  this st' = this st /\ contract st' = contract st.
Proof.
  intros Hwf Hrate Hvol Hc Hrun.
  destruct (exec_books _ _ _ _ _ _ _ Hwf Hc Hrun) as (Hwf' & Hthis & Hcode).
  destruct (exec_rates _ _ _ _ _ _ _ Hrun) as [Hr Hv].
  split; [exact Hwf'|].
  pose proof Hwf' as (Hall & Hshares & Hmax & Hassets & _).
  split.
  { split; [|exact Hmax]. rewrite Hshares.
    pose proof (Token.sum_balances_nonneg (_balances st') Hall). lia. }
  split; [exact Hassets|].
  split; [|split; [|split; assumption]].
  - destruct Hr as [->| ->]; [exact Hrate|exact Hc].
  - destruct Hv as [->| ->]; [exact Hvol|exact Hc].
Qed.

Lemma adapter_shares_held (st : t) (sender : address) :
  wf st -> 0 <= balanceOf sender st < _totalShares st.
Proof.
  intros (Hall & Hshares & _). rewrite Hshares.
  rewrite (Token.sum_balances_delete (_balances st) sender).
  assert (0 <= ERC20.sum_balances (delete sender (_balances st))).
  { apply Token.sum_balances_nonneg. now apply map_Forall_delete. }
  unfold balanceOf. destruct (_balances st !! sender) as [v|] eqn:Hv; simpl; [|lia].
  pose proof (Hall sender v Hv). simpl in *. lia.
Qed.

(** What a holder of fewer shares than were issued is paid. *)
Lemma adapter_pro_rata (shares assets supply : Z) :
  0 <= shares < supply -> 0 <= assets ->
  0 <= shares * assets / supply <= assets /\
  (0 < assets -> shares * assets / supply < assets).
Proof.
  intros Hs Ha. split; [split|].
  - apply Z.div_pos; [|lia]. apply Z.mul_nonneg_nonneg; lia.
  - apply Z.div_le_upper_bound; [lia|]. nia.
  - intros Hpos. apply Z.div_lt_upper_bound; [lia|]. nia.
Qed.

(** X5. [withdraw] on well-formed books: the solvency guard never fires,
    the caller is paid the floor of the pro-rata share of the books, and
    books that hold assets still hold some afterwards. *)
Theorem adapter_withdraw_pays (sender : address) (shares : Z) (asset : ERC20.t)
  (st : t) :
  wf st ->
  withdraw sender shares asset st <> Err InsufficientAssets /\
  forall (amount : Z) (asset' : ERC20.t) (st' : t),
    withdraw sender shares asset st = Ok (amount, (asset', st')) ->
    amount = shares * _totalAssets st / _totalShares st /\
    0 <= amount <= _totalAssets st /\
    _totalAssets st' = _totalAssets st - amount /\
    _totalShares st' = _totalShares st - shares /\
    balanceOf sender st' = balanceOf sender st - shares /\
    (0 < _totalAssets st -> 0 < _totalAssets st').
Proof.
  intros Hwf. pose proof (adapter_shares_held st sender Hwf) as Hheld.
  destruct Hwf as (Hall & Hshares & Hmax & Hassets & Hrate).
  assert (Hts : (0 <? _totalShares st) = true) by (apply Z.ltb_lt; lia).
  split.
  - unfold withdraw, InsufficientAssets. rewrite Hts.
    assert (Hguard :
      forall u : unit,
        (match contract st with
         | AaveStrategy =>
             let* _ := require (0 <? shares) "Shares must be greater than 0" in
             require (shares <=? balanceOf sender st) "Insufficient shares"
         | SparkStrategy | UniswapHookStrategy =>
             require ((0 <? shares) && (shares <=? balanceOf sender st))
               "Insufficient shares"
         end) = Ok u -> 0 < shares <= balanceOf sender st).
    { intros u Hg. destruct (contract st).
      - apply bind_Ok in Hg as (u1 & Hpos & Hbal).
        apply require_Ok in Hpos, Hbal. lia.
      - apply require_Ok in Hg. apply andb_true_iff in Hg. lia.
      - apply require_Ok in Hg. apply andb_true_iff in Hg. lia. }
    destruct (match contract st with AaveStrategy => _ | _ => _ end)
      as [u|err] eqn:Hg; cbn [bind].
    + specialize (Hguard u eq_refl).
      unfold mul. destruct (shares * _totalAssets st <=? MAX_UINT256); cbn [bind];
        [|discriminate].
      unfold div. destruct (_totalShares st =? 0) eqn:Hz; cbn [bind]; [discriminate|].
      pose proof (adapter_pro_rata shares (_totalAssets st) (_totalShares st)
                    ltac:(lia) ltac:(lia)) as [[Hlo Hhi] _].
      apply Z.leb_le in Hhi. rewrite Hhi. cbn [bind require].
      unfold sub.
      destruct (shares <=? balanceOf sender st); cbn [bind]; [|discriminate].
      destruct (shares <=? _totalShares st); cbn [bind]; [|discriminate].
      rewrite Hhi. cbn [bind].
      destruct (ERC20.transfer _ _ _ _) as [[b a]|err] eqn:Hmove; cbn [bind];
        [discriminate|].
      apply Ledger.transfer_Err in Hmove as [name ->]. discriminate.
    + destruct (contract st); unfold require in Hg.
      * destruct (0 <? shares); cbn [bind] in Hg; [|congruence].
        destruct (shares <=? balanceOf sender st); congruence.
      * destruct ((0 <? shares) && (shares <=? balanceOf sender st)); congruence.
      * destruct ((0 <? shares) && (shares <=? balanceOf sender st)); congruence.
  - intros amount asset' st' Hrun.
    apply withdraw_Ok_inv in Hrun as (Hsh & Hamount & Hle & Hle' & _ & ->).
    rewrite Hts in Hamount. simpl.
    pose proof (adapter_pro_rata shares (_totalAssets st) (_totalShares st)
                  ltac:(lia) ltac:(lia)) as [[Hlo Hhi] Hstrict].
    rewrite <- Hamount in Hlo, Hhi, Hstrict.
    split; [exact Hamount|]. split; [lia|].
    split; [reflexivity|]. split; [reflexivity|].
    split; [unfold balanceOf at 1; simpl; now rewrite lookup_insert_eq|].
    intros Hpos. specialize (Hstrict Hpos). lia.
Qed.

(** X6. A round trip through an adapter at par costs one unit: the shares
    of a deposit of [amount], withdrawn at once, pay [amount - 1]; the
    unit stays in the adapter, on its books and in its tokens. *)
Theorem adapter_round_trip (sender : address) (amount shares paid : Z)
  (asset asset1 asset2 : ERC20.t) (st st1 st2 : t) :
  at_par st -> ERC20.wf asset -> sender <> this st ->
  deposit sender amount asset st = Ok (shares, (asset1, st1)) ->
  withdraw sender shares asset1 st1 = Ok (paid, (asset2, st2)) ->
  shares = amount /\ paid = amount - 1 /\
  _totalAssets st2 = _totalAssets st + 1 /\
  _totalShares st2 = _totalShares st /\
  balanceOf sender st2 = balanceOf sender st /\
  ERC20.balanceOf asset2 sender = ERC20.balanceOf asset sender - 1 /\
  ERC20.balanceOf asset2 (this st) = ERC20.balanceOf asset (this st) + 1.
Proof.
  intros [Hnonneg Hpar] Hwf Hne Hdep Hwd.
  apply deposit_Ok_inv in Hdep as (Hpos & -> & [b Hpull] & _ & _ & _ & ->).
  apply withdraw_Ok_inv in Hwd as (_ & Hpaid & _ & _ & [b' Hpay] & ->).
  simpl in Hpaid, Hpay |- *.
  assert (Hts : (0 <? _totalShares st + amount) = true) by (apply Z.ltb_lt; lia).
  rewrite Hts in Hpaid.
  assert (Hquot : amount * (_totalAssets st + amount) / (_totalShares st + amount)
                  = amount - 1).
  { replace (_totalShares st) with (_totalAssets st + 1) by lia.
    symmetry. apply (Z.div_unique_pos _ _ _ (_totalAssets st + 1)); [lia|ring]. }
  rewrite Hquot in Hpaid. subst paid.
  assert (Hamount : 0 <= amount) by lia.
  pose proof (Token.transferFrom_wf _ _ _ _ _ _ _ Hwf Hamount Hpull) as Hwf1.
  apply Token.transferFrom_Ok in Hpull as (_ & _ & _ & Hbal1 & _); [|exact Hwf|lia].
  apply Token.transfer_Ok in Hpay as (_ & _ & _ & (Hbal2 & _)); [|exact Hwf1|lia].
  split; [reflexivity|]. split; [reflexivity|]. split; [lia|]. split; [lia|].
  split.
  { unfold balanceOf at 1. simpl. rewrite lookup_insert_eq. simpl.
    unfold balanceOf at 1. simpl. rewrite lookup_insert_eq. simpl. lia. }
  split.
  - rewrite Hbal2, Hbal1. repeat case_decide; try congruence; lia.
  - rewrite Hbal2, Hbal1. repeat case_decide; try congruence; lia.
Qed.

(** X7. Deposits and withdrawals keep the books covered by the tokens the
    adapter holds, and so do the two setters; [accrueYield] raises the
    books by the daily yield and moves no token. *)
Theorem adapter_backing (sender : address) (c : call) (asset asset' : ERC20.t)
  (st st' : t) (word : Z) :
  wf st -> ERC20.wf asset -> call_ok c -> sender <> this st ->
  exec sender c asset st = Ok (word, (asset', st')) ->
  match c with
  | AccrueYield =>
      asset' = asset /\ _totalAssets st' = _totalAssets st + dailyYield st
  | _ => backed asset st -> backed asset' st'
  end.
Proof.
  intros Hst Hwf Hc Hne Hrun. unfold backed.
  destruct c as [amount|shares|r| |v]; simpl in Hrun.
  - apply deposit_Ok_inv in Hrun as (Hpos & _ & [b Hpull] & _ & _ & _ & ->).
    apply Token.transferFrom_Ok in Hpull as (_ & _ & _ & Hbal & _); [|exact Hwf|lia].
    simpl. rewrite Hbal. repeat case_decide; try congruence; lia.
  - apply withdraw_Ok_inv in Hrun as (Hsh & Hamount & Hle & _ & [b Hpay] & ->).
    assert (Hw : 0 <= word).
    { pose proof (adapter_shares_held st sender Hst) as Hheld.
      destruct Hst as (_ & _ & _ & Hassets & _).
      rewrite Hamount. destruct (0 <? _totalShares st); [|lia].
      apply Z.div_pos; [|lia]. apply Z.mul_nonneg_nonneg; lia. }
    apply Token.transfer_Ok in Hpay as (_ & _ & _ & (Hbal & _)); [|exact Hwf|exact Hw].
    simpl. rewrite Hbal. repeat case_decide; try congruence; lia.
  - injection Hrun as _ <- <-. simpl. auto.
  - apply bind_Ok in Hrun as (st1 & Hacc & Hrun). injection Hrun as _ <- <-.
    apply accrueYield_Ok_inv in Hacc as (_ & ->). simpl. auto.
  - destruct (contract st); try discriminate. injection Hrun as _ <- <-. simpl. auto.
Qed.

(** How the adapter scenario comes about. *)
Example scenario_aave1 :
  deposit Scenario.manager_address 400 Scenario.manager_funded Scenario.aave0
  = Ok (400, (Scenario.adapter_funded, Scenario.aave1)).
Proof. vm_compute. reflexivity. Qed.

Lemma adapter_wf_by_evaluation (st : t) : bool_decide (wf st) = true -> wf st.
Proof. intros Hb. apply bool_decide_eq_true in Hb. exact Hb. Qed.

Lemma token_wf_by_evaluation (tok : ERC20.t) :
  bool_decide (ERC20.wf tok) = true -> ERC20.wf tok.
Proof. intros Hb. apply bool_decide_eq_true in Hb. exact Hb. Qed.

(** The manager's deposit of 400 into the fresh Aave adapter. *)
Lemma adapter_books_kept_witness :
  exists (asset' : ERC20.t) (st' : t),
    exec Scenario.manager_address (Deposit 400) Scenario.manager_funded
      Scenario.aave0 = Ok (400, (asset', st')) /\
    wf st' /\ uint256 (yieldRate st').
Proof.
  exists Scenario.adapter_funded, Scenario.aave1.
  assert (Hrun : exec Scenario.manager_address (Deposit 400)
                   Scenario.manager_funded Scenario.aave0
                 = Ok (400, (Scenario.adapter_funded, Scenario.aave1)))
    by (vm_compute; reflexivity).
  split; [exact Hrun|].
  assert (Hwf : wf Scenario.aave0)
    by (apply adapter_wf_by_evaluation; vm_compute; reflexivity).
  assert (Hrate : uint256 (yieldRate Scenario.aave0))
    by (vm_compute; split; discriminate).
  assert (Hvol : uint256 (volatility Scenario.aave0))
    by (vm_compute; split; discriminate).
  assert (Hc : call_ok (Deposit 400)) by (vm_compute; split; discriminate).
  destruct (adapter_books_kept Scenario.manager_address (Deposit 400)
              Scenario.manager_funded Scenario.adapter_funded
              Scenario.aave0 Scenario.aave1 400 Hwf Hrate Hvol Hc Hrun)
    as (Hwf' & _ & _ & Hrate' & _).
  split; [exact Hwf'|exact Hrate'].
Defined.

(** The manager takes its 400 shares out again: 399 are paid and one unit
    stays on the books. *)
Lemma adapter_withdraw_pays_witness :
  exists (asset' : ERC20.t) (st' : t),
    withdraw Scenario.manager_address 400 Scenario.adapter_funded Scenario.aave1
      = Ok (399, (asset', st')) /\
    _totalAssets st' = 1.
Proof.
  destruct (withdraw Scenario.manager_address 400 Scenario.adapter_funded
              Scenario.aave1) as [[amount [asset' st']]|err] eqn:Hrun;
    [|vm_compute in Hrun; discriminate].
  assert (Hwf : wf Scenario.aave1)
    by (apply adapter_wf_by_evaluation; vm_compute; reflexivity).
  destruct (adapter_withdraw_pays Scenario.manager_address 400
              Scenario.adapter_funded Scenario.aave1 Hwf) as [_ Hpays].
  destruct (Hpays amount asset' st' Hrun) as (Hamount & _ & Hleft & _).
  assert (Hval : amount = 399) by (rewrite Hamount; vm_compute; reflexivity).
  subst amount. exists asset', st'. split; [reflexivity|].
  rewrite Hleft. vm_compute. reflexivity.
Defined.

(** Deposit 400, withdraw the 400 shares: 399 come back. *)
Lemma adapter_round_trip_witness :
  exists (asset1 asset2 : ERC20.t) (st1 st2 : t) (paid : Z),
    deposit Scenario.manager_address 400 Scenario.manager_funded Scenario.aave0
      = Ok (400, (asset1, st1)) /\
    withdraw Scenario.manager_address 400 asset1 st1 = Ok (paid, (asset2, st2)) /\
    paid = 399 /\
    ERC20.balanceOf asset2 Scenario.manager_address = 399.
Proof.
  destruct (withdraw Scenario.manager_address 400 Scenario.adapter_funded
              Scenario.aave1) as [[paid [asset2 st2]]|err] eqn:Hout;
    [|vm_compute in Hout; discriminate].
  exists Scenario.adapter_funded, asset2, Scenario.aave1, st2, paid.
  assert (Hin : deposit Scenario.manager_address 400 Scenario.manager_funded
                  Scenario.aave0
                = Ok (400, (Scenario.adapter_funded, Scenario.aave1)))
    by (vm_compute; reflexivity).
  assert (Hpar : at_par Scenario.aave0)
    by (vm_compute; split; [discriminate|reflexivity]).
  assert (Hwf : ERC20.wf Scenario.manager_funded)
    by (apply token_wf_by_evaluation; vm_compute; reflexivity).
  assert (Hne : Scenario.manager_address <> this Scenario.aave0)
    by (vm_compute; discriminate).
  destruct (adapter_round_trip Scenario.manager_address 400 400 paid
              Scenario.manager_funded Scenario.adapter_funded asset2
              Scenario.aave0 Scenario.aave1 st2 Hpar Hwf Hne Hin Hout)
    as (_ & Hpaid & _ & _ & _ & Hbal & _).
  split; [exact Hin|]. split; [exact Hout|]. split; [rewrite Hpaid; reflexivity|].
  rewrite Hbal. vm_compute. reflexivity.
Defined.

(** The deposit of 400 leaves the books of 400 covered by 400 tokens. *)
Lemma adapter_backing_witness :
  backed Scenario.manager_funded Scenario.aave0 /\
  backed Scenario.adapter_funded Scenario.aave1.
Proof.
  assert (Hbacked : backed Scenario.manager_funded Scenario.aave0)
    by (vm_compute; discriminate).
  split; [exact Hbacked|].
  apply (adapter_backing Scenario.manager_address (Deposit 400)
           Scenario.manager_funded Scenario.adapter_funded
           Scenario.aave0 Scenario.aave1 400).
  - apply adapter_wf_by_evaluation. vm_compute. reflexivity.
  - apply token_wf_by_evaluation. vm_compute. reflexivity.
  - vm_compute. split; discriminate.
  - vm_compute. discriminate.
  - vm_compute. reflexivity.
  - exact Hbacked.
Defined.

(** *** Yield on the books *)

Lemma dailyYield_full_rate (st : t) :
  dailyYield (setYieldRate (365 * 10 ^ 18) st) = _totalAssets st.
Proof.
  unfold dailyYield, setYieldRate. simpl.
  replace (_totalAssets st * (365 * 10 ^ 18))
    with (_totalAssets st * 10 ^ 18 * 365) by ring.
  rewrite Z.div_mul by discriminate. apply Z.div_mul. discriminate.
Qed.

(** X24. [setYieldRate] and [accrueYield] are open to every account, and
    between them they set the books at will: whoever calls
    [setYieldRate(365e18)] and then [accrueYield()] doubles the adapter's
    booked assets, while the shares, the holders' balances and the asset
    token's ledger stay as they were. *)
Theorem adapter_books_inflatable (sender : address) (asset : ERC20.t) (st : t) :
  0 <= _totalAssets st ->
  _totalAssets st * (365 * 10 ^ 18) <= MAX_UINT256 ->
  exists st' : t,
    (let* '(_, (asset1, st1)) := exec sender (SetYieldRate (365 * 10 ^ 18)) asset st in
     exec sender AccrueYield asset1 st1) = Ok (0, (asset, st')) /\
    _totalAssets st' = 2 * _totalAssets st /\
    _totalShares st' = _totalShares st /\
    _balances st' = _balances st.
Proof.
  intros Hpos Hfit. cbn [exec bind].
  unfold accrueYield.
  assert (Hmul : mul (_totalAssets (setYieldRate (365 * 10 ^ 18) st))
                   (yieldRate (setYieldRate (365 * 10 ^ 18) st))
                 = Ok (_totalAssets st * (365 * 10 ^ 18))).
  { unfold mul. simpl _totalAssets. simpl yieldRate.
    apply Z.leb_le in Hfit. now rewrite Hfit. }
  rewrite Hmul. cbn [bind]. unfold div.
  replace (365 =? 0) with false by reflexivity. cbn [bind].
  replace (10 ^ 18 =? 0) with false by reflexivity. cbn [bind].
  pose proof (dailyYield_full_rate st) as Hdaily.
  unfold dailyYield in Hdaily. simpl _totalAssets in Hdaily.
  simpl yieldRate in Hdaily. rewrite Hdaily.
  assert (Hadd : add (_totalAssets (setYieldRate (365 * 10 ^ 18) st)) (_totalAssets st)
                 = Ok (2 * _totalAssets st)).
  { simpl _totalAssets. rewrite add_Ok; [f_equal; lia|].
    assert (1 <= 365 * 10 ^ 18) by (vm_compute; discriminate). nia. }
  rewrite Hadd. cbn [bind]. eexists. split; [reflexivity|]. simpl. auto.
Qed.

(** An account that holds nothing in the Aave adapter of the scenario
    doubles its books of 400; the manager's 400 shares are then booked at
    798, which the adapter's 400 tokens do not cover, and the manager's
    withdrawal fails in the token. *)
Lemma adapter_books_inflatable_witness :
  exists st' : t,
    (let* '(_, (asset1, st1)) :=
       exec Scenario.user (SetYieldRate (365 * 10 ^ 18)) Scenario.adapter_funded
         Scenario.aave1 in
     exec Scenario.user AccrueYield asset1 st1)
    = Ok (0, (Scenario.adapter_funded, st')) /\
    _totalAssets st' = 800 /\
    withdraw Scenario.manager_address 400 Scenario.adapter_funded st'
    = Err (CustomError "ERC20InsufficientBalance").
Proof.
  destruct (adapter_books_inflatable Scenario.user Scenario.adapter_funded
              Scenario.aave1) as (st' & Hrun & Hbooks & _);
    [vm_compute; discriminate|vm_compute; discriminate|].
  exists st'. split; [exact Hrun|]. split; [rewrite Hbooks; reflexivity|].
  vm_compute in Hrun. injection Hrun as <-. vm_compute. reflexivity.
Defined.

(** *** Getting out of an adapter *)

(** X27. On well-formed books that are covered by the adapter's tokens, a
    holder's [withdraw] of up to their share balance goes through and
    pays [floor(shares * _totalAssets / _totalShares)], provided
    [shares * _totalAssets] fits a [uint256]. *)
Theorem adapter_withdraw_succeeds (sender : address) (shares : Z)
  (asset : ERC20.t) (st : t) :
  wf st -> backed asset st ->
  sender <> 0 -> this st <> 0 ->
  0 < shares <= balanceOf sender st ->
  shares * _totalAssets st <= MAX_UINT256 ->
  exists (asset' : ERC20.t) (st' : t),
    withdraw sender shares asset st
    = Ok (shares * _totalAssets st / _totalShares st, (asset', st')).
Proof.
  intros Hwf Hbacked Hsender Hthis Hshares Hfit.
  pose proof (adapter_shares_held st sender Hwf) as Hheld.
  destruct Hwf as (_ & _ & _ & Hassets & _).
  pose proof (adapter_pro_rata shares (_totalAssets st) (_totalShares st)
                ltac:(lia) ltac:(lia)) as [[Hlo Hhi] _].
  unfold withdraw.
  assert (Hguard :
    (match contract st with
     | AaveStrategy =>
         let* _ := require (0 <? shares) "Shares must be greater than 0" in
         require (shares <=? balanceOf sender st) "Insufficient shares"
     | SparkStrategy | UniswapHookStrategy =>
         require ((0 <? shares) && (shares <=? balanceOf sender st))
           "Insufficient shares"
     end) = Ok tt).
  { replace (0 <? shares) with true by (symmetry; apply Z.ltb_lt; lia).
    replace (shares <=? balanceOf sender st) with true
      by (symmetry; apply Z.leb_le; lia).
    now destruct (contract st). }
  rewrite Hguard. cbn [bind].
  replace (0 <? _totalShares st) with true by (symmetry; apply Z.ltb_lt; lia).
  unfold mul. apply Z.leb_le in Hfit. rewrite Hfit. cbn [bind].
  unfold div.
  replace (_totalShares st =? 0) with false by (symmetry; apply Z.eqb_neq; lia).
  cbn [bind].
  apply Z.leb_le in Hhi as Hhi'. rewrite Hhi'. cbn [require bind].
  repeat (rewrite sub_Ok by lia; cbn [bind]).
  destruct (Token.transfer_succeeds (this st) sender
              (shares * _totalAssets st / _totalShares st) asset Hthis Hsender
              ltac:(unfold backed in Hbacked; lia)) as [asset' Hpay].
  rewrite Hpay. cbn [bind]. eauto.
Qed.

(** The manager takes 100 of its 400 shares out of the Aave adapter of
    the scenario: 99 are paid. *)
Lemma adapter_withdraw_succeeds_witness :
  exists (asset' : ERC20.t) (st' : t),
    withdraw Scenario.manager_address 100 Scenario.adapter_funded Scenario.aave1
    = Ok (99, (asset', st')).
Proof.
  assert (Hwf : wf Scenario.aave1)
    by (apply adapter_wf_by_evaluation; vm_compute; reflexivity).
  assert (Hbacked : backed Scenario.adapter_funded Scenario.aave1)
    by (vm_compute; discriminate).
  assert (Hsender : Scenario.manager_address <> 0) by (vm_compute; discriminate).
  assert (Hthis : this Scenario.aave1 <> 0) by (vm_compute; discriminate).
  assert (Hshares : 0 < 100 <= balanceOf Scenario.manager_address Scenario.aave1)
    by (vm_compute; split; [reflexivity|discriminate]).
  assert (Hfit : 100 * _totalAssets Scenario.aave1 <= MAX_UINT256)
    by (vm_compute; discriminate).
  exact (adapter_withdraw_succeeds Scenario.manager_address 100
           Scenario.adapter_funded Scenario.aave1
           Hwf Hbacked Hsender Hthis Hshares Hfit).
Defined.

End Adapter.

(** ** The deployed system *)

Module System.

Import StrategyManager.
Import Deployment.

Ltac ok_inv := Ledger.ok_inv.

Lemma do_call_dispatch (m : t) (c : call) (x x1 : world) (tr tr1 : list call)
  (word : Z) :
  do_call m c (x, tr) = Ok (word, (x1, tr1)) ->
  dispatch (this m) c x = Ok (word, x1).
Proof.
  unfold do_call. simpl. intros Hrun.
  destruct (dispatch (this m) c x) as [[w x2]|]; cbn [bind] in Hrun; [|discriminate].
  now simplify_eq.
Qed.

Lemma totalAssets_of_Ok (v : address) (x : world) (totalAssets : Z) :
  totalAssets_of v x = Ok totalAssets ->
  v = vault_address x /\ totalAssets = Vault.totalAssets (ledger x).
Proof.
  unfold totalAssets_of, vault_address.
  destruct (v =? Vault.this (Vault.vault (ledger x))) eqn:Hv; [|discriminate].
  apply Z.eqb_eq in Hv. intros [= <-]. auto.
Qed.

(** *** The allowance a rebalance needs *)

Lemma transferFrom_unallowed (sender from to : address) (value : Z) (tok : ERC20.t) :
  ERC20.allowance tok from sender = 0 -> 0 < value ->
  ERC20.transferFrom sender from to value tok
  = Err (CustomError "ERC20InsufficientAllowance").
Proof.
  intros Hzero Hpos. unfold ERC20.transferFrom, ERC20._spendAllowance.
  rewrite Hzero.
  replace (0 =? MAX_UINT256) with false by (vm_compute; reflexivity).
  unfold revert_if. apply Z.ltb_lt in Hpos. rewrite Hpos. reflexivity.
Qed.

Lemma transfer_allowances (sender to : address) (value : Z) (tok tok' : ERC20.t)
  (b : bool) :
  ERC20.transfer sender to value tok = Ok (b, tok') ->
  ERC20._allowances tok' = ERC20._allowances tok.
Proof.
  unfold ERC20.transfer. intros Hrun. ok_inv. simplify_eq.
  eapply Ledger._transfer_allowances; eassumption.
Qed.

(** One venue, when the asset token allows the manager nothing from the
    vault: the venue is not funded, and the manager is still allowed
    nothing afterwards. *)
Lemma venue_unallowed (m : t) (strategy : address) (current target : Z)
  (x x1 : world) (tr tr1 : list call) :
  manager_allowance m x = 0 ->
  _rebalanceStrategy m strategy current target (x, tr) = Ok (x1, tr1) ->
  target <= current /\ manager_allowance m x1 = 0.
Proof.
  intros Hzero Hrun. unfold _rebalanceStrategy in Hrun.
  destruct (current <? target) eqn:Hlow.
  - exfalso. apply Z.ltb_lt in Hlow.
    apply bind_Ok in Hrun as (amount & Hamount & Hrun).
    apply sub_Ok_inv in Hamount as [-> _].
    apply bind_Ok in Hrun as ([ok [x2 tr2]] & Hpull & _).
    apply do_call_dispatch in Hpull. simpl in Hpull.
    destruct (asset m =? asset_address x); [|discriminate].
    unfold manager_allowance in Hzero.
    assert (Hpos : 0 < target - current) by lia.
    rewrite (transferFrom_unallowed _ _ (this m) _ _ Hzero Hpos) in Hpull.
    discriminate.
  - apply Z.ltb_ge in Hlow. split; [exact Hlow|].
    destruct (target <? current) eqn:Hhigh; [|now simplify_eq].
    apply bind_Ok in Hrun as (amount & _ & Hrun).
    destruct (adapter_for m strategy) as [adapter|]; [|now simplify_eq].
    apply bind_Ok in Hrun as ([w2 [x2 tr2]] & Hwithdraw & Hrun).
    injection Hrun as <- <-.
    apply do_call_dispatch in Hwithdraw. simpl in Hwithdraw.
    destruct (adapters x !! adapter) as [st|]; [|discriminate].
    ok_inv. simplify_eq.
    match goal with
    | H : Strategy.withdraw _ _ _ _ = Ok _ |- _ =>
        apply Adapter.withdraw_Ok_inv in H as (_ & _ & _ & _ & [b Hpay] & _)
    end.
    apply transfer_allowances in Hpay.
    unfold manager_allowance, ERC20.allowance in *. simpl. now rewrite Hpay.
Qed.

(** X18. A rebalance funds a venue by [transferFrom(vault, manager, amount)]
    on the asset token.  When the token records no allowance from the
    vault to the manager, a rebalance that goes through makes no deposit
    and pulls nothing from the vault: every venue is at or above its
    target and the calls made are withdrawals; a rebalance that has a
    venue below its target reverts. *)
Theorem rebalance_unallowed (e : Env) (m : t) (x : world) :
  manager_allowance m x = 0 ->
  (forall (x' : world) (calls : list call),
     rebalance e m x = Ok (x', calls) ->
     deposits calls = [] /\
     Forall (fun c => exists adapter shares, c = Adapter_withdraw adapter shares) calls /\
     manager_allowance m x' = 0) /\
  (forall totalAssets aaveBalance morphoBalance sparkBalance uniswapBalance : Z,
     getAllocationStatus m x =
       Ok (totalAssets, aaveBalance, morphoBalance, sparkBalance, uniswapBalance,
           currentAllocation m) ->
     aaveBalance < totalAssets * aave (currentAllocation m) / 10000 \/
     morphoBalance < totalAssets * morpho (currentAllocation m) / 10000 \/
     sparkBalance < totalAssets * spark (currentAllocation m) / 10000 \/
     uniswapBalance < totalAssets * uniswap (currentAllocation m) / 10000 ->
     exists err : error, rebalance e m x = Err err).
Proof.
  intros Hzero.
  assert (Hsteps :
    forall (x' : world) (calls : list call),
      rebalance e m x = Ok (x', calls) ->
      exists totalAssets cA cM cS cU : Z,
        getAllocationStatus m x =
          Ok (totalAssets, cA, cM, cS, cU, currentAllocation m) /\
        totalAssets * aave (currentAllocation m) / 10000 <= cA /\
        totalAssets * morpho (currentAllocation m) / 10000 <= cM /\
        totalAssets * spark (currentAllocation m) / 10000 <= cS /\
        totalAssets * uniswap (currentAllocation m) / 10000 <= cU /\
        manager_allowance m x' = 0 /\
        calls =
          (venue_calls m (aaveAdapter m) cA
             (totalAssets * aave (currentAllocation m) / 10000)
           ++ venue_calls m (morphoAdapter m) cM
                (totalAssets * morpho (currentAllocation m) / 10000)
           ++ venue_calls m (sparkAdapter m) cS
                (totalAssets * spark (currentAllocation m) / 10000)
           ++ venue_calls m (uniswapAdapter m) cU
                (totalAssets * uniswap (currentAllocation m) / 10000))%list).
  { intros x' calls Hrun.
    apply Controller.rebalance_steps in Hrun
      as (totalAssets & cA & cM & cS & cU & [x1 tr1] & [x2 tr2] & [x3 tr3] & _
          & Htotal & HA & HM & HS & HU & R1 & R2 & R3 & R4).
    exists totalAssets, cA, cM, cS, cU.
    pose proof (Controller._rebalanceStrategy_calls m (aaveAdapter m) _ _ _ _
                  ltac:(unfold is_adapter; tauto) R1) as K1.
    pose proof (Controller._rebalanceStrategy_calls m (morphoAdapter m) _ _ _ _
                  ltac:(unfold is_adapter; tauto) R2) as K2.
    pose proof (Controller._rebalanceStrategy_calls m (sparkAdapter m) _ _ _ _
                  ltac:(unfold is_adapter; tauto) R3) as K3.
    pose proof (Controller._rebalanceStrategy_calls m (uniswapAdapter m) _ _ _ _
                  ltac:(unfold is_adapter; tauto) R4) as K4.
    simpl in K1, K2, K3, K4.
    apply venue_unallowed in R1 as [L1 Z1]; [|exact Hzero].
    apply venue_unallowed in R2 as [L2 Z2]; [|exact Z1].
    apply venue_unallowed in R3 as [L3 Z3]; [|exact Z2].
    apply venue_unallowed in R4 as [L4 Z4]; [|exact Z3].
    split.
    { unfold getAllocationStatus. rewrite Htotal, HA, HM, HS, HU. reflexivity. }
    repeat (split; [assumption|]).
    rewrite K4, K3, K2, K1. simpl. now rewrite <- !app_assoc. }
  split.
  - intros x' calls Hrun.
    destruct (Hsteps x' calls Hrun)
      as (totalAssets & cA & cM & cS & cU & _ & L1 & L2 & L3 & L4 & Hz & ->).
    assert (Hvenue : forall strategy current target,
              target <= current ->
              deposits (venue_calls m strategy current target) = [] /\
              Forall (fun c => exists adapter shares,
                                 c = Adapter_withdraw adapter shares)
                (venue_calls m strategy current target)).
    { intros strategy current target Hle. unfold venue_calls.
      replace (current <? target) with false by (symmetry; apply Z.ltb_ge; lia).
      destruct (target <? current); simpl; split; try reflexivity.
      - constructor; [eauto|constructor].
      - constructor. }
    destruct (Hvenue (aaveAdapter m) _ _ L1) as [D1 F1].
    destruct (Hvenue (morphoAdapter m) _ _ L2) as [D2 F2].
    destruct (Hvenue (sparkAdapter m) _ _ L3) as [D3 F3].
    destruct (Hvenue (uniswapAdapter m) _ _ L4) as [D4 F4].
    split; [|split; [|exact Hz]].
    + rewrite !Controller.deposits_app, D1, D2, D3, D4. reflexivity.
    + repeat (apply Forall_app; split); assumption.
  - intros totalAssets cA cM cS cU Hstatus Hbelow.
    destruct (rebalance e m x) as [[x' calls]|err] eqn:Hrun; [|eauto].
    exfalso.
    destruct (Hsteps x' calls eq_refl)
      as (totalAssets' & cA' & cM' & cS' & cU' & Hstatus' & L1 & L2 & L3 & L4 & _).
    rewrite Hstatus in Hstatus'. simplify_eq. lia.
Qed.

(** The deployment holding the depositor's 1000 units: the rebalance,
    which has four venues to fund, reverts.  The deployment as the
    constructors leave it: the vault is empty, every target is 0, and the
    rebalance goes through without a deposit. *)
Lemma rebalance_unallowed_witness :
  (exists err : error,
     rebalance Scenario.at_deploy Scenario.manager1 Scenario.pool = Err err) /\
  exists (x' : world) (calls : list call),
    rebalance Scenario.at_deploy Scenario.manager1 Scenario.pool_empty
      = Ok (x', calls) /\
    deposits calls = [] /\
    manager_allowance Scenario.manager1 x' = 0.
Proof.
  split.
  - assert (Hzero : manager_allowance Scenario.manager1 Scenario.pool = 0)
      by (vm_compute; reflexivity).
    destruct (rebalance_unallowed Scenario.at_deploy Scenario.manager1
                Scenario.pool Hzero) as [_ Hreverts].
    apply (Hreverts 1000 0 0 0 0); [vm_compute; reflexivity|].
    left. vm_compute. reflexivity.
  - assert (Hzero : manager_allowance Scenario.manager1 Scenario.pool_empty = 0)
      by (vm_compute; reflexivity).
    destruct (rebalance Scenario.at_deploy Scenario.manager1 Scenario.pool_empty)
      as [[x' calls]|err] eqn:Hrun; [|vm_compute in Hrun; discriminate].
    exists x', calls. split; [reflexivity|].
    destruct (rebalance_unallowed Scenario.at_deploy Scenario.manager1
                Scenario.pool_empty Hzero) as [Hnone _].
    destruct (Hnone x' calls Hrun) as (Hdeposits & _ & Hstill).
    split; [exact Hdeposits|exact Hstill].
Defined.

(** *** What a rebalance can move *)

Lemma balanceOf_of_unplaced (m : t) (adapter : address) (x : world) (current : Z) :
  unplaced m x -> balanceOf_of adapter (this m) x = Ok current -> current = 0.
Proof.
  intros Hnone. unfold balanceOf_of.
  destruct (adapters x !! adapter) as [st|] eqn:Hst; [|discriminate].
  intros [= <-]. exact (Hnone adapter st Hst).
Qed.

(** One venue in which the manager holds nothing, when the asset token
    allows the manager nothing from the vault: it can be neither funded
    nor drawn down. *)
Lemma venue_inert (m : t) (strategy : address) (target : Z)
  (x x1 : world) (tr tr1 : list call) :
  manager_allowance m x = 0 -> unplaced m x ->
  _rebalanceStrategy m strategy 0 target (x, tr) = Ok (x1, tr1) ->
  target <= 0 /\ x1 = x /\ tr1 = tr.
Proof.
  intros Hzero Hnone Hrun.
  destruct (venue_unallowed _ _ _ _ _ _ _ _ Hzero Hrun) as [Hle _].
  split; [exact Hle|].
  unfold _rebalanceStrategy in Hrun.
  replace (0 <? target) with false in Hrun by (symmetry; apply Z.ltb_ge; lia).
  destruct (target <? 0) eqn:Hhigh; [|now simplify_eq].
  apply Z.ltb_lt in Hhigh.
  apply bind_Ok in Hrun as (amount & Hamount & Hrun).
  apply sub_Ok_inv in Hamount as [-> _].
  destruct (adapter_for m strategy) as [adapter|]; [|now simplify_eq].
  exfalso.
  apply bind_Ok in Hrun as ([w2 [x2 tr2]] & Hwithdraw & _).
  apply do_call_dispatch in Hwithdraw. simpl in Hwithdraw.
  destruct (adapters x !! adapter) as [st|] eqn:Hst; [|discriminate].
  pose proof (Hnone adapter st Hst) as Hempty. simpl in Hempty.
  ok_inv. simplify_eq.
  match goal with
  | H : Strategy.withdraw _ _ _ _ = Ok _ |- _ =>
      apply Adapter.withdraw_Ok_inv in H as (Hpos & _ & Hheld & _)
  end.
  lia.
Qed.

(** A quotient by 10000 that is not positive has a numerator below
    10000. *)
Lemma target_none (totalAssets weight : Z) :
  totalAssets * weight / 10000 <= 0 -> totalAssets * weight < 10000.
Proof.
  intros Hq.
  pose proof (Z.div_mod (totalAssets * weight) 10000 ltac:(lia)) as Hdm.
  pose proof (Z.mod_pos_bound (totalAssets * weight) 10000 ltac:(lia)) as Hmod.
  lia.
Qed.

(** X17. What a rebalance can move on the repository's contracts.  When
    the asset token records no allowance from the vault to the manager and
    the manager holds no share in any adapter, a rebalance that goes
    through has moved nothing: it made no call, every contract is in the
    state it was in, the status view showed no balance in any venue and
    every target was 0 or less.  Once the manager stores weights (they
    sum to 10000) and the vault holds 4 units or more, some target is
    positive and every rebalance reverts. *)
Theorem rebalance_inert (e : Env) (m : t) (x : world) :
  manager_allowance m x = 0 ->
  unplaced m x ->
  (forall (x' : world) (calls : list call),
     rebalance e m x = Ok (x', calls) ->
     x' = x /\ calls = [] /\
     getAllocationStatus m x =
       Ok (Vault.totalAssets (ledger x), 0, 0, 0, 0, currentAllocation m) /\
     Vault.totalAssets (ledger x) * aave (currentAllocation m) / 10000 <= 0 /\
     Vault.totalAssets (ledger x) * morpho (currentAllocation m) / 10000 <= 0 /\
     Vault.totalAssets (ledger x) * spark (currentAllocation m) / 10000 <= 0 /\
     Vault.totalAssets (ledger x) * uniswap (currentAllocation m) / 10000 <= 0) /\
  (initialized m = true -> allocated m -> 4 <= Vault.totalAssets (ledger x) ->
   exists err : error, rebalance e m x = Err err).
Proof.
  intros Hzero Hnone.
  assert (Hsteps :
    forall (x' : world) (calls : list call),
      rebalance e m x = Ok (x', calls) ->
      x' = x /\ calls = [] /\
      getAllocationStatus m x =
        Ok (Vault.totalAssets (ledger x), 0, 0, 0, 0, currentAllocation m) /\
      Vault.totalAssets (ledger x) * aave (currentAllocation m) / 10000 <= 0 /\
      Vault.totalAssets (ledger x) * morpho (currentAllocation m) / 10000 <= 0 /\
      Vault.totalAssets (ledger x) * spark (currentAllocation m) / 10000 <= 0 /\
      Vault.totalAssets (ledger x) * uniswap (currentAllocation m) / 10000 <= 0).
  { intros x' calls Hrun.
    apply Controller.rebalance_steps in Hrun
      as (totalAssets & cA & cM & cS & cU & [x1 tr1] & [x2 tr2] & [x3 tr3] & _
          & Htotal & HA & HM & HS & HU & R1 & R2 & R3 & R4).
    assert (Hstatus : getAllocationStatus m x =
                      Ok (totalAssets, cA, cM, cS, cU, currentAllocation m)).
    { unfold getAllocationStatus. rewrite Htotal, HA, HM, HS, HU. reflexivity. }
    simpl in Htotal, HA, HM, HS, HU.
    apply totalAssets_of_Ok in Htotal as [_ ->].
    apply (balanceOf_of_unplaced _ _ _ _ Hnone) in HA, HM, HS, HU. subst cA cM cS cU.
    apply venue_inert in R1 as (L1 & -> & ->); [|exact Hzero|exact Hnone].
    apply venue_inert in R2 as (L2 & -> & ->); [|exact Hzero|exact Hnone].
    apply venue_inert in R3 as (L3 & -> & ->); [|exact Hzero|exact Hnone].
    apply venue_inert in R4 as (L4 & -> & ->); [|exact Hzero|exact Hnone].
    repeat split; assumption || reflexivity. }
  split; [exact Hsteps|].
  intros Hinit Hweights Hfunds.
  destruct (rebalance e m x) as [[x' calls]|err] eqn:Hrun; [|eauto].
  exfalso.
  destruct (Hsteps x' calls eq_refl) as (_ & _ & _ & L1 & L2 & L3 & L4).
  apply target_none in L1, L2, L3, L4.
  unfold allocated in Hweights. rewrite Hinit in Hweights.
  unfold sum_weights, BASIS_POINTS in Hweights.
  destruct Hweights as (Hsum & W1 & W2 & W3 & W4).
  nia.
Qed.

Lemma unplaced_by_evaluation (m : t) (x : world) :
  bool_decide (unplaced m x) = true -> unplaced m x.
Proof. intros Hb. apply bool_decide_eq_true in Hb. exact Hb. Qed.

(** The deployment as the constructors leave it: the rebalance goes
    through and moves nothing.  After the depositor's 1000 units are in
    the vault it reverts. *)
Lemma rebalance_inert_witness :
  rebalance Scenario.at_deploy Scenario.manager1 Scenario.pool_empty
  = Ok (Scenario.pool_empty, []) /\
  Vault.totalAssets (ledger Scenario.pool) = 1000 /\
  exists err : error,
    rebalance Scenario.at_deploy Scenario.manager1 Scenario.pool = Err err.
Proof.
  split; [|split; [vm_compute; reflexivity|]].
  - assert (Hzero : manager_allowance Scenario.manager1 Scenario.pool_empty = 0)
      by (vm_compute; reflexivity).
    assert (Hnone : unplaced Scenario.manager1 Scenario.pool_empty)
      by (apply unplaced_by_evaluation; vm_compute; reflexivity).
    destruct (rebalance Scenario.at_deploy Scenario.manager1 Scenario.pool_empty)
      as [[x' calls]|err] eqn:Hrun; [|vm_compute in Hrun; discriminate].
    destruct (rebalance_inert Scenario.at_deploy Scenario.manager1
                Scenario.pool_empty Hzero Hnone) as [Hsame _].
    destruct (Hsame x' calls Hrun) as (-> & -> & _). reflexivity.
  - assert (Hzero : manager_allowance Scenario.manager1 Scenario.pool = 0)
      by (vm_compute; reflexivity).
    assert (Hnone : unplaced Scenario.manager1 Scenario.pool)
      by (apply unplaced_by_evaluation; vm_compute; reflexivity).
    destruct (rebalance_inert Scenario.at_deploy Scenario.manager1
                Scenario.pool Hzero Hnone) as [_ Hreverts].
    apply Hreverts.
    + reflexivity.
    + vm_compute. repeat split; discriminate.
    + vm_compute. discriminate.
Defined.

End System.

(** ** The vault's test suite

    The six tests of [YieldDonatingVaultTest], run on the model: each
    assertion of the suite holds. *)

Module Suite.

Import VaultTest.

Example testDeposit :
  exists s : Vault.state,
    (let* s0 := setUp in approve_and_deposit s0) = Ok s /\
    ERC20.balanceOf (Vault.token (Vault.vault s)) user = 100 * e18 /\
    ERC20.balanceOf (Vault.asset s) vault_address = 100 * e18.
Proof. eexists. split; [vm_compute; reflexivity|]. split; vm_compute; reflexivity. Qed.

Example testWithdraw :
  exists s : Vault.state,
    (let* s0 := setUp in
     let* s1 := approve_and_deposit s0 in
     let shares := ERC20.balanceOf (Vault.token (Vault.vault s1)) user in
     let* '(_, s2) := Vault.redeem (as_user 1) shares user user s1 in
     Ok s2) = Ok s /\
    ERC20.balanceOf (Vault.token (Vault.vault s)) user = 0.
Proof. eexists. split; vm_compute; reflexivity. Qed.

Example testDonationAddress :
  exists s0 s : Vault.state,
    setUp = Ok s0 /\
    Vault.donationAddress (Vault.vault s0) = donationAddress /\
    Vault.setDonationAddress (as_test 1) 0x789 s0 = Ok s /\
    Vault.donationAddress (Vault.vault s) = 0x789.
Proof.
  eexists. eexists. split; [vm_compute; reflexivity|].
  split; [reflexivity|]. split; vm_compute; reflexivity.
Qed.

Example testAccumulatedYield :
  (let* s0 := setUp in
   let* s1 := approve_and_deposit s0 in
   let* s2 := simulate_yield s1 in
   Vault.getAccumulatedYield s2) = Ok (10 * e18).
Proof. vm_compute. reflexivity. Qed.

Example testYieldDonation :
  exists s2 s3 : Vault.state,
    (let* s0 := setUp in
     let* s1 := approve_and_deposit s0 in
     simulate_yield s1) = Ok s2 /\
    Vault.donateYield (as_test (1 + 86400 + 1)) s2 = Ok (10 * e18, s3) /\
    ERC20.balanceOf (Vault.asset s3) donationAddress
    - ERC20.balanceOf (Vault.asset s2) donationAddress = 10 * e18.
Proof.
  eexists. eexists. split; [vm_compute; reflexivity|].
  split; vm_compute; reflexivity.
Qed.

Example testCannotDonateTooSoon :
  (let* s0 := setUp in
   let* s1 := approve_and_deposit s0 in
   let* s2 := simulate_yield s1 in
   Vault.donateYield (as_test 1) s2) = Err (Revert "Donation cooldown not met").
Proof. vm_compute. reflexivity. Qed.

End Suite.
